(** * DatumProducer: the frame-batch producer of OpenPose

    A shallow embedding of [include/openpose/producer/datumProducer.hpp]
    (class template [op::DatumProducer]) and the properties its
    specification states about it.

    The class pulls one logical frame (one image per synchronised view) from
    a [Producer], fills a vector of [Datum] with it and hands it back with a
    flag telling whether the source is still open.  Everything the class
    touches is a collaborator living outside the header: the [Producer]
    (a virtual interface), OpenCV's [cv::Mat] and [cv::cvtColor], and
    OpenPose's [error] and [log].  The embedding keeps the control flow of the
    header line by line and threads the mutable state explicitly. *)

From Stdlib Require Import ZArith Lia Bool List String Ascii Floats DecimalString.
From stdpp Require Import base tactics option list strings.

#[local] Open Scope Z_scope.

(** ** Machine numbers *)

(** [std::numeric_limits<unsigned long long>::max()]. *)
Definition ULLONG_MAX : Z := 2 ^ 64 - 1.

(** Arithmetic on [unsigned long long] and [unsigned int] is modulo
    [2^64] and [2^32]. *)
Definition ull (z : Z) : Z := z mod 2 ^ 64.
Definition uint (z : Z) : Z := z mod 2 ^ 32.

(** [int] is 32 bits wide, two's complement.  The language leaves signed
    overflow without meaning; the model wraps, as the targets OpenPose
    builds for do. *)
Definition INT_MIN : Z := - 2 ^ 31.
Definition INT_MAX : Z := 2 ^ 31 - 1.
Definition int (z : Z) : Z := (z + 2 ^ 31) mod 2 ^ 32 - 2 ^ 31.

(** [double] is IEEE 754 binary64: the kernel's primitive floats. *)
Definition double : Set := float.

(** Integer to [double], rounding to nearest even: [(double)frameFirst] and
    the implicit conversion of the [int] operand in [double + int]. *)
Definition double_of_Z (z : Z) : double :=
  SF2Prim (binary_normalize prec emax z 0 false).

(** [double] to integer, truncating towards zero. *)
Definition double_trunc (d : double) : Z :=
  match Prim2SF d with
  | S754_finite s m e =>
      cond_Zopp s (if 0 <=? e then Z.pos m * 2 ^ e else Z.pos m / 2 ^ (- e))
  | _ => 0
  end.

(** [(unsigned long long)d].  A value outside the range of the target type
    (or a NaN) has no defined conversion; the model reduces it modulo [2^64]. *)
Definition ull_of_double (d : double) : Z := ull (double_trunc d).

(** [std::to_string] on an unsigned value: its decimal digits. *)
Definition to_string (n : Z) : string :=
  NilZero.string_of_uint (N.to_uint (Z.to_N n)).

(** ** OpenCV: images *)

(** [cv::Mat], by value: dimensions, number of channels and the samples in
    row-major order, the channels of a pixel next to each other.  Assignment
    of a [cv::Mat] shares the buffer; nothing in the header writes into a
    buffer in place (the grey conversion allocates its destination), so the
    value is all that can be observed. *)
Record Mat : Type := mkMat {
  mat_rows : nat;
  mat_cols : nat;
  mat_cn : Z;
  mat_data : list Z
}.

(** [cv::Mat()]: no data; its type is [CV_8UC1], one channel. *)
Definition Mat_default : Mat := mkMat 0 0 1 [].

(** [cv::Mat::channels()]. *)
Definition channels (m : Mat) : Z := mat_cn m.

(** [cv::Mat::empty()]: [data == 0 || total() == 0]. *)
Definition Mat_empty (m : Mat) : bool :=
  match mat_data m with
  | [] => true
  | _ :: _ => (mat_rows m * mat_cols m =? 0)%nat
  end.

(** [std::vector::empty()]. *)
Definition vector_empty {A : Type} (v : list A) : bool :=
  match v with [] => true | _ :: _ => false end.

(** The one conversion code the header uses. *)
Inductive ColorConversionCodes : Set := CV_GRAY2BGR.

(** Grey to BGR, which is OpenCV's and not among the sources, as the
    specification describes it: channel replication, every sample written to
    the three channels of its pixel. *)
Definition gray2bgr (src : Mat) : Mat :=
  mkMat (mat_rows src) (mat_cols src) 3
        (flat_map (fun g => [g; g; g]) (mat_data src)).

(** The property identifier of the frame cursor, [CV_CAP_PROP_POS_FRAMES]. *)
Definition CV_CAP_PROP_POS_FRAMES : Z := 1.

(** ** Datum *)

(** Modelled from the spec: [op::Datum] is declared in
    [openpose/core/datum.hpp], which is not among the sources.  The fields
    are those the header assigns, which are the ones the specification lists
    for a Datum: identity ([name], [frameNumber]), the pixel buffers and the
    optional calibration triple. *)
Record Datum : Type := mkDatum {
  name : string;
  frameNumber : Z;
  cvInputData : Mat;
  cvOutputData : Mat;
  cameraMatrix : Mat;
  cameraExtrinsics : Mat;
  cameraIntrinsics : Mat
}.

(** The element [std::vector::resize] value-initialises. *)
Definition Datum_default : Datum :=
  mkDatum "" 0 Mat_default Mat_default Mat_default Mat_default Mat_default.

(** [TDatumsNoPtr], the template argument: [DATUM_BASE_NO_PTR], a
    [std::vector<Datum>]. *)
Abbreviation TDatumsNoPtr := (list Datum) (only parsing).

(** ** Outcomes *)

(** What a [catch (const std::exception& e)] can see: an exception raised by
    a collaborator, or the one [error] raises, which carries the message and
    the place it was reported from.  [what] is [e.what()]. *)
Inductive exception : Type :=
| StdException (msg : string)
| FatalError (msg : string) (line : Z) (function file : string).

Definition what (e : exception) : string :=
  match e with
  | StdException msg => msg
  | FatalError msg _ _ _ => msg
  end.

(** The outcome of a piece of code: it returns, it throws, or it subscripts a
    vector outside its bounds.  The last has no meaning in the language and
    no handler catches it; the model keeps it apart so that it can be
    talked about. *)
Inductive Result (A : Type) : Type :=
| Ok (a : A)
| Throw (e : exception)
| OutOfBounds.
Arguments Ok {A} a.
Arguments Throw {A} e.
Arguments OutOfBounds {A}.

(** [v[i]]. *)
Definition subscript {A : Type} (v : list A) (i : nat) : Result A :=
  match v !! i with
  | Some x => Ok x
  | None => OutOfBounds
  end.

(** [cv::cvtColor(src, dst, code)], returning [dst].  OpenCV asserts the
    number of source channels and throws when the assertion fails. *)
Definition cvtColor (src : Mat) (code : ColorConversionCodes) : Result Mat :=
  match code with
  | CV_GRAY2BGR =>
      if channels src =? 1 then Ok (gray2bgr src)
      else Throw (StdException "scn == 1 && (dcn == 3 || dcn == 4)")
  end.

(** Modelled from the spec: [op::error] is defined in
    [openpose/utilities/errorAndLog.hpp], which is not among the sources.
    The specification describes it as the single fatal-error mechanism: it
    carries a message and a source location tag and is raised synchronously
    out of the call that reports it. *)
Definition error (message : string) (line : Z) (function file : string)
  : Result unit :=
  Throw (FatalError message line function file).

(** [__FILE__] inside the header. *)
Definition FILE : string := "include/openpose/producer/datumProducer.hpp".

(** Modelled from the spec: [op::Priority] is declared with the logging
    utilities, outside the sources; the header only names [High]. *)
Inductive Priority : Set := High.

(** ** The frame source *)

(** Modelled from the spec: [op::ProducerType] is declared in
    [openpose/producer/enumClasses.hpp], outside the sources.  The
    specification lists a live-capture device, a seekable file-backed stream
    and a directory enumerator; the header only names [Webcam]. *)
Inductive ProducerType : Set := ImageDirectory | Video | Webcam.

(** [op::Producer] is a class of virtual member functions, declared in
    [openpose/producer/producer.hpp], outside the sources: it is a parameter
    of everything that follows.  An implementation has a state of its own,
    [P]; every member function the header invokes may change it and may
    throw.  Nothing else is assumed about a source. *)
Class Producer (P : Type) : Type := {
  getType : P -> Result ProducerType * P;
  isOpened : P -> Result bool * P;
  release : P -> Result unit * P;
  get : Z -> P -> Result double * P;
  set : Z -> double -> P -> Result unit * P;
  getNextFrameName : P -> Result string * P;
  getFrames : P -> Result (list Mat) * P;
  getCameraMatrices : P -> Result (list Mat) * P;
  getCameraExtrinsics : P -> Result (list Mat) * P;
  getCameraIntrinsics : P -> Result (list Mat) * P
}.

(** The member functions of the source the producer invokes, with their
    arguments, in the order of invocation.  This is ghost state: it lets a
    statement say that an operation was, or was not, requested. *)
Inductive Call : Type :=
| call_getType
| call_isOpened
| call_release
| call_get (propId : Z)
| call_set (propId : Z) (value : double)
| call_getNextFrameName
| call_getFrames
| call_getCameraMatrices
| call_getCameraExtrinsics
| call_getCameraIntrinsics.

(** ** The state of a producer object *)

(** The data members of [DatumProducer], by value: [spProducer] stands for
    the source the pointer designates, and [spVideoSeek] for the pointer
    together with the pair it designates ([None] is [nullptr]).  The pair is
    shared with the playback controller, which may overwrite it between two
    calls; a call reads it once and writes it once.  [logged] and [calls] are
    ghost state: the messages given to [log], and the member functions of the
    source invoked so far. *)
Record DatumProducer (P : Type) : Type := mkDatumProducer {
  mNumberFramesToProcess : Z;
  spProducer : P;
  mGlobalCounter : Z;
  mNumberConsecutiveEmptyFrames : Z;
  spVideoSeek : option (bool * Z);
  logged : list (string * Priority);
  calls : list Call
}.
Arguments mkDatumProducer {P}.
Arguments mNumberFramesToProcess {P}.
Arguments spProducer {P}.
Arguments mGlobalCounter {P}.
Arguments mNumberConsecutiveEmptyFrames {P}.
Arguments spVideoSeek {P}.
Arguments logged {P}.
Arguments calls {P}.

Definition with_spProducer {P} (p : P) (s : DatumProducer P) : DatumProducer P :=
  mkDatumProducer (mNumberFramesToProcess s) p (mGlobalCounter s)
    (mNumberConsecutiveEmptyFrames s) (spVideoSeek s) (logged s) (calls s).

Definition with_mGlobalCounter {P} (n : Z) (s : DatumProducer P) : DatumProducer P :=
  mkDatumProducer (mNumberFramesToProcess s) (spProducer s) n
    (mNumberConsecutiveEmptyFrames s) (spVideoSeek s) (logged s) (calls s).

Definition with_mNumberConsecutiveEmptyFrames {P} (n : Z) (s : DatumProducer P)
  : DatumProducer P :=
  mkDatumProducer (mNumberFramesToProcess s) (spProducer s) (mGlobalCounter s)
    n (spVideoSeek s) (logged s) (calls s).

Definition with_spVideoSeek {P} (v : option (bool * Z)) (s : DatumProducer P)
  : DatumProducer P :=
  mkDatumProducer (mNumberFramesToProcess s) (spProducer s) (mGlobalCounter s)
    (mNumberConsecutiveEmptyFrames s) v (logged s) (calls s).

Definition with_logged {P} (l : list (string * Priority)) (s : DatumProducer P)
  : DatumProducer P :=
  mkDatumProducer (mNumberFramesToProcess s) (spProducer s) (mGlobalCounter s)
    (mNumberConsecutiveEmptyFrames s) (spVideoSeek s) l (calls s).

Definition with_calls {P} (l : list Call) (s : DatumProducer P) : DatumProducer P :=
  mkDatumProducer (mNumberFramesToProcess s) (spProducer s) (mGlobalCounter s)
    (mNumberConsecutiveEmptyFrames s) (spVideoSeek s) (logged s) l.

(** ** Member functions as state transformers *)

(** A member function takes the object and gives back an outcome and the
    object as it left it.  What was written before a [throw] stays written. *)
Definition M (P A : Type) : Type := DatumProducer P -> Result A * DatumProducer P.

Definition ret {P A} (a : A) : M P A := fun s => (Ok a, s).

Definition bind {P A B} (m : M P A) (k : A -> M P B) : M P B :=
  fun s =>
    match m s with
    | (Ok a, s') => k a s'
    | (Throw e, s') => (Throw e, s')
    | (OutOfBounds, s') => (OutOfBounds, s')
    end.

(** [try { m } catch (const std::exception& e) { handler }]. *)
Definition try_catch {P A} (m : M P A) (handler : exception -> M P A) : M P A :=
  fun s =>
    match m s with
    | (Throw e, s') => handler e s'
    | r => r
    end.

(** An outcome that does not touch the object. *)
Definition lift {P A} (r : Result A) : M P A := fun s => (r, s).

(** Reading the object. *)
Definition read {P A} (f : DatumProducer P -> A) : M P A := fun s => (Ok (f s), s).

(** Writing one member. *)
Definition write {P} (f : DatumProducer P -> DatumProducer P) : M P unit :=
  fun s => (Ok tt, f s).

(** Invoking a member function of the source through [spProducer]: the call
    is recorded and the source is left in the state the function gives back. *)
Definition invoked {P} (c : Call) (p : P) (s : DatumProducer P) : DatumProducer P :=
  with_spProducer p (with_calls (calls s ++ [c]) s).

Definition invoke {P A} (c : Call) (f : P -> Result A * P) : M P A :=
  fun s => let '(r, p) := f (spProducer s) in (r, invoked c p s).

(** [op::log(message, priority)]. *)
Definition log {P} (message : string) (priority : Priority) : M P unit :=
  write (fun s => with_logged (logged s ++ [(message, priority)]) s).

Declare Scope cxx_scope.
Delimit Scope cxx_scope with cxx.
Notation "'let*' x := m 'in' k" := (bind m (fun x => k))
  (at level 10, x pattern, m at level 100, k at level 200) : cxx_scope.
Notation "m ;;; k" := (bind m (fun _ => k))
  (at level 100, k at level 200, right associativity) : cxx_scope.
Notation "'when' b 'then' m" := (if b then m else ret tt)
  (at level 10, b at level 98, m at level 99) : cxx_scope.
#[local] Open Scope cxx_scope.

#[global] Instance ProducerType_eq_dec : EqDecision ProducerType.
Proof. solve_decision. Defined.

(** Field updates of a [Datum]. *)
Definition set_name (v : string) (d : Datum) : Datum :=
  mkDatum v (frameNumber d) (cvInputData d) (cvOutputData d)
    (cameraMatrix d) (cameraExtrinsics d) (cameraIntrinsics d).
Definition set_frameNumber (v : Z) (d : Datum) : Datum :=
  mkDatum (name d) v (cvInputData d) (cvOutputData d)
    (cameraMatrix d) (cameraExtrinsics d) (cameraIntrinsics d).
Definition set_cvInputData (v : Mat) (d : Datum) : Datum :=
  mkDatum (name d) (frameNumber d) v (cvOutputData d)
    (cameraMatrix d) (cameraExtrinsics d) (cameraIntrinsics d).
Definition set_cvOutputData (v : Mat) (d : Datum) : Datum :=
  mkDatum (name d) (frameNumber d) (cvInputData d) v
    (cameraMatrix d) (cameraExtrinsics d) (cameraIntrinsics d).
Definition set_cameraMatrix (v : Mat) (d : Datum) : Datum :=
  mkDatum (name d) (frameNumber d) (cvInputData d) (cvOutputData d)
    v (cameraExtrinsics d) (cameraIntrinsics d).
Definition set_cameraExtrinsics (v : Mat) (d : Datum) : Datum :=
  mkDatum (name d) (frameNumber d) (cvInputData d) (cvOutputData d)
    (cameraMatrix d) v (cameraIntrinsics d).
Definition set_cameraIntrinsics (v : Mat) (d : Datum) : Datum :=
  mkDatum (name d) (frameNumber d) (cvInputData d) (cvOutputData d)
    (cameraMatrix d) (cameraExtrinsics d) v.

(** [std::vector::resize(n)]. *)
Definition resize (n : nat) (v : TDatumsNoPtr) : TDatumsNoPtr :=
  take n v ++ replicate (n - length v) Datum_default.

(** [for (auto i = first ; ... ; i++) body], over the indices the loop
    visits. *)
Fixpoint for_each {P A} (body : nat -> A -> M P A) (indices : list nat) (a : A)
  : M P A :=
  match indices with
  | [] => ret a
  | i :: rest => let* a' := body i a in for_each body rest a'
  end.

(** ** DatumProducer *)

(** [checkIfTooManyConsecutiveEmptyFrames] (lines 173-182).  The counter is
    passed by reference: the function gives back the value it leaves in it,
    which it has written before it reports the error. *)
Definition checkIfTooManyConsecutiveEmptyFrames
  (numberConsecutiveEmptyFrames : Z) (emptyFrame : bool) : Result unit * Z :=
  let numberConsecutiveEmptyFrames :=
    if emptyFrame then uint (numberConsecutiveEmptyFrames + 1) else 0 in
  let threshold := 500 in
  if threshold <=? numberConsecutiveEmptyFrames then
    (error ("Detected too many (" +:+ to_string numberConsecutiveEmptyFrames
            +:+ ") empty frames in a row.")
       181 "checkIfTooManyConsecutiveEmptyFrames" FILE,
     numberConsecutiveEmptyFrames)
  else (Ok tt, numberConsecutiveEmptyFrames).

Section DatumProducer.

Context {P : Type} `{Producer P}.

(** The member initialisers of the constructor (lines 53-58). *)
Definition DatumProducer_members (producerSharedPtr : P) (frameFirst frameLast : Z)
  (videoSeekSharedPtr : option (bool * Z)) : DatumProducer P :=
  {| mNumberFramesToProcess :=
       if negb (frameLast =? ULLONG_MAX) then ull (frameLast - frameFirst)
       else frameLast;
     spProducer := producerSharedPtr;
     mGlobalCounter := 0;
     mNumberConsecutiveEmptyFrames := 0;
     spVideoSeek := videoSeekSharedPtr;
     logged := [];
     calls := [] |}.

(** The body of the constructor (lines 59-69). *)
Definition DatumProducer_body (frameFirst : Z) : M P unit :=
  try_catch
    (let* type := invoke call_getType getType in
     when (bool_decide (type <> Webcam)) then
       invoke (call_set CV_CAP_PROP_POS_FRAMES (double_of_Z frameFirst))
              (set CV_CAP_PROP_POS_FRAMES (double_of_Z frameFirst)))
    (fun e => lift (error (what e) 67 "DatumProducer" FILE)).

(** The constructor: [Ok] when an object comes out of it, with the object;
    on [Throw] no object exists, and the state given back only tells what
    became of the source. *)
Definition DatumProducer_new (producerSharedPtr : P) (frameFirst frameLast : Z)
  (videoSeekSharedPtr : option (bool * Z)) : Result unit * DatumProducer P :=
  DatumProducer_body frameFirst
    (DatumProducer_members producerSharedPtr frameFirst frameLast
       videoSeekSharedPtr).

(** Lines 77-82: the last desired frame. *)
Definition checkLastFrame : M P unit :=
  let* numberFramesToProcess := read mNumberFramesToProcess in
  let* globalCounter := read mGlobalCounter in
  when (negb (numberFramesToProcess =? ULLONG_MAX)
        && (numberFramesToProcess <? globalCounter)) then
    invoke call_release release.

(** Lines 88-98: fast forward and backward. *)
Definition seekVideo : M P unit :=
  let* videoSeek := read spVideoSeek in
  match videoSeek with
  | Some (first, second) =>
      let increment := int (second - (if first then 1 else 0)) in
      (when (negb (increment =? 0)) then
         let* position :=
           invoke (call_get CV_CAP_PROP_POS_FRAMES) (get CV_CAP_PROP_POS_FRAMES) in
         let value := (position + double_of_Z increment)%float in
         invoke (call_set CV_CAP_PROP_POS_FRAMES value)
                (set CV_CAP_PROP_POS_FRAMES value)) ;;;
      write (fun s =>
               with_spVideoSeek
                 (option_map (fun v => (fst v, 0)) (spVideoSeek s)) s)
  | None => ret tt
  end.

(** Lines 99-104: what is fetched from the source. *)
Definition readProducer
  : M P (string * Z * list Mat * list Mat * list Mat * list Mat) :=
  let* nextFrameName := invoke call_getNextFrameName getNextFrameName in
  let* position :=
    invoke (call_get CV_CAP_PROP_POS_FRAMES) (get CV_CAP_PROP_POS_FRAMES) in
  let nextFrameNumber := ull_of_double position in
  let* cvMats := invoke call_getFrames getFrames in
  let* cameraMatrices := invoke call_getCameraMatrices getCameraMatrices in
  let* cameraExtrinsics := invoke call_getCameraExtrinsics getCameraExtrinsics in
  let* cameraIntrinsics := invoke call_getCameraIntrinsics getCameraIntrinsics in
  ret (nextFrameName, nextFrameNumber, cvMats, cameraMatrices,
       cameraExtrinsics, cameraIntrinsics).

(** Lines 111-135: the first element, through the reference [datum]. *)
Definition fillFirstDatum (nextFrameName : string) (nextFrameNumber : Z)
  (cvMats cameraMatrices cameraExtrinsics cameraIntrinsics : list Mat)
  (datums : TDatumsNoPtr) : M P TDatumsNoPtr :=
  let* datum := lift (subscript datums 0) in
  let datum := set_name nextFrameName datum in
  let datum := set_frameNumber nextFrameNumber datum in
  let* cvMats0 := lift (subscript cvMats 0) in
  let datum := set_cvInputData cvMats0 datum in
  let* datum :=
    if negb (vector_empty cameraMatrices) then
      let* m := lift (subscript cameraMatrices 0) in
      let datum := set_cameraMatrix m datum in
      let* e := lift (subscript cameraExtrinsics 0) in
      let datum := set_cameraExtrinsics e datum in
      let* i := lift (subscript cameraIntrinsics 0) in
      ret (set_cameraIntrinsics i datum)
    else ret datum in
  let* datum :=
    if negb (channels (cvInputData datum) =? 3) then
      let commonMessage := "Input images must be 3-channel BGR." in
      if channels (cvInputData datum) =? 1 then
        log (commonMessage +:+ " Converting grey image into BGR.") High ;;;
        let* dst := lift (cvtColor (cvInputData datum) CV_GRAY2BGR) in
        ret (set_cvInputData dst datum)
      else
        lift (error commonMessage 133 "checkIfRunningAndGetDatum" FILE) ;;;
        ret datum
    else ret datum in
  let datum := set_cvOutputData (cvInputData datum) datum in
  ret (<[0%nat := datum]> datums).

(** Lines 142-152: the body of the loop over the other views.  [datum] is
    still the reference to the first element. *)
Definition fillDatumI
  (cvMats cameraMatrices cameraExtrinsics cameraIntrinsics : list Mat)
  (i : nat) (datums : TDatumsNoPtr) : M P TDatumsNoPtr :=
  let* datum := lift (subscript datums 0) in
  let* datumI := lift (subscript datums i) in
  let datumI := set_name (name datum) datumI in
  let datumI := set_frameNumber (frameNumber datum) datumI in
  let* cvMatsI := lift (subscript cvMats i) in
  let datumI := set_cvInputData cvMatsI datumI in
  let datumI := set_cvOutputData (cvInputData datumI) datumI in
  let* datumI :=
    if (i <? length cameraMatrices)%nat then
      let* m := lift (subscript cameraMatrices i) in
      let datumI := set_cameraMatrix m datumI in
      let* e := lift (subscript cameraExtrinsics i) in
      let datumI := set_cameraExtrinsics e datumI in
      let* k := lift (subscript cameraIntrinsics i) in
      ret (set_cameraIntrinsics k datumI)
    else ret datumI in
  ret (<[i := datumI]> datums).

(** Lines 109-154: the vector of datums for a non-empty set of views.  The
    loop counter is an [unsigned int]; a vector cannot hold the [2^32]
    images it would take to wrap it, so the model counts in [nat]. *)
Definition fillDatums (nextFrameName : string) (nextFrameNumber : Z)
  (cvMats cameraMatrices cameraExtrinsics cameraIntrinsics : list Mat)
  (datums : TDatumsNoPtr) : M P TDatumsNoPtr :=
  let datums := resize (length cvMats) datums in
  let* datums :=
    fillFirstDatum nextFrameName nextFrameNumber cvMats cameraMatrices
      cameraExtrinsics cameraIntrinsics datums in
  if (1 <? length datums)%nat then
    for_each
      (fillDatumI cvMats cameraMatrices cameraExtrinsics cameraIntrinsics)
      (seq 1 (length datums - 1)) datums
  else ret datums.

(** Line 106: the stall check, with the member
    [mNumberConsecutiveEmptyFrames] passed by reference. *)
Definition stall_check (emptyFrame : bool) : M P unit :=
  fun s =>
    let '(r, n) :=
      checkIfTooManyConsecutiveEmptyFrames (mNumberConsecutiveEmptyFrames s)
        emptyFrame in
    (r, with_mNumberConsecutiveEmptyFrames n s).

(** Lines 105-161: from the stall check to the counter.  The vector comes in
    as the empty one the shared pointer was made with; what goes out is the
    shared pointer: [None] is [nullptr], [Some v] points to the vector [v].
    The disjunction at line 106 short-circuits: [cvMats[0]] is only looked at
    in a vector that has a first element. *)
Definition processFrames (datumProducerRunning : bool)
  (nextFrameName : string) (nextFrameNumber : Z)
  (cvMats cameraMatrices cameraExtrinsics cameraIntrinsics : list Mat)
  (datums : TDatumsNoPtr) : M P (option TDatumsNoPtr) :=
  stall_check
    (match cvMats with [] => true | cvMats0 :: _ => Mat_empty cvMats0 end) ;;;
  if negb (vector_empty cvMats) then
    let* datums :=
      fillDatums nextFrameName nextFrameNumber cvMats cameraMatrices
        cameraExtrinsics cameraIntrinsics datums in
    let* datums0 := lift (subscript datums 0) in
    let datums :=
      if negb datumProducerRunning || Mat_empty (cvInputData datums0)
      then None else Some datums in
    (when (bool_decide (datums <> None)) then
       write (fun s => with_mGlobalCounter (ull (mGlobalCounter s + 1)) s)) ;;;
    ret datums
  else ret (Some datums).

(** [checkIfRunningAndGetDatum] (lines 71-171). *)
Definition checkIfRunningAndGetDatum : M P (bool * option TDatumsNoPtr) :=
  try_catch
    (let datums : TDatumsNoPtr := [] in
     checkLastFrame ;;;
     let* datumProducerRunning := invoke call_isOpened isOpened in
     if datumProducerRunning then
       seekVideo ;;;
       let* (nextFrameName, nextFrameNumber, cvMats, cameraMatrices,
             cameraExtrinsics, cameraIntrinsics) := readProducer in
       let* datums :=
         processFrames datumProducerRunning nextFrameName nextFrameNumber
           cvMats cameraMatrices cameraExtrinsics cameraIntrinsics datums in
       ret (datumProducerRunning, datums)
     else ret (datumProducerRunning, Some datums))
    (fun e =>
       lift (error (what e) 168 "checkIfRunningAndGetDatum" FILE) ;;;
       ret (false, Some [])).

End DatumProducer.

(** ** A source to run the producer on *)

(** A small implementation of [Producer], for running the member functions
    on concrete inputs: a stream that reports a fixed set of views on every
    read and advances its cursor by one, closes when released, and whose
    cursor can be moved unless [src_seekable] is off, in which case [set]
    throws. *)
Record Source : Type := mkSource {
  src_type : ProducerType;
  src_opened : bool;
  src_seekable : bool;
  src_position : double;
  src_frameName : string;
  src_frames : list Mat;
  src_cameraMatrices : list Mat;
  src_cameraExtrinsics : list Mat;
  src_cameraIntrinsics : list Mat
}.

Definition src_with_opened (b : bool) (p : Source) : Source :=
  mkSource (src_type p) b (src_seekable p) (src_position p) (src_frameName p)
    (src_frames p) (src_cameraMatrices p) (src_cameraExtrinsics p)
    (src_cameraIntrinsics p).

Definition src_with_position (d : double) (p : Source) : Source :=
  mkSource (src_type p) (src_opened p) (src_seekable p) d (src_frameName p)
    (src_frames p) (src_cameraMatrices p) (src_cameraExtrinsics p)
    (src_cameraIntrinsics p).

#[global] Instance Source_Producer : Producer Source := {|
  getType p := (Ok (src_type p), p);
  isOpened p := (Ok (src_opened p), p);
  release p := (Ok tt, src_with_opened false p);
  get _ p := (Ok (src_position p), p);
  set _ value p :=
    if src_seekable p then (Ok tt, src_with_position value p)
    else (Throw (StdException "the cursor cannot be moved"), p);
  getNextFrameName p := (Ok (src_frameName p), p);
  getFrames p := (Ok (src_frames p), src_with_position (src_position p + 1)%float p);
  getCameraMatrices p := (Ok (src_cameraMatrices p), p);
  getCameraExtrinsics p := (Ok (src_cameraExtrinsics p), p);
  getCameraIntrinsics p := (Ok (src_cameraIntrinsics p), p)
|}.

(** Images to feed it: one pixel wide, with the given channels. *)
Definition pixel (samples : list Z) : Mat :=
  mkMat 1 1 (Z.of_nat (length samples)) samples.

(** An image with a type of [cn] channels and no data. *)
Definition no_image (cn : Z) : Mat := mkMat 0 0 cn [].

(** A video stream at frame 0 that reports [frames] on every read. *)
Definition video (frames : list Mat) : Source :=
  mkSource Video true true 0%float "frame" frames [] [] [].

(** A closed stream: what a source looks like once it has been released or
    has run out of frames. *)
Definition closed_video : Source :=
  mkSource Video false true 0%float "frame" [] [] [] [].

(** A stream whose cursor cannot be moved: [set] throws. *)
Definition stuck_video (frames : list Mat) : Source :=
  mkSource Video true false 7%float "frame" frames [] [] [].

(** A webcam whose cursor cannot be moved: the constructor asks no seek of
    it, so a producer can be made on it. *)
Definition stuck_webcam (frames : list Mat) : Source :=
  mkSource Webcam true false 7%float "frame" frames [] [] [].

(** A stereo rig: two views of three channels, with calibration for both. *)
Definition stereo : Source :=
  mkSource Video true true 0%float "frame"
    [pixel [10; 20; 30]; pixel [40; 50; 60]]
    [pixel [1]; pixel [2]] [pixel [3]; pixel [4]] [pixel [5]; pixel [6]].

(** ** The vocabulary of the properties *)

(** The notice logged when a grey image is converted. *)
Definition grey_notice : string * Priority :=
  ("Input images must be 3-channel BGR. Converting grey image into BGR.", High).

(** The error reported for a first view that has neither one nor three
    channels. *)
Definition layout_error : exception :=
  FatalError "Input images must be 3-channel BGR." 133
    "checkIfRunningAndGetDatum" FILE.

(** The message of the stall error for a counter of 500. *)
Definition stall_error : exception :=
  FatalError "Detected too many (500) empty frames in a row." 181
    "checkIfTooManyConsecutiveEmptyFrames" FILE.

(** What the handler of the constructor (line 67) makes of an exception. *)
Definition construction_error (e : exception) : exception :=
  FatalError (what e) 67 "DatumProducer" FILE.

(** What the handler at line 166 makes of an exception it caught. *)
Definition reported (e : exception) : exception :=
  FatalError (what e) 168 "checkIfRunningAndGetDatum" FILE.

(** The three assignments of calibration data to element [i], behind the
    guard on the length of [cameraMatrices] alone: nothing is copied when
    [cameraMatrices] has no element [i]; otherwise the three vectors are
    subscripted at [i]. *)
Definition calibrated (cameraMatrices cameraExtrinsics cameraIntrinsics : list Mat)
  (i : nat) (d : Datum) : Result Datum :=
  match cameraMatrices !! i with
  | None => Ok d
  | Some m =>
      match cameraExtrinsics !! i, cameraIntrinsics !! i with
      | Some e, Some k =>
          Ok (set_cameraIntrinsics k (set_cameraExtrinsics e (set_cameraMatrix m d)))
      | _, _ => OutOfBounds
      end
  end.

(** What the guarded copy leaves in a calibration field of element [i] of a
    fresh vector: element [i] of [values] when [cameraMatrices] has an
    element [i], the value-initialised matrix otherwise. *)
Definition calibration_of (cameraMatrices values : list Mat) (i : nat) : Mat :=
  match cameraMatrices !! i with
  | Some _ => default Mat_default (values !! i)
  | None => Mat_default
  end.

(** Element [i] of a delivered vector, as a function of what was fetched:
    the shared identity, the image of view [i], and the calibration of
    view [i] when there is one. *)
Definition datum_of (nextFrameName : string) (nextFrameNumber : Z)
  (cameraMatrices cameraExtrinsics cameraIntrinsics : list Mat)
  (i : nat) (image : Mat) : Datum :=
  mkDatum nextFrameName nextFrameNumber image image
    (calibration_of cameraMatrices cameraMatrices i)
    (calibration_of cameraMatrices cameraExtrinsics i)
    (calibration_of cameraMatrices cameraIntrinsics i).

(** The vector for the views [image0 :: rest]: every element made by
    [datum_of] from its index and its image. *)
Definition batch_of (nextFrameName : string) (nextFrameNumber : Z)
  (cM cE cI : list Mat) (image0 : Mat) (rest : list Mat) : list Datum :=
  imap (datum_of nextFrameName nextFrameNumber cM cE cI) (image0 :: rest).

(** The subscripts of the calibration vectors at [i] are inside them. *)
Definition in_bounds_at (cM cE cI : list Mat) (i : nat) : Prop :=
  (i < length cM -> i < length cE /\ i < length cI)%nat.

(** The same for every element from [a] up to [n], [n] excluded. *)
Definition in_bounds_from (cM cE cI : list Mat) (a n : nat) : Prop :=
  forall i, (a <= i < n)%nat -> in_bounds_at cM cE cI i.

#[global] Instance in_bounds_at_decision cM cE cI i :
  Decision (in_bounds_at cM cE cI i).
Proof. unfold in_bounds_at. apply _. Defined.

#[global] Instance in_bounds_from_dec cM cE cI a n :
  Decision (in_bounds_from cM cE cI a n).
Proof.
  refine
    (cast_if
       (decide
          (n <= a \/ length cM <= a \/
           (Nat.min n (length cM) <= length cE /\
            Nat.min n (length cM) <= length cI))%nat));
    unfold in_bounds_from, in_bounds_at.
  - intros i Hr Hl. lia.
  - intros B.
    match goal with N : ~ _ |- False => apply N end.
    destruct (decide (n <= a)%nat) as [| Hn]; [left; assumption |].
    destruct (decide (length cM <= a)%nat) as [| Hm]; [right; left; assumption |].
    right. right.
    specialize (B (Nat.min n (length cM) - 1)%nat ltac:(lia) ltac:(lia)). lia.
Defined.

(** A list of calls without a move of the cursor. *)
Definition no_seek (l : list Call) : Prop :=
  forall propId value, call_set propId value ∉ l.

(** The stall check fed with the emptiness of one read after the other,
    from the counter [n]; it stops at the first read that makes it throw. *)
Fixpoint feed (reads : list bool) (n : Z) : Result unit * Z :=
  match reads with
  | [] => (Ok tt, n)
  | emptyFrame :: rest =>
      match checkIfTooManyConsecutiveEmptyFrames n emptyFrame with
      | (Ok _, n') => feed rest n'
      | r => r
      end
  end.

(** A call delivered a batch: it returned a vector with a datum in it. *)
Definition delivered (r : Result (bool * option (list Datum))) : bool :=
  match r with
  | Ok (_, Some (_ :: _)) => true
  | _ => false
  end.

(** The number of batches a run of calls delivered. *)
Definition batches (rs : list (Result (bool * option (list Datum)))) : Z :=
  Z.of_nat (length (filter (fun r => delivered r = true) rs)).

Section Vocabulary.

Context {P : Type} `{Producer P}.

(** [s'] differs from [s] only by what happened to the source: the members
    of the producer object are the same, the source may have changed, and
    the calls made are those of [s] followed by new ones. *)
Definition source_only (s s' : DatumProducer P) : Prop :=
  mNumberFramesToProcess s' = mNumberFramesToProcess s /\
  mGlobalCounter s' = mGlobalCounter s /\
  mNumberConsecutiveEmptyFrames s' = mNumberConsecutiveEmptyFrames s /\
  spVideoSeek s' = spVideoSeek s /\
  logged s' = logged s /\
  exists l, calls s' = calls s ++ l.

(** An outcome of the body of the [try], seen from outside. *)
Definition caught {A} (r : Result A * DatumProducer P)
  : Result A * DatumProducer P :=
  match r with
  | (Throw e, s) => (Throw (reported e), s)
  | _ => r
  end.

(** The loop, after the first element was made from [image0]. *)
Definition finish_batch (nextFrameName : string) (nextFrameNumber : Z)
  (cM cE cI : list Mat) (image0 : Mat) (rest : list Mat) (s : DatumProducer P)
  : Result (list Datum) * DatumProducer P :=
  if decide (in_bounds_from cM cE cI 1 (S (length rest)))
  then (Ok (batch_of nextFrameName nextFrameNumber cM cE cI image0 rest), s)
  else (OutOfBounds, s).

(** The decision taken on a filled vector [ds] (lines 155-160). *)
Definition deliver (running : bool) (ds : list Datum) (s : DatumProducer P)
  : Result (option (list Datum)) * DatumProducer P :=
  match ds with
  | [] => (OutOfBounds, s)
  | d0 :: _ =>
      if negb running || Mat_empty (cvInputData d0) then (Ok None, s)
      else (Ok (Some ds), with_mGlobalCounter (ull (mGlobalCounter s + 1)) s)
  end.

(** In a call on the object [s] the range check returns, the source reports
    that it is open, the seek block returns and the source hands over the
    frame name, the frame number, the views and the calibration vectors,
    which leaves the object as [s4]. *)
Definition fetches (s : DatumProducer P)
  (nextFrameName : string) (nextFrameNumber : Z) (cvMats cM cE cI : list Mat)
  (s4 : DatumProducer P) : Prop :=
  exists s1 p2 s3,
    checkLastFrame s = (Ok tt, s1) /\
    isOpened (spProducer s1) = (Ok true, p2) /\
    seekVideo (invoked call_isOpened p2 s1) = (Ok tt, s3) /\
    readProducer s3 = (Ok (nextFrameName, nextFrameNumber, cvMats, cM, cE, cI), s4).

(** A source that reports closed once it has been released. *)
Definition release_closes : Prop :=
  forall p p' : P, release p = (Ok tt, p') ->
  exists p'', isOpened p' = (Ok false, p'').

End Vocabulary.

(** What the playback controller does to the shared pair between two calls:
    nothing, or it overwrites it.  Without a pair there is nothing to write. *)
Definition controller_writes {P} (w : option (bool * Z)) (s : DatumProducer P)
  : DatumProducer P :=
  match spVideoSeek s, w with
  | Some _, Some v => with_spVideoSeek (Some v) s
  | _, _ => s
  end.

(** The pull loop of the caller, for as many calls as [ws] is long: what the
    calls gave back, in order, and the object after the last one. *)
Fixpoint run_calls {P} `{Producer P} (ws : list (option (bool * Z)))
  (s : DatumProducer P)
  : list (Result (bool * option (list Datum))) * DatumProducer P :=
  match ws with
  | [] => ([], s)
  | w :: rest =>
      let '(r, s1) := checkIfRunningAndGetDatum (controller_writes w s) in
      let '(rs, s2) := run_calls rest s1 in
      (r :: rs, s2)
  end.

(** The condition at lines 78-79: the range is bounded and the counter is
    past its size. *)
Definition past_range {P} (s : DatumProducer P) : bool :=
  negb (mNumberFramesToProcess s =? ULLONG_MAX)
  && (mNumberFramesToProcess s <? mGlobalCounter s).

Section Effects.

Context {P : Type} `{Producer P}.

(** The call from line 99 on, for a source that reported open: the fetch,
    the stall check, the vector, and the pair that is returned. *)
Definition fetch_and_fill : M P (bool * option TDatumsNoPtr) :=
  let* (nextFrameName, nextFrameNumber, cvMats, cameraMatrices,
        cameraExtrinsics, cameraIntrinsics) := readProducer in
  let* datums :=
    processFrames true nextFrameName nextFrameNumber cvMats cameraMatrices
      cameraExtrinsics cameraIntrinsics [] in
  ret (true, datums).

(** A property of the source that every member function used to query and
    read it keeps (lines 84, 95 and 99-104), whatever the function gives
    back. *)
Definition kept_by_queries (Inv : P -> Prop) : Prop :=
  (forall p r p', isOpened p = (r, p') -> Inv p -> Inv p') /\
  (forall propId p r p', get propId p = (r, p') -> Inv p -> Inv p') /\
  (forall p r p', getNextFrameName p = (r, p') -> Inv p -> Inv p') /\
  (forall p r p', getFrames p = (r, p') -> Inv p -> Inv p') /\
  (forall p r p', getCameraMatrices p = (r, p') -> Inv p -> Inv p') /\
  (forall p r p', getCameraExtrinsics p = (r, p') -> Inv p -> Inv p') /\
  (forall p r p', getCameraIntrinsics p = (r, p') -> Inv p -> Inv p').

(** A property of the source that [release] keeps. *)
Definition kept_by_release (Inv : P -> Prop) : Prop :=
  forall p r p', release p = (r, p') -> Inv p -> Inv p'.

(** A property of the source that [set] keeps. *)
Definition kept_by_set (Inv : P -> Prop) : Prop :=
  forall propId value p r p', set propId value p = (r, p') -> Inv p -> Inv p'.

(** Lines 77-82 on the source: [p1] is the source as [release] left it when
    the counter is past the range, and the source of [s] itself otherwise. *)
Definition released (s : DatumProducer P) (p1 : P) : Prop :=
  if past_range s then release (spProducer s) = (Ok tt, p1)
  else p1 = spProducer s.

(** Lines 88-98 on the source: from [p2], nothing without a pair or with a
    delta of 0; otherwise the position is read, and [p4] is the source as the
    move to that position plus the delta left it. *)
Definition sought (s : DatumProducer P) (p2 p4 : P) : Prop :=
  match spVideoSeek s with
  | None => p4 = p2
  | Some (first, second) =>
      let delta := int (second - (if first then 1 else 0)) in
      if delta =? 0 then p4 = p2
      else
        exists position p3,
          get CV_CAP_PROP_POS_FRAMES p2 = (Ok position, p3) /\
          set CV_CAP_PROP_POS_FRAMES (position + double_of_Z delta)%float p3
          = (Ok tt, p4)
  end.

(** Lines 99-104 on the source: the six member functions, each applied to
    the source as the one before left it, from [p4] to [p10]. *)
Definition fetched (p4 p10 : P) (nextFrameName : string) (nextFrameNumber : Z)
  (cvMats cM cE cI : list Mat) : Prop :=
  exists p5 position p6 p7 p8 p9,
    getNextFrameName p4 = (Ok nextFrameName, p5) /\
    get CV_CAP_PROP_POS_FRAMES p5 = (Ok position, p6) /\
    nextFrameNumber = ull_of_double position /\
    getFrames p6 = (Ok cvMats, p7) /\
    getCameraMatrices p7 = (Ok cM, p8) /\
    getCameraExtrinsics p8 = (Ok cE, p9) /\
    getCameraIntrinsics p9 = (Ok cI, p10).

End Effects.

(** A source that keeps a record of the member functions applied to it, in
    order.  It is a webcam that is always open and has one frame of three
    channels for every read. *)
#[global] Instance Recorder : Producer (list Call) := {|
  getType p := (Ok Webcam, p ++ [call_getType]);
  isOpened p := (Ok true, p ++ [call_isOpened]);
  release p := (Ok tt, p ++ [call_release]);
  get propId p := (Ok 0%float, p ++ [call_get propId]);
  set propId value p := (Ok tt, p ++ [call_set propId value]);
  getNextFrameName p := (Ok "frame", p ++ [call_getNextFrameName]);
  getFrames p := (Ok [pixel [1; 2; 3]], p ++ [call_getFrames]);
  getCameraMatrices p := (Ok [], p ++ [call_getCameraMatrices]);
  getCameraExtrinsics p := (Ok [], p ++ [call_getCameraExtrinsics]);
  getCameraIntrinsics p := (Ok [], p ++ [call_getCameraIntrinsics])
|}.

(** Somewhere in the sequence, [k] reads in a row are empty. *)
Definition has_empty_run (k : nat) (reads : list bool) : Prop :=
  exists before after, reads = before ++ repeat true k ++ after.

(** * Properties *)

(** ** Running the state transformers *)

Section Steps.

Context {P : Type}.

Lemma bind_Ok {A B} (m : M P A) (k : A -> M P B) s a s' :
  m s = (Ok a, s') -> bind m k s = k a s'.
Proof. unfold bind. intros ->. reflexivity. Qed.

Lemma bind_Throw {A B} (m : M P A) (k : A -> M P B) s e s' :
  m s = (Throw e, s') -> bind m k s = (Throw e, s').
Proof. unfold bind. intros ->. reflexivity. Qed.

Lemma bind_OutOfBounds {A B} (m : M P A) (k : A -> M P B) s s' :
  m s = (OutOfBounds, s') -> bind m k s = (OutOfBounds, s').
Proof. unfold bind. intros ->. reflexivity. Qed.

Lemma bind_Ok_inv {A B} (m : M P A) (k : A -> M P B) s b s'' :
  bind m k s = (Ok b, s'') ->
  exists a s', m s = (Ok a, s') /\ k a s' = (Ok b, s'').
Proof.
  unfold bind. destruct (m s) as [[a | e |] s']; intros E; try discriminate.
  exists a, s'. split; [reflexivity | exact E].
Qed.

Lemma invoke_eq {A} `{Producer P} (c : Call) (f : P -> Result A * P) s r p :
  f (spProducer s) = (r, p) -> invoke c f s = (r, invoked c p s).
Proof. unfold invoke. intros ->. reflexivity. Qed.

End Steps.

(** ** What each block of the member function leaves alone *)

Section Frames.

Context {P : Type} `{Producer P}.
Implicit Types s : DatumProducer P.

Lemma source_only_refl s : source_only s s.
Proof. repeat split. exists []. symmetry. apply app_nil_r. Qed.

Lemma source_only_trans s1 s2 s3 :
  source_only s1 s2 -> source_only s2 s3 -> source_only s1 s3.
Proof.
  intros (a1 & b1 & c1 & d1 & e1 & l1 & f1) (a2 & b2 & c2 & d2 & e2 & l2 & f2).
  repeat split; try congruence.
  exists (l1 ++ l2). rewrite f2, f1. symmetry. apply app_assoc.
Qed.

Lemma source_only_invoked c p s : source_only s (invoked c p s).
Proof. repeat split. exists [c]. reflexivity. Qed.

Lemma invoke_source_only {A} c (f : P -> Result A * P) s r s' :
  invoke c f s = (r, s') -> source_only s s'.
Proof.
  unfold invoke. destruct (f (spProducer s)) as [r0 p]. intros [= _ <-].
  apply source_only_invoked.
Qed.

Lemma checkLastFrame_source_only s r s' :
  checkLastFrame s = (r, s') -> source_only s s'.
Proof.
  unfold checkLastFrame, bind, read.
  destruct (negb _ && _).
  - apply invoke_source_only.
  - intros [= _ <-]. apply source_only_refl.
Qed.

Lemma readProducer_source_only s r s' :
  readProducer s = (r, s') -> source_only s s'.
Proof.
  unfold readProducer, bind, ret.
  repeat
    match goal with
    | |- context [invoke ?c ?f ?s0] =>
        let E := fresh "E" in
        destruct (invoke c f s0) as [[? | ? |] ?] eqn:E;
        apply invoke_source_only in E
    end;
    intros [= _ <-];
    repeat (eapply source_only_trans; [eassumption |]);
    try apply source_only_refl; try assumption.
Qed.

End Frames.

(** ** The seek block, case by case *)

Section Seek.

Context {P : Type} `{Producer P}.
Implicit Types s : DatumProducer P.

Lemma seekVideo_absent s :
  spVideoSeek s = None -> seekVideo s = (Ok tt, s).
Proof. unfold seekVideo, bind, read. intros ->. reflexivity. Qed.

Lemma seekVideo_still s first second :
  spVideoSeek s = Some (first, second) ->
  int (second - (if first then 1 else 0)) = 0 ->
  seekVideo s = (Ok tt, with_spVideoSeek (Some (first, 0)) s).
Proof.
  unfold seekVideo, bind, read, write, ret. intros E D. rewrite E, D. simpl.
  rewrite E. reflexivity.
Qed.

Lemma seekVideo_get_throws s first second e p1 :
  spVideoSeek s = Some (first, second) ->
  int (second - (if first then 1 else 0)) <> 0 ->
  get CV_CAP_PROP_POS_FRAMES (spProducer s) = (Throw e, p1) ->
  seekVideo s = (Throw e, invoked (call_get CV_CAP_PROP_POS_FRAMES) p1 s).
Proof.
  unfold seekVideo, bind, read, write, ret, invoke. intros E D G. rewrite E.
  apply Z.eqb_neq in D. rewrite D. simpl. rewrite G. reflexivity.
Qed.

Lemma seekVideo_set s first second position p1 r p2 :
  spVideoSeek s = Some (first, second) ->
  int (second - (if first then 1 else 0)) <> 0 ->
  get CV_CAP_PROP_POS_FRAMES (spProducer s) = (Ok position, p1) ->
  set CV_CAP_PROP_POS_FRAMES
    (position + double_of_Z (int (second - (if first then 1 else 0))))%float p1
  = (r, p2) ->
  let value :=
    (position + double_of_Z (int (second - (if first then 1 else 0))))%float in
  let s2 :=
    invoked (call_set CV_CAP_PROP_POS_FRAMES value) p2
      (invoked (call_get CV_CAP_PROP_POS_FRAMES) p1 s) in
  seekVideo s =
    match r with
    | Ok _ => (Ok tt, with_spVideoSeek (Some (first, 0)) s2)
    | Throw e => (Throw e, s2)
    | OutOfBounds => (OutOfBounds, s2)
    end.
Proof.
  unfold seekVideo, bind, read, write, ret, invoke. intros E D G S. rewrite E.
  apply Z.eqb_neq in D. rewrite D. simpl. rewrite G. simpl. rewrite S.
  destruct r; simpl; try reflexivity. rewrite E. reflexivity.
Qed.

(** The block never touches the counters, the log or the range. *)
Lemma seekVideo_members s r s' :
  seekVideo s = (r, s') ->
  mNumberFramesToProcess s' = mNumberFramesToProcess s /\
  mGlobalCounter s' = mGlobalCounter s /\
  mNumberConsecutiveEmptyFrames s' = mNumberConsecutiveEmptyFrames s /\
  logged s' = logged s /\
  exists l, calls s' = calls s ++ l.
Proof.
  unfold seekVideo, bind, read, write, ret, invoke.
  destruct (spVideoSeek s) as [[first second] |].
  - destruct (negb _).
    + destruct (get _ _) as [[position | e |] p1]; simpl.
      * destruct (set _ _ _) as [[[] | e |] p2]; simpl; intros [= _ <-];
          simpl; repeat split;
          exists [call_get CV_CAP_PROP_POS_FRAMES;
                  call_set CV_CAP_PROP_POS_FRAMES
                    (position + double_of_Z
                       (int (second - (if first then 1 else 0))))%float];
          rewrite <- app_assoc; reflexivity.
      * intros [= _ <-]. simpl. repeat split. eexists. reflexivity.
      * intros [= _ <-]. simpl. repeat split. eexists. reflexivity.
    + intros [= _ <-]. simpl. repeat split. exists []. symmetry. apply app_nil_r.
  - intros [= _ <-]. repeat split. exists []. symmetry. apply app_nil_r.
Qed.

(** When the block returns, a pair that was there has its increment at 0. *)
Lemma seekVideo_Ok_resets s s' first second :
  spVideoSeek s = Some (first, second) ->
  seekVideo s = (Ok tt, s') ->
  spVideoSeek s' = Some (first, 0).
Proof.
  unfold seekVideo, bind, read, write, ret, invoke. intros E. rewrite E.
  destruct (negb _).
  - destruct (get _ _) as [[position | e |] p1]; simpl; try discriminate.
    destruct (set _ _ _) as [[[] | e |] p2]; simpl; try discriminate.
    intros [= <-]. simpl. rewrite E. reflexivity.
  - intros [= <-]. simpl. rewrite E. reflexivity.
Qed.

(** When the block does not return, the pair is as it was. *)
Lemma seekVideo_not_Ok_keeps s r s' :
  seekVideo s = (r, s') -> r <> Ok tt -> spVideoSeek s' = spVideoSeek s.
Proof.
  unfold seekVideo, bind, read, write, ret, invoke.
  destruct (spVideoSeek s) as [[first second] |] eqn:E.
  - destruct (negb _).
    + destruct (get _ _) as [[position | e |] p1]; simpl.
      * destruct (set _ _ _) as [[[] | e |] p2]; simpl; intros [= <- <-] N;
          simpl; congruence.
      * intros [= <- <-] N. simpl. congruence.
      * intros [= <- <-] N. simpl. congruence.
    + intros [= <- <-] N. congruence.
  - intros [= <- <-] N. congruence.
Qed.

End Seek.

(** ** Filling the vector of datums *)

Section Fill.

Context {P : Type} `{Producer P}.
Implicit Types s : DatumProducer P.

Lemma calibrated_not_Throw cM cE cI i d e : calibrated cM cE cI i d <> Throw e.
Proof.
  unfold calibrated.
  destruct (cM !! i); [destruct (cE !! i); [destruct (cI !! i) |] |]; discriminate.
Qed.

Lemma calibrated_OutOfBounds cM cE cI i d :
  calibrated cM cE cI i d = OutOfBounds <->
  (i < length cM /\ (length cE <= i \/ length cI <= i))%nat.
Proof.
  unfold calibrated.
  destruct (cM !! i) as [m |] eqn:Em.
  - apply lookup_lt_Some in Em.
    destruct (cE !! i) as [e |] eqn:Ee.
    + apply lookup_lt_Some in Ee.
      destruct (cI !! i) as [k |] eqn:Ek.
      * apply lookup_lt_Some in Ek. split; [discriminate | lia].
      * apply lookup_ge_None in Ek. split; [lia | reflexivity].
    + apply lookup_ge_None in Ee. split; [lia | reflexivity].
  - apply lookup_ge_None in Em. split; [discriminate | lia].
Qed.

Lemma calibrated_Ok cM cE cI i d d' :
  calibrated cM cE cI i d = Ok d' ->
  name d' = name d /\ frameNumber d' = frameNumber d /\
  cvInputData d' = cvInputData d /\ cvOutputData d' = cvOutputData d /\
  match cM !! i with
  | Some m =>
      cameraMatrix d' = m /\
      cE !! i = Some (cameraExtrinsics d') /\
      cI !! i = Some (cameraIntrinsics d')
  | None =>
      cameraMatrix d' = cameraMatrix d /\
      cameraExtrinsics d' = cameraExtrinsics d /\
      cameraIntrinsics d' = cameraIntrinsics d
  end.
Proof.
  unfold calibrated.
  destruct (cM !! i) as [m |].
  - destruct (cE !! i) as [e |]; [| discriminate].
    destruct (cI !! i) as [k |]; [| discriminate].
    intros [= <-]. simpl. repeat split.
  - intros [= <-]. repeat split.
Qed.

(** The first element, for a set of views [m0 :: rest] and a vector that
    has a first element. *)
Lemma fillFirstDatum_eq nextFrameName nextFrameNumber m0 rest cM cE cI d ds
  (s : DatumProducer P) :
  fillFirstDatum nextFrameName nextFrameNumber (m0 :: rest) cM cE cI (d :: ds) s =
  match
    calibrated cM cE cI 0
      (set_cvInputData m0 (set_frameNumber nextFrameNumber (set_name nextFrameName d)))
  with
  | Ok d1 =>
      if channels m0 =? 3 then (Ok (set_cvOutputData m0 d1 :: ds), s)
      else if channels m0 =? 1 then
        (Ok (set_cvOutputData (gray2bgr m0) (set_cvInputData (gray2bgr m0) d1) :: ds),
         with_logged (logged s ++ [grey_notice]) s)
      else (Throw layout_error, s)
  | Throw e => (Throw e, s)
  | OutOfBounds => (OutOfBounds, s)
  end.
Proof.
  unfold fillFirstDatum, calibrated, bind, lift, ret, subscript, log, write,
    cvtColor, error.
  cbn [lookup list_lookup vector_empty negb].
  destruct cM as [| m cM']; cbn [lookup list_lookup vector_empty negb].
  - cbn [cvInputData set_cvInputData].
    destruct (channels m0 =? 3) eqn:E3; cbn [negb]; [reflexivity |].
    destruct (channels m0 =? 1) eqn:E1; reflexivity.
  - destruct cE as [| e cE']; cbn [lookup list_lookup]; [reflexivity |].
    destruct cI as [| k cI']; cbn [lookup list_lookup]; [reflexivity |].
    cbn [cvInputData set_cvInputData set_cameraMatrix set_cameraExtrinsics
         set_cameraIntrinsics].
    destruct (channels m0 =? 3) eqn:E3; cbn [negb]; [reflexivity |].
    destruct (channels m0 =? 1) eqn:E1; reflexivity.
Qed.

(** One turn of the loop, for an index inside the vector and the views. *)
Lemma fillDatumI_eq cvMats cM cE cI i ds d0 dI mI (s : DatumProducer P) :
  ds !! 0%nat = Some d0 -> ds !! i = Some dI -> cvMats !! i = Some mI ->
  fillDatumI cvMats cM cE cI i ds s =
  match
    calibrated cM cE cI i
      (set_cvOutputData mI
         (set_cvInputData mI
            (set_frameNumber (frameNumber d0) (set_name (name d0) dI))))
  with
  | Ok d => (Ok (<[i := d]> ds), s)
  | Throw e => (Throw e, s)
  | OutOfBounds => (OutOfBounds, s)
  end.
Proof.
  intros E0 Ei Em.
  unfold fillDatumI, calibrated, bind, lift, ret, subscript.
  rewrite E0, Ei, Em. cbn [cvInputData set_cvInputData].
  destruct (cM !! i) as [m |] eqn:EM.
  - apply lookup_lt_Some in EM as L. apply Nat.ltb_lt in L. rewrite L.
    destruct (cE !! i) as [e |]; [| reflexivity].
    destruct (cI !! i) as [k |]; reflexivity.
  - apply lookup_ge_None in EM as L. apply Nat.ltb_ge in L. rewrite L.
    reflexivity.
Qed.

End Fill.

(** ** The vector the producer builds, element by element *)

Section Batch.

Context {P : Type} `{Producer P}.
Implicit Types s : DatumProducer P.

(** In numbers: the views from [a] up to [n] that have a camera matrix also
    have extrinsics and intrinsics. *)
Lemma in_bounds_from_lengths cM cE cI a n :
  in_bounds_from cM cE cI a n <->
  (n <= a \/ length cM <= a \/
   (Nat.min n (length cM) <= length cE /\ Nat.min n (length cM) <= length cI))%nat.
Proof.
  unfold in_bounds_from, in_bounds_at. split.
  - intros B.
    destruct (decide (n <= a)%nat) as [| Hn]; [left; assumption |].
    destruct (decide (length cM <= a)%nat) as [| Hm]; [right; left; assumption |].
    right. right.
    specialize (B (Nat.min n (length cM) - 1)%nat ltac:(lia) ltac:(lia)). lia.
  - intros [Hn | [Hm | [He Hi]]] i Hr Hl; lia.
Qed.

Lemma in_bounds_at_dec cM cE cI i :
  in_bounds_at cM cE cI i <-> calibrated cM cE cI i Datum_default <> OutOfBounds.
Proof.
  rewrite calibrated_OutOfBounds. unfold in_bounds_at. lia.
Qed.

Lemma calibrated_fresh cM cE cI i d :
  in_bounds_at cM cE cI i ->
  cameraMatrix d = Mat_default -> cameraExtrinsics d = Mat_default ->
  cameraIntrinsics d = Mat_default ->
  calibrated cM cE cI i d =
  Ok (mkDatum (name d) (frameNumber d) (cvInputData d) (cvOutputData d)
        (calibration_of cM cM i) (calibration_of cM cE i) (calibration_of cM cI i)).
Proof.
  unfold in_bounds_at, calibrated, calibration_of. intros B EM EE EI.
  destruct (cM !! i) as [m |] eqn:Em.
  - apply lookup_lt_Some in Em. destruct (B Em) as [Le Li].
    apply lookup_lt_is_Some_2 in Le as [e ->].
    apply lookup_lt_is_Some_2 in Li as [k ->]. reflexivity.
  - destruct d; simpl in *. subst. reflexivity.
Qed.

(** The loop over the views from [a] on, on a vector whose elements from [a]
    on are still fresh: it runs to its end exactly when every subscript is
    inside the calibration vectors, and then it has written the elements from
    [a] on and nothing else. *)
Lemma stereo_loop cvMats cM cE cI d0 k :
  forall a ds (s : DatumProducer P),
    (1 <= a)%nat -> (a + k)%nat = length ds ->
    (length ds <= length cvMats)%nat ->
    ds !! 0%nat = Some d0 ->
    (forall i, (a <= i < a + k)%nat -> ds !! i = Some Datum_default) ->
    (in_bounds_from cM cE cI a (a + k) ->
     exists ds',
       for_each (fillDatumI cvMats cM cE cI) (seq a k) ds s = (Ok ds', s) /\
       length ds' = length ds /\
       (forall j, (j < a)%nat -> ds' !! j = ds !! j) /\
       (forall i, (a <= i < a + k)%nat ->
          exists mI, cvMats !! i = Some mI /\
            ds' !! i =
            Some (datum_of (name d0) (frameNumber d0) cM cE cI i mI))) /\
    (~ in_bounds_from cM cE cI a (a + k) ->
     for_each (fillDatumI cvMats cM cE cI) (seq a k) ds s = (OutOfBounds, s)).
Proof.
  induction k as [| k IH]; intros a ds s La Lk Lv E0 Fresh.
  - split.
    + intros _. exists ds. split; [reflexivity |]. split; [reflexivity |].
      split; [reflexivity |]. intros i Hi. lia.
    + intros N. exfalso. apply N. intros i Hi. lia.
  - assert (Ha : (a < length ds)%nat) by lia.
    destruct (lookup_lt_is_Some_2 cvMats a) as [mI EmI]; [lia |].
    pose proof (Fresh a ltac:(lia)) as Ea.
    cbn [seq for_each].
    pose proof (fillDatumI_eq cvMats cM cE cI a ds d0 Datum_default mI s E0 Ea EmI)
      as Step.
    destruct (calibrated cM cE cI a _) as [d | e |] eqn:Ec.
    + (* element [a] is written; the rest of the loop sees the new vector *)
      assert (Ba : in_bounds_at cM cE cI a).
      { apply in_bounds_at_dec. intros Oob.
        apply calibrated_OutOfBounds in Oob.
        assert (calibrated cM cE cI a
                  (set_cvOutputData mI
                     (set_cvInputData mI
                        (set_frameNumber (frameNumber d0)
                           (set_name (name d0) Datum_default)))) = OutOfBounds)
          by (apply calibrated_OutOfBounds; exact Oob).
        congruence. }
      rewrite (calibrated_fresh _ _ _ _ _ Ba) in Ec by reflexivity.
      injection Ec as <-. cbn [name frameNumber cvInputData cvOutputData
        set_name set_frameNumber set_cvInputData set_cvOutputData] in *.
      fold (datum_of (name d0) (frameNumber d0) cM cE cI a mI) in *.
      set (dA := datum_of (name d0) (frameNumber d0) cM cE cI a mI) in *.
      rewrite (bind_Ok _ _ _ _ _ Step).
      destruct (IH (S a) (<[a := dA]> ds) s) as [IHok IHoob].
      * lia.
      * rewrite length_insert. lia.
      * rewrite length_insert. lia.
      * rewrite list_lookup_insert_ne by lia. exact E0.
      * intros i Hi. rewrite list_lookup_insert_ne by lia. apply Fresh. lia.
      * split.
        -- intros B.
           destruct IHok as (ds' & Run & Len & Low & High).
           { intros i Hi. apply B. lia. }
           exists ds'. split; [exact Run |]. rewrite length_insert in Len.
           split; [exact Len |]. split.
           ++ intros j Hj. rewrite Low by lia.
              apply list_lookup_insert_ne. lia.
           ++ intros i Hi. destruct (decide (i = a)) as [-> | Ne].
              ** exists mI. split; [exact EmI |]. rewrite Low by lia.
                 apply list_lookup_insert_eq. exact Ha.
              ** apply High. lia.
        -- intros N. apply IHoob. intros B. apply N. intros i Hi.
           destruct (decide (i = a)) as [-> | Ne]; [exact Ba | apply B; lia].
    + exfalso. exact (calibrated_not_Throw _ _ _ _ _ _ Ec).
    + rewrite (bind_OutOfBounds _ _ _ _ Step). split; [| reflexivity].
      intros B. exfalso.
      apply calibrated_OutOfBounds in Ec.
      specialize (B a ltac:(lia)). unfold in_bounds_at in B. lia.
Qed.

End Batch.

Section Vector.

Context {P : Type} `{Producer P}.
Implicit Types s : DatumProducer P.

Lemma batch_of_length nextFrameName nextFrameNumber cM cE cI image0 rest :
  length (batch_of nextFrameName nextFrameNumber cM cE cI image0 rest)
  = S (length rest).
Proof. unfold batch_of. rewrite length_imap. reflexivity. Qed.

Lemma batch_of_lookup nextFrameName nextFrameNumber cM cE cI image0 rest i :
  batch_of nextFrameName nextFrameNumber cM cE cI image0 rest !! i
  = datum_of nextFrameName nextFrameNumber cM cE cI i <$> (image0 :: rest) !! i.
Proof. unfold batch_of. apply list_lookup_imap. Qed.

(** After the first element [d0] has been written, the loop completes the
    vector, or leaves the bounds of a calibration vector. *)
Lemma fill_rest nextFrameName nextFrameNumber m0 image0 rest cM cE cI
  (s : DatumProducer P) :
  let d0 := datum_of nextFrameName nextFrameNumber cM cE cI 0 image0 in
  let ds := d0 :: replicate (length rest) Datum_default in
  (if (1 <? length ds)%nat then
     for_each (fillDatumI (m0 :: rest) cM cE cI) (seq 1 (length ds - 1)) ds
   else ret ds) s
  = if decide (in_bounds_from cM cE cI 1 (S (length rest)))
    then (Ok (batch_of nextFrameName nextFrameNumber cM cE cI image0 rest), s)
    else (OutOfBounds, s).
Proof.
  intros d0 ds.
  assert (Lds : length ds = S (length rest)).
  { unfold ds. cbn [length]. rewrite length_replicate. reflexivity. }
  destruct rest as [| m1 rest'].
  - (* one view: no loop *)
    cbn. destruct (decide _) as [_ | N]; [reflexivity |].
    exfalso. apply N. intros i Hi. cbn in Hi. lia.
  - rewrite Lds. cbn [length Nat.ltb Nat.leb Nat.sub].
    set (rest := m1 :: rest') in *.
    destruct
      (stereo_loop (m0 :: rest) cM cE cI d0 (length rest) 1 ds s) as [Hok Hoob].
    + lia.
    + rewrite Lds. reflexivity.
    + rewrite Lds. reflexivity.
    + reflexivity.
    + intros i Hi. unfold ds.
      destruct i as [| i]; [lia |]. cbn [lookup list_lookup].
      apply lookup_replicate. split; [reflexivity | lia].
    + change (S (length rest' ) - 0)%nat with (length rest).
      change (1 + length rest)%nat with (S (length rest)) in *.
      destruct (decide _) as [B | N]; [| exact (Hoob N)].
      destruct (Hok B) as (ds' & Run & Len & Low & High).
      transitivity (Ok ds', s); [exact Run |].
      f_equal. f_equal. apply list_eq. intros i.
      rewrite batch_of_lookup.
      destruct (decide (i = 0%nat)) as [-> | Ne].
      * rewrite Low by lia. reflexivity.
      * destruct (decide (i < S (length rest))%nat) as [Lt | Ge].
        -- destruct (High i ltac:(lia)) as (mI & EmI & ->).
           destruct i as [| i]; [lia |]. cbn [lookup list_lookup] in *.
           rewrite EmI. reflexivity.
        -- rewrite (proj2 (lookup_ge_None ds' i)) by lia.
           rewrite (proj2 (lookup_ge_None (image0 :: rest) i)); [reflexivity |].
           cbn [length]. lia.
Qed.

(** [fillDatums] on a non-empty set of views, in full. *)
Lemma fillDatums_eq nextFrameName nextFrameNumber m0 rest cM cE cI
  (s : DatumProducer P) :
  fillDatums nextFrameName nextFrameNumber (m0 :: rest) cM cE cI [] s =
  if decide (in_bounds_at cM cE cI 0) then
    if channels m0 =? 3 then
      finish_batch nextFrameName nextFrameNumber cM cE cI m0 rest s
    else if channels m0 =? 1 then
      finish_batch nextFrameName nextFrameNumber cM cE cI (gray2bgr m0) rest
        (with_logged (logged s ++ [grey_notice]) s)
    else (Throw layout_error, s)
  else (OutOfBounds, s).
Proof.
  unfold fillDatums, finish_batch.
  change (resize (length (m0 :: rest)) [])
    with (Datum_default :: replicate (length rest) Datum_default).
  unfold bind at 1. rewrite fillFirstDatum_eq.
  destruct (decide (in_bounds_at cM cE cI 0)) as [B0 | N0].
  - rewrite (calibrated_fresh _ _ _ _ _ B0) by reflexivity.
    cbn [name frameNumber cvInputData cvOutputData set_name set_frameNumber
         set_cvInputData set_cvOutputData Datum_default].
    destruct (channels m0 =? 3).
    + apply (fill_rest nextFrameName nextFrameNumber m0 m0 rest cM cE cI s).
    + destruct (channels m0 =? 1); [| reflexivity].
      apply (fill_rest nextFrameName nextFrameNumber m0 (gray2bgr m0) rest
               cM cE cI).
  - assert (E : calibrated cM cE cI 0
                  (set_cvInputData m0
                     (set_frameNumber nextFrameNumber
                        (set_name nextFrameName Datum_default))) = OutOfBounds).
    { apply calibrated_OutOfBounds. unfold in_bounds_at in N0. lia. }
    rewrite E. reflexivity.
Qed.

End Vector.

(** ** From the stall check to the counter *)

Section Process.

Context {P : Type} `{Producer P}.
Implicit Types s : DatumProducer P.

(** The check lets a frame with data through, and resets the counter. *)
Lemma stall_check_data (s : DatumProducer P) :
  stall_check false s = (Ok tt, with_mNumberConsecutiveEmptyFrames 0 s).
Proof. reflexivity. Qed.

(** It lets an empty frame through while the counter stays under 500. *)
Lemma stall_check_empty_under (s : DatumProducer P) :
  uint (mNumberConsecutiveEmptyFrames s + 1) < 500 ->
  stall_check true s =
  (Ok tt,
   with_mNumberConsecutiveEmptyFrames (uint (mNumberConsecutiveEmptyFrames s + 1)) s).
Proof.
  intros L. unfold stall_check, checkIfTooManyConsecutiveEmptyFrames.
  apply Z.leb_gt in L. rewrite L. reflexivity.
Qed.

(** It throws on an empty frame that takes the counter to 500 or more. *)
Lemma stall_check_empty_over (s : DatumProducer P) :
  500 <= uint (mNumberConsecutiveEmptyFrames s + 1) ->
  stall_check true s =
  (Throw
     (FatalError
        ("Detected too many ("
         +:+ to_string (uint (mNumberConsecutiveEmptyFrames s + 1))
         +:+ ") empty frames in a row.")
        181 "checkIfTooManyConsecutiveEmptyFrames" FILE),
   with_mNumberConsecutiveEmptyFrames (uint (mNumberConsecutiveEmptyFrames s + 1)) s).
Proof.
  intros L. unfold stall_check, checkIfTooManyConsecutiveEmptyFrames.
  apply Z.leb_le in L. rewrite L. reflexivity.
Qed.

(** No view at all: the vector stays the empty one it was made as. *)
Lemma processFrames_no_view running nextFrameName nextFrameNumber cM cE cI
  (s : DatumProducer P) :
  processFrames running nextFrameName nextFrameNumber [] cM cE cI [] s =
  match stall_check true s with
  | (Ok _, s1) => (Ok (Some []), s1)
  | (Throw e, s1) => (Throw e, s1)
  | (OutOfBounds, s1) => (OutOfBounds, s1)
  end.
Proof.
  unfold processFrames, stall_check, bind, ret.
  destruct (checkIfTooManyConsecutiveEmptyFrames _ _) as [[[] | e |] n];
    reflexivity.
Qed.

(** At least one view. *)
Lemma processFrames_views running nextFrameName nextFrameNumber m0 rest cM cE cI
  (s : DatumProducer P) :
  processFrames running nextFrameName nextFrameNumber (m0 :: rest) cM cE cI [] s =
  match stall_check (Mat_empty m0) s with
  | (Ok _, s1) =>
      match
        fillDatums nextFrameName nextFrameNumber (m0 :: rest) cM cE cI [] s1
      with
      | (Ok ds, s2) => deliver running ds s2
      | (Throw e, s2) => (Throw e, s2)
      | (OutOfBounds, s2) => (OutOfBounds, s2)
      end
  | (Throw e, s1) => (Throw e, s1)
  | (OutOfBounds, s1) => (OutOfBounds, s1)
  end.
Proof.
  unfold processFrames, stall_check, deliver, bind, ret, lift, write, subscript.
  destruct (checkIfTooManyConsecutiveEmptyFrames _ _) as [[[] | e |] n];
    try reflexivity.
  cbn [vector_empty negb].
  destruct (fillDatums _ _ _ _ _ _ _ _) as [[ds | e |] s2]; try reflexivity.
  destruct ds as [| d0 ds']; [reflexivity |]. cbn [lookup list_lookup].
  destruct (negb running || Mat_empty (cvInputData d0)); reflexivity.
Qed.

(** Converting a grey image keeps it empty or not. *)
Lemma gray2bgr_empty m : Mat_empty (gray2bgr m) = Mat_empty m.
Proof.
  unfold Mat_empty, gray2bgr. cbn [mat_data mat_rows mat_cols].
  destruct (mat_data m); reflexivity.
Qed.

Lemma gray2bgr_channels m : channels (gray2bgr m) = 3.
Proof. reflexivity. Qed.

End Process.

(** ** The member function, block after block *)

Section Calls.

Context {P : Type} `{Producer P}.
Implicit Types s : DatumProducer P.

Lemma try_catch_reported {A} (m : M P A) (k : M P A) s :
  try_catch m (fun e => lift (error (what e) 168 "checkIfRunningAndGetDatum" FILE)
                          ;;; k) s
  = caught (m s).
Proof.
  unfold try_catch, caught, bind, lift, error.
  destruct (m s) as [[a | e |] s']; reflexivity.
Qed.

(** The range check did not return. *)
Lemma call_range_check_fails s r s1 :
  checkLastFrame s = (r, s1) -> r <> Ok tt ->
  checkIfRunningAndGetDatum s =
  caught (match r with
          | Ok _ => (OutOfBounds, s1)
          | Throw e => (Throw e, s1)
          | OutOfBounds => (OutOfBounds, s1)
          end).
Proof.
  intros E N. unfold checkIfRunningAndGetDatum. rewrite try_catch_reported.
  unfold bind at 1. rewrite E. destruct r as [[] | e |]; [congruence | |];
    reflexivity.
Qed.

(** The source reports that it is closed. *)
Lemma call_closed s s1 p2 :
  checkLastFrame s = (Ok tt, s1) ->
  isOpened (spProducer s1) = (Ok false, p2) ->
  checkIfRunningAndGetDatum s =
  (Ok (false, Some []), invoked call_isOpened p2 s1).
Proof.
  intros E1 E2. unfold checkIfRunningAndGetDatum. rewrite try_catch_reported.
  rewrite (bind_Ok _ _ _ _ _ E1).
  rewrite (bind_Ok _ _ _ _ _ (invoke_eq _ _ _ _ _ E2)). reflexivity.
Qed.

(** The source is open and the seek block did not return. *)
Lemma call_seek_fails s s1 p2 r s3 :
  checkLastFrame s = (Ok tt, s1) ->
  isOpened (spProducer s1) = (Ok true, p2) ->
  seekVideo (invoked call_isOpened p2 s1) = (r, s3) -> r <> Ok tt ->
  checkIfRunningAndGetDatum s =
  caught (match r with
          | Ok _ => (OutOfBounds, s3)
          | Throw e => (Throw e, s3)
          | OutOfBounds => (OutOfBounds, s3)
          end).
Proof.
  intros E1 E2 E3 N. unfold checkIfRunningAndGetDatum.
  rewrite try_catch_reported.
  rewrite (bind_Ok _ _ _ _ _ E1).
  rewrite (bind_Ok _ _ _ _ _ (invoke_eq _ _ _ _ _ E2)).
  unfold bind at 1. rewrite E3. destruct r as [[] | e |]; [congruence | |];
    reflexivity.
Qed.

(** The source is open, the seek block returned and the source delivered
    what it was asked for. *)
Lemma call_open s s1 p2 s3 s4 nextFrameName nextFrameNumber cvMats cM cE cI :
  checkLastFrame s = (Ok tt, s1) ->
  isOpened (spProducer s1) = (Ok true, p2) ->
  seekVideo (invoked call_isOpened p2 s1) = (Ok tt, s3) ->
  readProducer s3 = (Ok (nextFrameName, nextFrameNumber, cvMats, cM, cE, cI), s4) ->
  checkIfRunningAndGetDatum s =
  caught
    (match
       processFrames true nextFrameName nextFrameNumber cvMats cM cE cI [] s4
     with
     | (Ok d, s5) => (Ok (true, d), s5)
     | (Throw e, s5) => (Throw e, s5)
     | (OutOfBounds, s5) => (OutOfBounds, s5)
     end).
Proof.
  intros E1 E2 E3 E4. unfold checkIfRunningAndGetDatum.
  rewrite try_catch_reported.
  rewrite (bind_Ok _ _ _ _ _ E1).
  rewrite (bind_Ok _ _ _ _ _ (invoke_eq _ _ _ _ _ E2)).
  rewrite (bind_Ok _ _ _ _ _ E3).
  rewrite (bind_Ok _ _ _ _ _ E4).
  unfold bind, ret.
  destruct (processFrames _ _ _ _ _ _ _ _ _) as [[d | e |] s5]; reflexivity.
Qed.

(** A call that returns went one of two ways. *)
Lemma call_returns_inv s r s' :
  checkIfRunningAndGetDatum s = (Ok r, s') ->
  exists s1,
    checkLastFrame s = (Ok tt, s1) /\
    ((exists p2,
        isOpened (spProducer s1) = (Ok false, p2) /\
        r = (false, Some []) /\ s' = invoked call_isOpened p2 s1) \/
     (exists p2 s3 s4 nextFrameName nextFrameNumber cvMats cM cE cI d,
        isOpened (spProducer s1) = (Ok true, p2) /\
        seekVideo (invoked call_isOpened p2 s1) = (Ok tt, s3) /\
        readProducer s3
        = (Ok (nextFrameName, nextFrameNumber, cvMats, cM, cE, cI), s4) /\
        processFrames true nextFrameName nextFrameNumber cvMats cM cE cI [] s4
        = (Ok d, s') /\
        r = (true, d))).
Proof.
  intros E.
  destruct (checkLastFrame s) as [[[] | e |] s1] eqn:E1;
    [| rewrite (call_range_check_fails _ _ _ E1) in E by discriminate;
       discriminate ..].
  exists s1. split; [reflexivity |].
  destruct (isOpened (spProducer s1)) as [[[] | e |] p2] eqn:E2.
  - right.
    destruct (seekVideo (invoked call_isOpened p2 s1)) as [[[] | e |] s3] eqn:E3;
      [| rewrite (call_seek_fails _ _ _ _ _ E1 E2 E3) in E by discriminate;
         discriminate ..].
    destruct (readProducer s3)
      as [[[[[[[nextFrameName nextFrameNumber] cvMats] cM] cE] cI] | e |] s4]
      eqn:E4.
    + rewrite (call_open _ _ _ _ _ _ _ _ _ _ _ E1 E2 E3 E4) in E.
      destruct (processFrames _ _ _ _ _ _ _ _ _) as [[d | e |] s5] eqn:E5;
        try discriminate.
      injection E as <- <-.
      exists p2, s3, s4, nextFrameName, nextFrameNumber, cvMats, cM, cE, cI, d.
      repeat split; assumption.
    + exfalso. revert E. unfold checkIfRunningAndGetDatum.
      rewrite try_catch_reported.
      rewrite (bind_Ok _ _ _ _ _ E1).
      rewrite (bind_Ok _ _ _ _ _ (invoke_eq _ _ _ _ _ E2)).
      rewrite (bind_Ok _ _ _ _ _ E3).
      rewrite (bind_Throw _ _ _ _ _ E4). discriminate.
    + exfalso. revert E. unfold checkIfRunningAndGetDatum.
      rewrite try_catch_reported.
      rewrite (bind_Ok _ _ _ _ _ E1).
      rewrite (bind_Ok _ _ _ _ _ (invoke_eq _ _ _ _ _ E2)).
      rewrite (bind_Ok _ _ _ _ _ E3).
      rewrite (bind_OutOfBounds _ _ _ _ E4). discriminate.
  - left. exists p2. rewrite (call_closed _ _ _ E1 E2) in E.
    injection E as <- <-. repeat split.
  - exfalso. revert E. unfold checkIfRunningAndGetDatum.
    rewrite try_catch_reported.
    rewrite (bind_Ok _ _ _ _ _ E1).
    rewrite (bind_Throw _ _ _ _ _ (invoke_eq _ _ _ _ _ E2)). discriminate.
  - exfalso. revert E. unfold checkIfRunningAndGetDatum.
    rewrite try_catch_reported.
    rewrite (bind_Ok _ _ _ _ _ E1).
    rewrite (bind_OutOfBounds _ _ _ _ (invoke_eq _ _ _ _ _ E2)). discriminate.
Qed.

End Calls.

(** ** C5: the stall threshold *)

Lemma feed_app a b n :
  feed (a ++ b) n =
  match feed a n with
  | (Ok _, n') => feed b n'
  | r => r
  end.
Proof.
  revert n. induction a as [| x a IH]; intros n; [reflexivity |].
  cbn [app feed].
  destruct (checkIfTooManyConsecutiveEmptyFrames n x) as [[[] | e |] n'];
    [apply IH | reflexivity ..].
Qed.

Lemma feed_empty_run (k : nat) :
  forall n, 0 <= n -> n + Z.of_nat k <= 499 ->
  feed (repeat true k) n = (Ok tt, n + Z.of_nat k).
Proof.
  induction k as [| k IH]; intros n L0 L.
  - cbn. f_equal. lia.
  - cbn [repeat feed]. unfold checkIfTooManyConsecutiveEmptyFrames.
    assert (U : uint (n + 1) = n + 1) by (unfold uint; apply Z.mod_small; lia).
    rewrite U.
    destruct (500 <=? n + 1) eqn:T; [apply Z.leb_le in T; lia |].
    rewrite IH by lia. f_equal. lia.
Qed.

(** C5.  After any reads that left the counter at 0 (none at all on a new
    producer, or reads the last of which had data), a run of up to 499 empty
    reads goes through, the counter counting them, and the 500th empty read
    raises the stall error, whose message names the count, 500.  A read with
    data puts the counter back to 0 whatever it was. *)
Theorem C5_stall_threshold :
  forall (before : list bool) (n0 : Z),
    feed before n0 = (Ok tt, 0) ->
    (forall k : nat, (k <= 499)%nat ->
       feed (before ++ repeat true k) n0 = (Ok tt, Z.of_nat k)) /\
    feed (before ++ repeat true 500) n0 = (Throw stall_error, 500) /\
    (forall n, checkIfTooManyConsecutiveEmptyFrames n false = (Ok tt, 0)) /\
    (forall reads n, fst (feed reads n) = Ok tt ->
       feed (reads ++ [false]) n = (Ok tt, 0)).
Proof.
  intros before n0 E. repeat split.
  - intros k Hk. rewrite feed_app, E. apply (feed_empty_run k 0); lia.
  - rewrite feed_app, E.
    change (repeat true 500) with (repeat true 499 ++ [true]).
    rewrite feed_app, (feed_empty_run 499 0) by lia. reflexivity.
  - intros reads n R. rewrite feed_app.
    destruct (feed reads n) as [[[] | e |] n']; try discriminate. reflexivity.
Qed.

(** On a new producer: 499 empty reads, then the 500th. *)
Lemma C5_stall_threshold_witness :
  feed (repeat true 499) 0 = (Ok tt, 499) /\
  feed (repeat true 500) 0 = (Throw stall_error, 500).
Proof.
  destruct (C5_stall_threshold [] 0 eq_refl) as (Under & At & _).
  split; [exact (Under 499%nat (le_n _)) | exact At].
Defined.

(** The 500th empty read as the caller sees it: whatever the source reports
    as views, as long as the first has no data, a call that finds the
    counter at 499 ends in the stall error, passed on by the handler of the
    member function with its message. *)
Lemma stall_error_reaches_caller {P} `{Producer P}
  (s s1 : DatumProducer P) p2 s3 s4 nextFrameName nextFrameNumber cvMats cM cE cI :
  checkLastFrame s = (Ok tt, s1) ->
  isOpened (spProducer s1) = (Ok true, p2) ->
  seekVideo (invoked call_isOpened p2 s1) = (Ok tt, s3) ->
  readProducer s3 = (Ok (nextFrameName, nextFrameNumber, cvMats, cM, cE, cI), s4) ->
  match cvMats with [] => true | m0 :: _ => Mat_empty m0 end = true ->
  mNumberConsecutiveEmptyFrames s = 499 ->
  checkIfRunningAndGetDatum s =
  (Throw (reported stall_error), with_mNumberConsecutiveEmptyFrames 500 s4).
Proof.
  intros E1 E2 E3 E4 Empty N.
  rewrite (call_open _ _ _ _ _ _ _ _ _ _ _ E1 E2 E3 E4).
  assert (N4 : mNumberConsecutiveEmptyFrames s4 = 499).
  { destruct (checkLastFrame_source_only _ _ _ E1) as (_ & _ & K1 & _).
    destruct (seekVideo_members _ _ _ E3) as (_ & _ & K3 & _).
    destruct (readProducer_source_only _ _ _ E4) as (_ & _ & K4 & _).
    rewrite K4, K3. cbn. rewrite K1. exact N. }
  assert (S : stall_check true s4
              = (Throw stall_error, with_mNumberConsecutiveEmptyFrames 500 s4)).
  { rewrite stall_check_empty_over; rewrite N4; [reflexivity | ].
    vm_compute. discriminate. }
  destruct cvMats as [| m0 rest].
  - rewrite processFrames_no_view, S. reflexivity.
  - rewrite processFrames_views, Empty, S. reflexivity.
Qed.

(** ** C3: a source that reports closed *)

(** C3, as stated, fails: for a closed source the call gives back [false]
    with the shared pointer it made at line 76, which points to an empty
    vector; it is not [nullptr]. *)
Lemma C3_counterexample :
  let made := DatumProducer_new closed_video 0 10 None in
  let s := snd made in
  fst made = Ok tt /\
  isOpened (spProducer s) = (Ok false, spProducer s) /\
  fst (checkIfRunningAndGetDatum s) = Ok (false, Some []) /\
  fst (checkIfRunningAndGetDatum s) <> Ok (false, None).
Proof. repeat split. discriminate. Qed.

(** C3, amended.  When the range check has returned and the source then
    reports that it is not open, the call returns [false] together with a
    non-null pointer to an empty vector, [mGlobalCounter] is what it was, and
    so is every other member: all that happened is the query (after the
    release, if the range check asked for one). *)
Theorem C3_closed_source {P} `{Producer P} (s s1 : DatumProducer P) (p2 : P) :
  checkLastFrame s = (Ok tt, s1) ->
  isOpened (spProducer s1) = (Ok false, p2) ->
  checkIfRunningAndGetDatum s
  = (Ok (false, Some []), invoked call_isOpened p2 s1) /\
  mGlobalCounter (invoked call_isOpened p2 s1) = mGlobalCounter s /\
  source_only s (invoked call_isOpened p2 s1).
Proof.
  intros E1 E2. split; [exact (call_closed _ _ _ E1 E2) |].
  pose proof (checkLastFrame_source_only _ _ _ E1) as F1.
  pose proof (source_only_trans _ _ _ F1
                (source_only_invoked call_isOpened p2 s1)) as F.
  split; [exact (proj1 (proj2 F)) | exact F].
Qed.

Lemma C3_closed_source_witness :
  let s := snd (DatumProducer_new closed_video 0 10 None) in
  checkIfRunningAndGetDatum s
  = (Ok (false, Some []), invoked call_isOpened closed_video s) /\
  mGlobalCounter (invoked call_isOpened closed_video s) = mGlobalCounter s.
Proof.
  intros s.
  assert (E1 : checkLastFrame s = (Ok tt, s)) by (vm_compute; reflexivity).
  assert (E2 : isOpened (spProducer s) = (Ok false, closed_video))
    by (vm_compute; reflexivity).
  destruct (C3_closed_source s s closed_video E1 E2) as (R & C & _).
  split; [exact R | exact C].
Defined.

(** Once closed, always closed: if being closed is a property the source
    keeps under [isOpened] and [release], every further call gives the same
    answer and the counter never moves again, whatever the controller
    writes in between. *)
Lemma closed_for_good {P} `{Producer P} (closed : P -> Prop) :
  (forall p, closed p -> exists p', isOpened p = (Ok false, p') /\ closed p') ->
  (forall p, closed p -> exists p', release p = (Ok tt, p') /\ closed p') ->
  forall ws (s : DatumProducer P),
    closed (spProducer s) ->
    Forall (fun r => r = Ok (false, Some [])) (fst (run_calls ws s)) /\
    mGlobalCounter (snd (run_calls ws s)) = mGlobalCounter s /\
    closed (spProducer (snd (run_calls ws s))).
Proof.
  intros HO HR ws. induction ws as [| w ws IH]; intros s C.
  - cbn. repeat split; [constructor | assumption].
  - cbn [run_calls].
    set (s0 := controller_writes w s).
    assert (C0 : closed (spProducer s0)).
    { unfold s0, controller_writes.
      destruct (spVideoSeek s), w; exact C. }
    assert (G0 : mGlobalCounter s0 = mGlobalCounter s).
    { unfold s0, controller_writes. destruct (spVideoSeek s), w; reflexivity. }
    assert (exists s1, checkLastFrame s0 = (Ok tt, s1) /\ closed (spProducer s1))
      as (s1 & E1 & C1).
    { unfold checkLastFrame, bind, read. destruct (negb _ && _).
      - destruct (HR _ C0) as (p' & Er & Cr).
        exists (invoked call_release p' s0).
        rewrite (invoke_eq _ _ _ _ _ Er). split; [reflexivity | exact Cr].
      - exists s0. split; [reflexivity | exact C0]. }
    destruct (HO _ C1) as (p2 & E2 & C2).
    rewrite (call_closed _ _ _ E1 E2).
    assert (G : mGlobalCounter (invoked call_isOpened p2 s1) = mGlobalCounter s0)
      by exact (proj1 (proj2 (checkLastFrame_source_only _ _ _ E1))).
    specialize (IH (invoked call_isOpened p2 s1) C2).
    destruct (run_calls ws (invoked call_isOpened p2 s1)) as [rs s2].
    cbn [fst snd] in *. destruct IH as (F & G2 & C3).
    repeat split; [constructor; [reflexivity | exact F] | congruence | exact C3].
Qed.

(** ** C2: a seek that fails in the constructor *)

(** C2, as stated, fails: on a stream whose [set] throws, the constructor
    does not complete; the handler hands the failure to [error], which
    raises it out of the constructor. *)
Lemma C2_counterexample :
  let p := stuck_video [] in
  set CV_CAP_PROP_POS_FRAMES (double_of_Z 3) p
  = (Throw (StdException "the cursor cannot be moved"), p) /\
  fst (DatumProducer_new p 3 10 None)
  = Throw (FatalError "the cursor cannot be moved" 67 "DatumProducer" FILE) /\
  fst (DatumProducer_new p 3 10 None) <> Ok tt.
Proof. repeat split. discriminate. Qed.

(** C2, amended.  The constructor asks the source for its type.  For a
    webcam it makes no seek and completes.  Otherwise it sets the cursor to
    [frameFirst]: when that returns, the constructor completes; when it
    throws, the handler reports the failure through [error] with the
    description of what was thrown, and that error leaves the constructor, so
    no object is made.  A constructor that completes leaves both counters
    at 0. *)
Theorem C2_construction {P} `{Producer P} (p p1 : P) (type : ProducerType)
  (frameFirst frameLast : Z) (videoSeek : option (bool * Z)) :
  getType p = (Ok type, p1) ->
  let members := DatumProducer_members p frameFirst frameLast videoSeek in
  let seek := call_set CV_CAP_PROP_POS_FRAMES (double_of_Z frameFirst) in
  (type = Webcam ->
   DatumProducer_new p frameFirst frameLast videoSeek
   = (Ok tt, invoked call_getType p1 members)) /\
  (type <> Webcam ->
   forall r p2,
     set CV_CAP_PROP_POS_FRAMES (double_of_Z frameFirst) p1 = (r, p2) ->
     DatumProducer_new p frameFirst frameLast videoSeek
     = (match r with
        | Ok _ => Ok tt
        | Throw e => Throw (construction_error e)
        | OutOfBounds => OutOfBounds
        end,
        invoked seek p2 (invoked call_getType p1 members))) /\
  (forall s,
     DatumProducer_new p frameFirst frameLast videoSeek = (Ok tt, s) ->
     mGlobalCounter s = 0 /\ mNumberConsecutiveEmptyFrames s = 0).
Proof.
  intros G members seek.
  assert (G' : invoke call_getType getType members
               = (Ok type, invoked call_getType p1 members))
    by (apply invoke_eq; exact G).
  unfold DatumProducer_new, DatumProducer_body, try_catch.
  fold members. rewrite (bind_Ok _ _ _ _ _ G').
  split; [| split].
  - intros ->. reflexivity.
  - intros N r p2 S.
    rewrite bool_decide_eq_true_2 by exact N.
    rewrite (invoke_eq _ _ _ _ _ (S : set _ _ (spProducer
               (invoked call_getType p1 members)) = _)).
    destruct r as [[] | e |]; reflexivity.
  - intros s. destruct (bool_decide (type <> Webcam)).
    + unfold invoke.
      destruct (set _ _ _) as [[[] | e |] p2]; intros [= <-]; split; reflexivity.
    + intros [= <-]; split; reflexivity.
Qed.

(** On a stream that cannot seek the constructor throws; on one that can,
    it completes. *)
Lemma C2_construction_witness :
  DatumProducer_new (stuck_video []) 3 10 None
  = (Throw (FatalError "the cursor cannot be moved" 67 "DatumProducer" FILE),
     invoked (call_set CV_CAP_PROP_POS_FRAMES (double_of_Z 3)) (stuck_video [])
       (invoked call_getType (stuck_video [])
          (DatumProducer_members (stuck_video []) 3 10 None))).
Proof.
  refine (proj1 (proj2 (@C2_construction Source Source_Producer
                          (stuck_video []) (stuck_video []) Video 3 10 None
                          eq_refl)) _ _ _ eq_refl).
  discriminate.
Defined.

(** ** What the blocks leave behind *)

Section Traces.

Context {P : Type} `{Producer P}.
Implicit Types s : DatumProducer P.

Lemma no_seek_nil : no_seek [].
Proof. intros propId value I. inversion I. Qed.

Lemma no_seek_cons c l :
  (forall propId value, c <> call_set propId value) -> no_seek l ->
  no_seek (c :: l).
Proof.
  intros N Nl propId value I. apply elem_of_cons in I as [E | I].
  - exact (N propId value (eq_sym E)).
  - exact (Nl propId value I).
Qed.

Lemma no_seek_app l1 l2 : no_seek l1 -> no_seek l2 -> no_seek (l1 ++ l2).
Proof.
  intros N1 N2 propId value I. apply elem_of_app in I as [I | I].
  - exact (N1 propId value I).
  - exact (N2 propId value I).
Qed.

Lemma invoke_calls {A} c (f : P -> Result A * P) s r s' :
  invoke c f s = (r, s') -> calls s' = calls s ++ [c].
Proof.
  unfold invoke. destruct (f (spProducer s)) as [r0 p]. intros [= _ <-].
  reflexivity.
Qed.

(** Fetching never moves the cursor. *)
Lemma readProducer_calls s r s' :
  readProducer s = (r, s') -> exists l, calls s' = calls s ++ l /\ no_seek l.
Proof.
  unfold readProducer, bind, ret.
  repeat
    match goal with
    | |- context [invoke ?c ?f ?s0] =>
        let E := fresh "E" in
        destruct (invoke c f s0) as [[? | ? |] ?] eqn:E;
        apply invoke_calls in E
    end;
    intros [= _ <-];
    repeat match goal with E : calls _ = _ |- _ => rewrite E; clear E end;
    rewrite <- ?app_assoc; eexists; (split; [reflexivity |]);
    cbn [app]; repeat (apply no_seek_cons; [discriminate |]); apply no_seek_nil.
Qed.

(** [fillDatums] only ever appends the notice to the log. *)
Lemma fillDatums_members nextFrameName nextFrameNumber m0 rest cM cE cI
  (s : DatumProducer P) r s' :
  fillDatums nextFrameName nextFrameNumber (m0 :: rest) cM cE cI [] s = (r, s') ->
  s' = s \/ s' = with_logged (logged s ++ [grey_notice]) s.
Proof.
  rewrite fillDatums_eq. unfold finish_batch.
  repeat match goal with |- context [if ?b then _ else _] => destruct b end;
    intros [= _ <-]; auto.
Qed.

(** From the stall check on, the source, the calls made, the shared pair
    and the range are left alone. *)
Lemma processFrames_members running nextFrameName nextFrameNumber cvMats cM cE cI
  (s : DatumProducer P) r s' :
  processFrames running nextFrameName nextFrameNumber cvMats cM cE cI [] s
  = (r, s') ->
  spProducer s' = spProducer s /\ calls s' = calls s /\
  spVideoSeek s' = spVideoSeek s /\
  mNumberFramesToProcess s' = mNumberFramesToProcess s.
Proof.
  destruct cvMats as [| m0 rest].
  - rewrite processFrames_no_view. unfold stall_check.
    destruct (checkIfTooManyConsecutiveEmptyFrames _ _) as [[[] | e |] n];
      intros [= _ <-]; repeat split.
  - rewrite processFrames_views. unfold stall_check.
    destruct (checkIfTooManyConsecutiveEmptyFrames _ _) as [[[] | e |] n];
      [| intros [= _ <-]; repeat split ..].
    destruct (fillDatums _ _ _ _ _ _ _ _) as [[ds | e |] s2] eqn:F;
      apply fillDatums_members in F;
      [| destruct F as [-> | ->]; intros [= _ <-]; repeat split ..].
    unfold deliver. destruct ds as [| d0 ds'].
    + destruct F as [-> | ->]; intros [= _ <-]; repeat split.
    + destruct (negb running || Mat_empty (cvInputData d0));
        destruct F as [-> | ->]; intros [= _ <-]; repeat split.
Qed.

(** The counter moves by one exactly when a vector is handed out. *)
Lemma processFrames_counter running nextFrameName nextFrameNumber cvMats cM cE cI
  (s : DatumProducer P) r s' :
  processFrames running nextFrameName nextFrameNumber cvMats cM cE cI [] s
  = (r, s') ->
  mGlobalCounter s' =
  match r with
  | Ok (Some (_ :: _)) => ull (mGlobalCounter s + 1)
  | _ => mGlobalCounter s
  end.
Proof.
  destruct cvMats as [| m0 rest].
  - rewrite processFrames_no_view. unfold stall_check.
    destruct (checkIfTooManyConsecutiveEmptyFrames _ _) as [[[] | e |] n];
      intros [= <- <-]; reflexivity.
  - rewrite processFrames_views. unfold stall_check.
    destruct (checkIfTooManyConsecutiveEmptyFrames _ _) as [[[] | e |] n];
      [| intros [= <- <-]; reflexivity ..].
    destruct (fillDatums _ _ _ _ _ _ _ _) as [[ds | e |] s2] eqn:F;
      apply fillDatums_members in F;
      [| destruct F as [-> | ->]; intros [= <- <-]; reflexivity ..].
    unfold deliver. destruct ds as [| d0 ds'].
    + destruct F as [-> | ->]; intros [= <- <-]; reflexivity.
    + destruct (negb running || Mat_empty (cvInputData d0));
        destruct F as [-> | ->]; intros [= <- <-]; reflexivity.
Qed.

End Traces.

(** ** A call that finds the source open *)

Section Fetch.

Context {P : Type} `{Producer P}.
Implicit Types s : DatumProducer P.

Lemma fetches_call s nextFrameName nextFrameNumber cvMats cM cE cI s4 :
  fetches s nextFrameName nextFrameNumber cvMats cM cE cI s4 ->
  checkIfRunningAndGetDatum s =
  caught
    (match
       processFrames true nextFrameName nextFrameNumber cvMats cM cE cI [] s4
     with
     | (Ok d, s5) => (Ok (true, d), s5)
     | (Throw e, s5) => (Throw e, s5)
     | (OutOfBounds, s5) => (OutOfBounds, s5)
     end).
Proof.
  intros (s1 & p2 & s3 & E1 & E2 & E3 & E4).
  exact (call_open _ _ _ _ _ _ _ _ _ _ _ E1 E2 E3 E4).
Qed.

(** Up to the fetch, the counters, the range and the log are as they were. *)
Lemma fetches_members s nextFrameName nextFrameNumber cvMats cM cE cI s4 :
  fetches s nextFrameName nextFrameNumber cvMats cM cE cI s4 ->
  mNumberFramesToProcess s4 = mNumberFramesToProcess s /\
  mGlobalCounter s4 = mGlobalCounter s /\
  mNumberConsecutiveEmptyFrames s4 = mNumberConsecutiveEmptyFrames s /\
  logged s4 = logged s.
Proof.
  intros (s1 & p2 & s3 & E1 & E2 & E3 & E4).
  destruct (checkLastFrame_source_only _ _ _ E1) as (A1 & B1 & C1 & _ & D1 & _).
  destruct (seekVideo_members _ _ _ E3) as (A3 & B3 & C3 & D3 & _).
  destruct (readProducer_source_only _ _ _ E4) as (A4 & B4 & C4 & _ & D4 & _).
  cbn in A3, B3, C3, D3. repeat split; congruence.
Qed.

(** A call that hands out a vector with a datum in it found the source open
    and fetched from it. *)
Lemma delivered_inv s b ds s' :
  checkIfRunningAndGetDatum s = (Ok (b, Some ds), s') -> ds <> [] ->
  b = true /\
  exists nextFrameName nextFrameNumber cvMats cM cE cI s4,
    fetches s nextFrameName nextFrameNumber cvMats cM cE cI s4 /\
    processFrames true nextFrameName nextFrameNumber cvMats cM cE cI [] s4
    = (Ok (Some ds), s').
Proof.
  intros E N.
  destruct (call_returns_inv _ _ _ E) as (s1 & E1 & [Closed | Open]).
  - destruct Closed as (p2 & _ & Er & _). injection Er as _ Ed.
    exfalso. exact (N Ed).
  - destruct Open as (p2 & s3 & s4 & nextFrameName & nextFrameNumber & cvMats
                      & cM & cE & cI & d & E2 & E3 & E4 & E5 & [= -> <-]).
    split; [reflexivity |].
    exists nextFrameName, nextFrameNumber, cvMats, cM, cE, cI, s4.
    split; [| exact E5]. exists s1, p2, s3. repeat split; assumption.
Qed.

(** The vector handed out, in terms of what was fetched. *)
Lemma processFrames_delivers_inv nextFrameName nextFrameNumber cvMats cM cE cI
  (s : DatumProducer P) ds s' :
  processFrames true nextFrameName nextFrameNumber cvMats cM cE cI [] s
  = (Ok (Some ds), s') ->
  ds <> [] ->
  exists m0 rest,
    cvMats = m0 :: rest /\
    Mat_empty m0 = false /\
    in_bounds_from cM cE cI 0 (S (length rest)) /\
    mGlobalCounter s' = ull (mGlobalCounter s + 1) /\
    mNumberConsecutiveEmptyFrames s' = 0 /\
    ((channels m0 = 3 /\
      ds = batch_of nextFrameName nextFrameNumber cM cE cI m0 rest /\
      logged s' = logged s) \/
     (channels m0 = 1 /\
      ds = batch_of nextFrameName nextFrameNumber cM cE cI (gray2bgr m0) rest /\
      logged s' = logged s ++ [grey_notice])).
Proof.
  intros E N. destruct cvMats as [| m0 rest].
  - rewrite processFrames_no_view in E.
    destruct (stall_check true s) as [[[] | e |] s1]; congruence.
  - exists m0, rest. split; [reflexivity |].
    rewrite processFrames_views in E.
    destruct (Mat_empty m0) eqn:Em.
    + (* a first view without data is never handed out *)
      exfalso.
      destruct (stall_check true s) as [[[] | e |] s1]; [| discriminate ..].
      rewrite fillDatums_eq in E. unfold finish_batch, deliver, batch_of in E.
      cbn [imap] in E. cbn [cvInputData datum_of negb orb] in E.
      destruct (decide (in_bounds_at cM cE cI 0)); [| discriminate].
      destruct (channels m0 =? 3).
      * destruct (decide (in_bounds_from _ _ _ _ _)); [| discriminate].
        cbn [deliver imap cvInputData datum_of negb orb] in E.
        rewrite Em in E. discriminate.
      * destruct (channels m0 =? 1); [| discriminate].
        destruct (decide (in_bounds_from _ _ _ _ _)); [| discriminate].
        cbn [deliver imap cvInputData datum_of negb orb] in E.
        rewrite gray2bgr_empty, Em in E. discriminate.
    + split; [reflexivity |].
      rewrite stall_check_data, fillDatums_eq in E.
      unfold finish_batch, deliver, batch_of in E.
      cbn [imap] in E. cbn [cvInputData datum_of negb orb] in E.
      destruct (decide (in_bounds_at cM cE cI 0)) as [B0 |]; [| discriminate].
      assert (Ball : in_bounds_from cM cE cI 1 (S (length rest)) ->
                     in_bounds_from cM cE cI 0 (S (length rest))).
      { intros B i Hi. destruct (decide (i = 0%nat)) as [-> |];
          [exact B0 | apply B; lia]. }
      destruct (channels m0 =? 3) eqn:E3.
      * destruct (decide (in_bounds_from _ _ _ _ _)) as [B |]; [| discriminate].
        cbn [deliver imap cvInputData datum_of negb orb] in E.
        rewrite Em in E. injection E as <- <-.
        split; [exact (Ball B) |]. repeat split.
        left. apply Z.eqb_eq in E3. repeat split; assumption.
      * destruct (channels m0 =? 1) eqn:E1; [| discriminate].
        destruct (decide (in_bounds_from _ _ _ _ _)) as [B |]; [| discriminate].
        cbn [deliver imap cvInputData datum_of negb orb] in E.
        rewrite gray2bgr_empty, Em in E. injection E as <- <-.
        split; [exact (Ball B) |]. repeat split.
        right. apply Z.eqb_eq in E1. repeat split; assumption.
Qed.

End Fetch.

(** ** C8: the views of one batch share their identity *)

(** C8.  A call that hands out a vector of more than one datum has fetched
    a frame name, a frame number and as many views as the vector is long;
    every datum carries that name and that number, which are those of
    element 0, and every datum after the first has the image of the view of
    its own index, as input and as output. *)
Theorem C8_multi_view_identity {P} `{Producer P} (s : DatumProducer P)
  (b : bool) (ds : list Datum) (s' : DatumProducer P) :
  checkIfRunningAndGetDatum s = (Ok (b, Some ds), s') ->
  (1 < length ds)%nat ->
  exists nextFrameName nextFrameNumber cvMats cM cE cI s4,
    fetches s nextFrameName nextFrameNumber cvMats cM cE cI s4 /\
    length ds = length cvMats /\
    forall i d, ds !! i = Some d ->
      (forall d0, ds !! 0%nat = Some d0 ->
         name d = name d0 /\ frameNumber d = frameNumber d0) /\
      name d = nextFrameName /\ frameNumber d = nextFrameNumber /\
      ((1 <= i)%nat ->
       cvMats !! i = Some (cvInputData d) /\ cvOutputData d = cvInputData d).
Proof.
  intros E L.
  assert (N : ds <> []) by (intros ->; cbn in L; lia).
  destruct (delivered_inv _ _ _ _ E N)
    as (_ & nextFrameName & nextFrameNumber & cvMats & cM & cE & cI & s4 & F & R).
  destruct (processFrames_delivers_inv _ _ _ _ _ _ _ _ _ R N)
    as (m0 & rest & -> & _ & _ & _ & _ & Shape).
  exists nextFrameName, nextFrameNumber, (m0 :: rest), cM, cE, cI, s4.
  split; [exact F |].
  assert (exists image0,
            ds = batch_of nextFrameName nextFrameNumber cM cE cI image0 rest)
    as (image0 & ->).
  { destruct Shape as [(_ & -> & _) | (_ & -> & _)]; eexists; reflexivity. }
  split; [apply batch_of_length |].
  assert (Id : forall i d,
             batch_of nextFrameName nextFrameNumber cM cE cI image0 rest !! i
             = Some d ->
             name d = nextFrameName /\ frameNumber d = nextFrameNumber /\
             exists m, (image0 :: rest) !! i = Some m /\
                       cvInputData d = m /\ cvOutputData d = m).
  { intros i d. rewrite batch_of_lookup.
    destruct ((image0 :: rest) !! i) as [m |]; [| discriminate].
    intros [= <-]. repeat split. exists m. repeat split. }
  intros i d Ei. destruct (Id i d Ei) as (En & Ef & m & Em & Ein & Eout).
  split; [| split; [exact En | split; [exact Ef |]]].
  - intros d0 E0. destruct (Id 0%nat d0 E0) as (En0 & Ef0 & _).
    split; congruence.
  - intros Hi. destruct i as [| i]; [lia |]. cbn [lookup list_lookup] in *.
    split; congruence.
Qed.

(** ** C7: the channels of the first view *)

(** Grey to BGR is replication: sample [i] of the source is found in the
    three channels of pixel [i] of the result. *)
Lemma gray2bgr_replicates m i g (c : nat) :
  mat_data m !! i = Some g -> (c < 3)%nat ->
  mat_data (gray2bgr m) !! (3 * i + c)%nat = Some g.
Proof.
  unfold gray2bgr. cbn [mat_data]. generalize (mat_data m) as l.
  induction i as [| i IH]; intros l E C.
  - destruct l as [| x l]; [discriminate |]. injection E as ->.
    destruct c as [| [| [| c]]]; [reflexivity .. | lia].
  - destruct l as [| x l]; [discriminate |]. cbn [lookup list_lookup] in E.
    replace (3 * S i + c)%nat with (S (S (S (3 * i + c)))) by lia.
    exact (IH l E C).
Qed.


(** ** C9: a first view without data *)

(** C9.  In a call that finds the source open and fetches at least one
    view, once the stall check has returned and the vector has been filled:
    if the input image of element 0 is then empty, the call returns [true]
    with a null pointer, and [mGlobalCounter] is what it was before the
    call. *)
Theorem C9_discard_on_empty {P} `{Producer P} (s : DatumProducer P)
  nextFrameName nextFrameNumber m0 rest cM cE cI s4 s5 ds s6 d0 :
  fetches s nextFrameName nextFrameNumber (m0 :: rest) cM cE cI s4 ->
  stall_check (Mat_empty m0) s4 = (Ok tt, s5) ->
  fillDatums nextFrameName nextFrameNumber (m0 :: rest) cM cE cI [] s5
  = (Ok ds, s6) ->
  ds !! 0%nat = Some d0 ->
  Mat_empty (cvInputData d0) = true ->
  checkIfRunningAndGetDatum s = (Ok (true, None), s6) /\
  mGlobalCounter s6 = mGlobalCounter s.
Proof.
  intros F St Fill E0 Empty.
  rewrite (fetches_call _ _ _ _ _ _ _ _ F), processFrames_views, St, Fill.
  destruct ds as [| d ds']; [discriminate |]. injection E0 as ->.
  unfold deliver. rewrite Empty. split; [reflexivity |].
  destruct (fetches_members _ _ _ _ _ _ _ _ F) as (_ & G & _).
  rewrite <- G.
  assert (G5 : mGlobalCounter s5 = mGlobalCounter s4).
  { unfold stall_check in St.
    destruct (checkIfTooManyConsecutiveEmptyFrames _ _) as [r n].
    injection St as _ <-. reflexivity. }
  rewrite <- G5.
  destruct (fillDatums_members _ _ _ _ _ _ _ _ _ _ Fill) as [-> | ->];
    reflexivity.
Qed.

(** ** C10: the subscripts of the calibration vectors *)

Lemma covered_split cM cE cI n :
  in_bounds_at cM cE cI 0 /\ in_bounds_from cM cE cI 1 (S n) <->
  (Nat.min (S n) (length cM) <= length cE /\
   Nat.min (S n) (length cM) <= length cI)%nat.
Proof.
  rewrite in_bounds_from_lengths. unfold in_bounds_at. lia.
Qed.

(** C10.  For a first view of one or three channels (so that the vector is
    filled to its end), filling the vector stays inside the calibration
    vectors exactly when extrinsics and intrinsics are at least as long as
    the camera matrices, counted up to the number of views.  The copy into
    element [i] is decided by the length of the camera matrices alone: when
    they have an element [i], the three vectors are subscripted at [i] and
    the three fields are what was found there; when they have none, the
    three fields keep the matrix they were made with, whatever the other
    two vectors hold. *)
Theorem C10_calibration_bounds {P} `{Producer P}
  (nextFrameName : string) (nextFrameNumber : Z) (m0 : Mat)
  (rest cM cE cI : list Mat) (s : DatumProducer P) :
  channels m0 = 3 \/ channels m0 = 1 ->
  let views := S (length rest) in
  let covered :=
    (Nat.min views (length cM) <= length cE /\
     Nat.min views (length cM) <= length cI)%nat in
  (fst (fillDatums nextFrameName nextFrameNumber (m0 :: rest) cM cE cI [] s)
   <> OutOfBounds <-> covered) /\
  (covered ->
   exists ds s',
     fillDatums nextFrameName nextFrameNumber (m0 :: rest) cM cE cI [] s
     = (Ok ds, s') /\
     length ds = views /\
     forall i d, ds !! i = Some d ->
       match cM !! i with
       | Some m =>
           cameraMatrix d = m /\
           cE !! i = Some (cameraExtrinsics d) /\
           cI !! i = Some (cameraIntrinsics d)
       | None =>
           cameraMatrix d = Mat_default /\
           cameraExtrinsics d = Mat_default /\
           cameraIntrinsics d = Mat_default
       end).
Proof.
  intros Ch views covered.
  pose proof (covered_split cM cE cI (length rest)) as Cov.
  fold views in Cov. fold covered in Cov.
  assert (Shape :
    forall image0 (s0 : DatumProducer P),
      (covered ->
       finish_batch nextFrameName nextFrameNumber cM cE cI image0 rest s0
       = (Ok (batch_of nextFrameName nextFrameNumber cM cE cI image0 rest), s0)) /\
      (~ covered -> in_bounds_at cM cE cI 0 ->
       finish_batch nextFrameName nextFrameNumber cM cE cI image0 rest s0
       = (OutOfBounds, s0))).
  { intros image0 s0. unfold finish_batch.
    destruct (decide (in_bounds_from cM cE cI 1 (S (length rest)))) as [B | N].
    - split; [reflexivity |]. intros NC B0. exfalso. apply NC, Cov. split; assumption.
    - split; [| reflexivity]. intros C. exfalso. apply N. apply Cov in C. tauto. }
  assert (Copied :
    forall image0 i d,
      covered ->
      batch_of nextFrameName nextFrameNumber cM cE cI image0 rest !! i = Some d ->
      match cM !! i with
      | Some m =>
          cameraMatrix d = m /\
          cE !! i = Some (cameraExtrinsics d) /\
          cI !! i = Some (cameraIntrinsics d)
      | None =>
          cameraMatrix d = Mat_default /\
          cameraExtrinsics d = Mat_default /\
          cameraIntrinsics d = Mat_default
      end).
  { intros image0 i d C. rewrite batch_of_lookup.
    destruct ((image0 :: rest) !! i) as [m |] eqn:Ei; [| discriminate].
    apply lookup_lt_Some in Ei. cbn [length] in Ei.
    intros [= <-]. cbn [datum_of cameraMatrix cameraExtrinsics cameraIntrinsics].
    unfold calibration_of.
    destruct (cM !! i) as [c |] eqn:Ec; [| repeat split].
    apply lookup_lt_Some in Ec.
    destruct C as [Le Li]. unfold views in Le, Li.
    destruct (lookup_lt_is_Some_2 cE i ltac:(lia)) as [e ->].
    destruct (lookup_lt_is_Some_2 cI i ltac:(lia)) as [k ->].
    repeat split. }
  rewrite fillDatums_eq.
  destruct (decide (in_bounds_at cM cE cI 0)) as [B0 | N0].
  - assert (E : exists image0 s0,
              (if channels m0 =? 3
               then finish_batch nextFrameName nextFrameNumber cM cE cI m0 rest s
               else if channels m0 =? 1
                    then finish_batch nextFrameName nextFrameNumber cM cE cI
                           (gray2bgr m0) rest
                           (with_logged (logged s ++ [grey_notice]) s)
                    else (Throw layout_error, s))
              = finish_batch nextFrameName nextFrameNumber cM cE cI image0 rest s0).
    { destruct Ch as [-> | ->]; eexists; eexists; reflexivity. }
    destruct E as (image0 & s0 & ->).
    destruct (Shape image0 s0) as [Yes No].
    split.
    + split.
      * intros NO. destruct (decide covered) as [C | NC]; [exact C |].
        exfalso. apply NO. rewrite (No NC B0). reflexivity.
      * intros C. rewrite (Yes C). discriminate.
    + intros C. rewrite (Yes C). eexists. eexists. split; [reflexivity |].
      split; [apply batch_of_length |]. intros i d. apply Copied. exact C.
  - assert (NC : ~ covered) by (intros C; apply Cov in C; tauto).
    split; [split; [intros NO; exfalso; apply NO; reflexivity | tauto] | tauto].
Qed.

(** The same at the level of the call: once the views are fetched and the
    stall check has let them through, a first view of one or three channels
    takes the call out of the bounds of a calibration vector exactly when
    the vectors do not cover the views. *)
Lemma call_out_of_bounds_iff {P} `{Producer P} (s : DatumProducer P)
  nextFrameName nextFrameNumber m0 rest cM cE cI s4 :
  fetches s nextFrameName nextFrameNumber (m0 :: rest) cM cE cI s4 ->
  fst (stall_check (Mat_empty m0) s4) = Ok tt ->
  channels m0 = 3 \/ channels m0 = 1 ->
  fst (checkIfRunningAndGetDatum s) = OutOfBounds <->
  ~ in_bounds_from cM cE cI 0 (S (length rest)).
Proof.
  intros F St Ch.
  rewrite (fetches_call _ _ _ _ _ _ _ _ F), processFrames_views.
  destruct (stall_check (Mat_empty m0) s4) as [[[] | e |] s5]; try discriminate.
  rewrite fillDatums_eq. unfold finish_batch.
  destruct (decide (in_bounds_at cM cE cI 0)) as [B0 | N0].
  - destruct (decide (in_bounds_from cM cE cI 1 (S (length rest)))) as [B | N].
    + assert (All : in_bounds_from cM cE cI 0 (S (length rest))).
      { intros i Hi. destruct (decide (i = 0%nat)) as [-> |];
          [exact B0 | apply B; lia]. }
      destruct Ch as [C | C]; rewrite C; cbn [Z.eqb Pos.eqb];
        unfold deliver, batch_of; cbn [imap];
        destruct (negb true || _); cbn; (split; [discriminate | tauto]).
    + assert (NAll : ~ in_bounds_from cM cE cI 0 (S (length rest))).
      { intros All. apply N. intros i Hi. apply All. lia. }
      destruct Ch as [C | C]; rewrite C; cbn [Z.eqb Pos.eqb]; cbn; tauto.
  - assert (NAll : ~ in_bounds_from cM cE cI 0 (S (length rest))).
    { intros All. apply N0, All. lia. }
    cbn. tauto.
Qed.

(** ** After the seek block *)

Section AfterSeek.

Context {P : Type} `{Producer P}.
Implicit Types s : DatumProducer P.

(** Whatever becomes of a call once the seek block has returned, the shared
    pair stays as the block left it and the cursor is not moved again. *)
Lemma call_after_seek (s s1 : DatumProducer P) p2 s3 r s' :
  checkLastFrame s = (Ok tt, s1) ->
  isOpened (spProducer s1) = (Ok true, p2) ->
  seekVideo (invoked call_isOpened p2 s1) = (Ok tt, s3) ->
  checkIfRunningAndGetDatum s = (r, s') ->
  spVideoSeek s' = spVideoSeek s3 /\
  exists l, calls s' = calls s3 ++ l /\ no_seek l.
Proof.
  intros E1 E2 E3 E.
  destruct (readProducer s3)
    as [[[[[[[nextFrameName nextFrameNumber] cvMats] cM] cE] cI] | e |] s4]
    eqn:E4;
    pose proof (readProducer_source_only _ _ _ E4) as (_ & _ & _ & Seek & _);
    pose proof (readProducer_calls _ _ _ E4) as (l & Calls & Nl).
  - rewrite (call_open _ _ _ _ _ _ _ _ _ _ _ E1 E2 E3 E4) in E.
    destruct (processFrames _ _ _ _ _ _ _ _ _) as [r5 s5] eqn:E5.
    destruct (processFrames_members _ _ _ _ _ _ _ _ _ _ E5)
      as (_ & Calls5 & Seek5 & _).
    assert (s' = s5) as ->
      by (destruct r5 as [d | e |]; cbn in E; congruence).
    split; [congruence |]. exists l. split; [congruence | exact Nl].
  - revert E. unfold checkIfRunningAndGetDatum. rewrite try_catch_reported.
    rewrite (bind_Ok _ _ _ _ _ E1).
    rewrite (bind_Ok _ _ _ _ _ (invoke_eq _ _ _ _ _ E2)).
    rewrite (bind_Ok _ _ _ _ _ E3).
    rewrite (bind_Throw _ _ _ _ _ E4). intros [= _ <-].
    split; [exact Seek |]. exists l. split; assumption.
  - revert E. unfold checkIfRunningAndGetDatum. rewrite try_catch_reported.
    rewrite (bind_Ok _ _ _ _ _ E1).
    rewrite (bind_Ok _ _ _ _ _ (invoke_eq _ _ _ _ _ E2)).
    rewrite (bind_Ok _ _ _ _ _ E3).
    rewrite (bind_OutOfBounds _ _ _ _ E4). intros [= _ <-].
    split; [exact Seek |]. exists l. split; assumption.
Qed.

(** A call in which the seek block does not return ends there. *)
Lemma call_ends_in_seek (s s1 : DatumProducer P) p2 r3 s3 r s' :
  checkLastFrame s = (Ok tt, s1) ->
  isOpened (spProducer s1) = (Ok true, p2) ->
  seekVideo (invoked call_isOpened p2 s1) = (r3, s3) -> r3 <> Ok tt ->
  checkIfRunningAndGetDatum s = (r, s') ->
  s' = s3 /\
  r = match r3 with
      | Throw e => Throw (reported e)
      | _ => OutOfBounds
      end.
Proof.
  intros E1 E2 E3 N E.
  rewrite (call_seek_fails _ _ _ _ _ E1 E2 E3 N) in E.
  destruct r3 as [[] | e |]; [congruence | |]; injection E as <- <-;
    split; reflexivity.
Qed.

(** [x + (-1)] is [x - 1], in [double]. *)
Lemma double_add_minus_one (x : double) :
  (x + double_of_Z (-1))%float = (x - 1)%float.
Proof.
  apply Prim2SF_inj. rewrite add_spec, sub_spec.
  let v := eval vm_compute in (Prim2SF (double_of_Z (-1))) in
  change (Prim2SF (double_of_Z (-1))) with v.
  let v := eval vm_compute in (Prim2SF 1) in change (Prim2SF 1) with v.
  destruct (Prim2SF x); reflexivity.
Qed.

End AfterSeek.

(** ** C4: the increment is consumed once *)

(** C4, as stated, fails: the constructor completes, the source is open, the
    pair holds an increment of 5, the move of the cursor throws, and after
    the call the pair still holds 5; the call itself ends in the error the
    handler reports. *)
Lemma C4_counterexample :
  let made := DatumProducer_new (stuck_webcam [pixel [1; 2; 3]]) 0 10
                (Some (false, 5)) in
  let s := snd made in
  fst made = Ok tt /\
  isOpened (spProducer s) = (Ok true, spProducer s) /\
  spVideoSeek s = Some (false, 5) /\
  fst (checkIfRunningAndGetDatum s)
  = Throw (FatalError "the cursor cannot be moved" 168
             "checkIfRunningAndGetDatum" FILE) /\
  spVideoSeek (snd (checkIfRunningAndGetDatum s)) = Some (false, 5) /\
  spVideoSeek (snd (checkIfRunningAndGetDatum s)) <> Some (false, 0).
Proof. repeat split. discriminate. Qed.

(** C4, amended.  In a call that finds the source open and a pair
    [(first, second)] behind [spVideoSeek], with
    [delta = second - (first ? 1 : 0)]: when [delta] is 0 no move is made
    and the increment is 0 after the call; when [delta] is not 0 and the
    read and the move of the cursor return, the increment is 0 after the
    call; when the read or the move throws, the call ends in the error
    reported for what was thrown and the increment is what it was. *)
Theorem C4_seek_one_shot {P} `{Producer P} (s s1 : DatumProducer P) (p2 : P)
  (first : bool) (second : Z) r (s' : DatumProducer P) :
  checkLastFrame s = (Ok tt, s1) ->
  isOpened (spProducer s1) = (Ok true, p2) ->
  spVideoSeek s = Some (first, second) ->
  checkIfRunningAndGetDatum s = (r, s') ->
  let delta := int (second - (if first then 1 else 0)) in
  (delta = 0 -> spVideoSeek s' = Some (first, 0)) /\
  (delta <> 0 ->
   forall position p3 p4,
     get CV_CAP_PROP_POS_FRAMES p2 = (Ok position, p3) ->
     set CV_CAP_PROP_POS_FRAMES (position + double_of_Z delta)%float p3
     = (Ok tt, p4) ->
     spVideoSeek s' = Some (first, 0)) /\
  (delta <> 0 ->
   forall position p3 e p4,
     get CV_CAP_PROP_POS_FRAMES p2 = (Ok position, p3) ->
     set CV_CAP_PROP_POS_FRAMES (position + double_of_Z delta)%float p3
     = (Throw e, p4) ->
     r = Throw (reported e) /\ spVideoSeek s' = Some (first, second)) /\
  (delta <> 0 ->
   forall e p3,
     get CV_CAP_PROP_POS_FRAMES p2 = (Throw e, p3) ->
     r = Throw (reported e) /\ spVideoSeek s' = Some (first, second)).
Proof.
  intros E1 E2 Seek E delta.
  set (s2 := invoked call_isOpened p2 s1).
  assert (Seek2 : spVideoSeek s2 = Some (first, second)).
  { destruct (checkLastFrame_source_only _ _ _ E1) as (_ & _ & _ & K & _).
    cbn. congruence. }
  split; [| split; [| split]].
  - intros D.
    pose proof (seekVideo_still s2 first second Seek2 D) as E3.
    destruct (call_after_seek _ _ _ _ _ _ E1 E2 E3 E) as (K & _).
    rewrite K. reflexivity.
  - intros D position p3 p4 G S.
    pose proof (seekVideo_set s2 first second position p3 (Ok tt) p4 Seek2 D G S)
      as E3. cbn zeta in E3.
    destruct (call_after_seek _ _ _ _ _ _ E1 E2 E3 E) as (K & _).
    rewrite K. reflexivity.
  - intros D position p3 e p4 G S.
    pose proof (seekVideo_set s2 first second position p3 (Throw e) p4
                  Seek2 D G S) as E3. cbn zeta in E3.
    destruct (call_ends_in_seek _ _ _ _ _ _ _ E1 E2 E3 ltac:(discriminate) E)
      as (-> & ->).
    split; [reflexivity | exact Seek2].
  - intros D e p3 G.
    pose proof (seekVideo_get_throws s2 first second e p3 Seek2 D G) as E3.
    destruct (call_ends_in_seek _ _ _ _ _ _ _ E1 E2 E3 ltac:(discriminate) E)
      as (-> & ->).
    split; [reflexivity | exact Seek2].
Qed.

Lemma C4_seek_one_shot_witness :
  let s := snd (DatumProducer_new (video [pixel [1; 2; 3]]) 4 10
                  (Some (false, 5))) in
  spVideoSeek (snd (checkIfRunningAndGetDatum s)) = Some (false, 0).
Proof.
  intros s.
  assert (E1 : checkLastFrame s = (Ok tt, s)) by (vm_compute; reflexivity).
  assert (E2 : isOpened (spProducer s) = (Ok true, spProducer s))
    by (vm_compute; reflexivity).
  assert (E3 : spVideoSeek s = Some (false, 5)) by (vm_compute; reflexivity).
  assert (E : checkIfRunningAndGetDatum s
              = (fst (checkIfRunningAndGetDatum s),
                 snd (checkIfRunningAndGetDatum s)))
    by (vm_compute; reflexivity).
  assert (D : int (5 - (if false then 1 else 0)) <> 0)
    by (vm_compute; discriminate).
  assert (G : get CV_CAP_PROP_POS_FRAMES (spProducer s)
              = (Ok 4%float, spProducer s)) by (vm_compute; reflexivity).
  assert (S : set CV_CAP_PROP_POS_FRAMES
                (4 + double_of_Z (int (5 - (if false then 1 else 0))))%float
                (spProducer s)
              = (Ok tt, src_with_position 9%float (spProducer s)))
    by (vm_compute; reflexivity).
  exact (proj1 (proj2 (C4_seek_one_shot s s (spProducer s) false 5 _ _
                         E1 E2 E3 E)) D _ _ _ G S).
Defined.

(** ** C6: the pause *)

(** C6.  In a call that finds the source open and a pair [(first, second)]
    behind [spVideoSeek], let [delta] be [second - (first ? 1 : 0)] as the
    [int] subtraction gives it.  When [delta] is 0 no move of the cursor is
    made: the rest of the call, from the fetch on, works on the source as
    [isOpened] left it.  When [delta] is not 0, the position is read and the
    cursor is set to that position plus [delta]: the rest of the call works
    on the source as that [set] left it.  With [first] true and [second] 0,
    [delta] is -1: the cursor is set to the position read minus 1, and the
    rest of the call works on the source as that [set] left it.  Whenever the
    subtraction stays inside [int], [delta] is the difference itself. *)
Theorem C6_pause_compensation {P} `{Producer P} (s s1 : DatumProducer P) (p2 : P)
  (first : bool) (second : Z) :
  checkLastFrame s = (Ok tt, s1) ->
  isOpened (spProducer s1) = (Ok true, p2) ->
  spVideoSeek s = Some (first, second) ->
  let delta := int (second - (if first then 1 else 0)) in
  let opened := invoked call_isOpened p2 s1 in
  (delta = 0 ->
   let s3 := with_spVideoSeek (Some (first, 0)) opened in
   spProducer s3 = p2 /\
   checkIfRunningAndGetDatum s = caught (fetch_and_fill s3)) /\
  (delta <> 0 ->
   forall position p3 p4,
     get CV_CAP_PROP_POS_FRAMES p2 = (Ok position, p3) ->
     set CV_CAP_PROP_POS_FRAMES (position + double_of_Z delta)%float p3
     = (Ok tt, p4) ->
     let s3 :=
       with_spVideoSeek (Some (first, 0))
         (invoked
            (call_set CV_CAP_PROP_POS_FRAMES (position + double_of_Z delta)%float)
            p4 (invoked (call_get CV_CAP_PROP_POS_FRAMES) p3 opened)) in
     spProducer s3 = p4 /\
     checkIfRunningAndGetDatum s = caught (fetch_and_fill s3)) /\
  (first = true -> second = 0 ->
   delta = -1 /\
   forall position p3 p4,
     get CV_CAP_PROP_POS_FRAMES p2 = (Ok position, p3) ->
     set CV_CAP_PROP_POS_FRAMES (position - 1)%float p3 = (Ok tt, p4) ->
     let s3 :=
       with_spVideoSeek (Some (true, 0))
         (invoked (call_set CV_CAP_PROP_POS_FRAMES (position - 1)%float)
            p4 (invoked (call_get CV_CAP_PROP_POS_FRAMES) p3 opened)) in
     spProducer s3 = p4 /\
     checkIfRunningAndGetDatum s = caught (fetch_and_fill s3)) /\
  (INT_MIN <= second - (if first then 1 else 0) <= INT_MAX ->
   delta = second - (if first then 1 else 0)).
Proof.
  intros E1 E2 Seek delta opened.
  assert (Seek2 : spVideoSeek opened = Some (first, second)).
  { destruct (checkLastFrame_source_only _ _ _ E1) as (_ & _ & _ & K & _).
    cbn. congruence. }
  assert (Run : forall s3,
            seekVideo opened = (Ok tt, s3) ->
            checkIfRunningAndGetDatum s = caught (fetch_and_fill s3)).
  { intros s3 E3. unfold checkIfRunningAndGetDatum.
    rewrite try_catch_reported.
    rewrite (bind_Ok _ _ _ _ _ E1).
    rewrite (bind_Ok _ _ _ _ _ (invoke_eq _ _ _ _ _ E2)).
    fold opened. rewrite (bind_Ok _ _ _ _ _ E3). reflexivity. }
  assert (Moved : delta <> 0 ->
            forall position p3 p4,
              get CV_CAP_PROP_POS_FRAMES p2 = (Ok position, p3) ->
              set CV_CAP_PROP_POS_FRAMES (position + double_of_Z delta)%float p3
              = (Ok tt, p4) ->
              checkIfRunningAndGetDatum s =
              caught
                (fetch_and_fill
                   (with_spVideoSeek (Some (first, 0))
                      (invoked
                         (call_set CV_CAP_PROP_POS_FRAMES
                            (position + double_of_Z delta)%float)
                         p4
                         (invoked (call_get CV_CAP_PROP_POS_FRAMES) p3 opened))))).
  { intros D position p3 p4 G S. apply Run.
    exact (seekVideo_set opened first second position p3 (Ok tt) p4
             Seek2 D G S). }
  split; [| split; [| split]].
  - intros D s3. split; [reflexivity |]. apply Run.
    exact (seekVideo_still opened first second Seek2 D).
  - intros D position p3 p4 G S s3. split; [reflexivity |].
    exact (Moved D position p3 p4 G S).
  - intros F S0. subst first second.
    assert (D : delta = -1) by reflexivity.
    split; [exact D |]. intros position p3 p4 G S s3.
    split; [reflexivity |]. subst s3.
    rewrite <- (double_add_minus_one position) in S |- *.
    change (-1) with delta in S |- * at 1.
    apply Moved; [rewrite D; discriminate | exact G | exact S].
  - intros R. unfold delta, int. unfold INT_MIN, INT_MAX in R.
    rewrite Z.mod_small by lia. lia.
Qed.

(** A paused stream at frame 4: the cursor is set to 3, and the fetch reads
    the stream from there. *)
Lemma C6_pause_compensation_witness :
  let s := snd (DatumProducer_new (video [pixel [1; 2; 3]]) 4 10
                  (Some (true, 0))) in
  let s3 :=
    with_spVideoSeek (Some (true, 0))
      (invoked (call_set CV_CAP_PROP_POS_FRAMES (4 - 1)%float)
         (src_with_position 3%float (spProducer s))
         (invoked (call_get CV_CAP_PROP_POS_FRAMES) (spProducer s)
            (invoked call_isOpened (spProducer s) s))) in
  spProducer s3 = src_with_position 3%float (spProducer s) /\
  checkIfRunningAndGetDatum s = caught (fetch_and_fill s3).
Proof.
  intros s.
  assert (E1 : checkLastFrame s = (Ok tt, s)) by (vm_compute; reflexivity).
  assert (E2 : isOpened (spProducer s) = (Ok true, spProducer s))
    by (vm_compute; reflexivity).
  assert (E3 : spVideoSeek s = Some (true, 0)) by (vm_compute; reflexivity).
  assert (G : get CV_CAP_PROP_POS_FRAMES (spProducer s)
              = (Ok 4%float, spProducer s)) by (vm_compute; reflexivity).
  assert (S : set CV_CAP_PROP_POS_FRAMES (4 - 1)%float (spProducer s)
              = (Ok tt, src_with_position 3%float (spProducer s)))
    by (vm_compute; reflexivity).
  exact (proj2 (proj1 (proj2 (proj2
           (C6_pause_compensation s s (spProducer s) true 0 E1 E2 E3)))
           eq_refl eq_refl) 4%float _ _ G S).
Defined.

(** The same call, run: the datum carries frame number 3, and the read
    leaves the cursor at 4, where the call found it. *)
Example paused_call_rereads_the_frame :
  let s := snd (DatumProducer_new (video [pixel [1; 2; 3]]) 4 10
                  (Some (true, 0))) in
  src_position (spProducer s) = 4%float /\
  option_map (map frameNumber)
    (match fst (checkIfRunningAndGetDatum s) with
     | Ok (true, d) => d
     | _ => None
     end) = Some [3] /\
  src_position (spProducer (snd (checkIfRunningAndGetDatum s))) = 4%float.
Proof. vm_compute. repeat split. Qed.

(** ** C1: the number of batches for a bounded range *)

Section Range.

Context {P : Type} `{Producer P}.
Implicit Types s : DatumProducer P.

(** One call: the range stays, and the counter moves by one exactly when a
    batch is delivered. *)
Lemma call_counter (s : DatumProducer P) r s' :
  checkIfRunningAndGetDatum s = (r, s') ->
  mNumberFramesToProcess s' = mNumberFramesToProcess s /\
  mGlobalCounter s' =
  if delivered r then ull (mGlobalCounter s + 1) else mGlobalCounter s.
Proof.
  intros E.
  destruct (checkLastFrame s) as [r1 s1] eqn:E1.
  pose proof (checkLastFrame_source_only _ _ _ E1) as (N1 & G1 & _).
  destruct r1 as [[] | e |];
    [| rewrite (call_range_check_fails _ _ _ E1 ltac:(discriminate)) in E;
       injection E as <- <-; split; assumption ..].
  destruct (isOpened (spProducer s1)) as [[[] | e |] p2] eqn:E2.
  - destruct (seekVideo (invoked call_isOpened p2 s1)) as [r3 s3] eqn:E3.
    pose proof (seekVideo_members _ _ _ E3) as (N3 & G3 & _).
    cbn in N3, G3.
    destruct r3 as [[] | e |];
      [| destruct (call_ends_in_seek _ _ _ _ _ _ _ E1 E2 E3
                     ltac:(discriminate) E) as (-> & ->);
         cbn [delivered]; split; congruence ..].
    destruct (readProducer s3)
      as [[[[[[[nextFrameName nextFrameNumber] cvMats] cM] cE] cI] | e |] s4]
      eqn:E4;
      pose proof (readProducer_source_only _ _ _ E4) as (N4 & G4 & _).
    + rewrite (call_open _ _ _ _ _ _ _ _ _ _ _ E1 E2 E3 E4) in E.
      destruct (processFrames _ _ _ _ _ _ _ _ _) as [r5 s5] eqn:E5.
      pose proof (processFrames_members _ _ _ _ _ _ _ _ _ _ E5) as (_ & _ & _ & N5).
      pose proof (processFrames_counter _ _ _ _ _ _ _ _ _ _ E5) as G5.
      destruct r5 as [[[| d ds] |] | e |]; injection E as <- <-;
        cbn [delivered]; split; congruence.
    + revert E. unfold checkIfRunningAndGetDatum. rewrite try_catch_reported.
      rewrite (bind_Ok _ _ _ _ _ E1).
      rewrite (bind_Ok _ _ _ _ _ (invoke_eq _ _ _ _ _ E2)).
      rewrite (bind_Ok _ _ _ _ _ E3).
      rewrite (bind_Throw _ _ _ _ _ E4). intros [= <- <-].
      split; cbn [delivered]; congruence.
    + revert E. unfold checkIfRunningAndGetDatum. rewrite try_catch_reported.
      rewrite (bind_Ok _ _ _ _ _ E1).
      rewrite (bind_Ok _ _ _ _ _ (invoke_eq _ _ _ _ _ E2)).
      rewrite (bind_Ok _ _ _ _ _ E3).
      rewrite (bind_OutOfBounds _ _ _ _ E4). intros [= <- <-].
      split; cbn [delivered]; congruence.
  - rewrite (call_closed _ _ _ E1 E2) in E. injection E as <- <-.
    split; assumption.
  - revert E. unfold checkIfRunningAndGetDatum. rewrite try_catch_reported.
    rewrite (bind_Ok _ _ _ _ _ E1).
    rewrite (bind_Throw _ _ _ _ _ (invoke_eq _ _ _ _ _ E2)). intros [= <- <-].
    split; assumption.
  - revert E. unfold checkIfRunningAndGetDatum. rewrite try_catch_reported.
    rewrite (bind_Ok _ _ _ _ _ E1).
    rewrite (bind_OutOfBounds _ _ _ _ (invoke_eq _ _ _ _ _ E2)).
    intros [= <- <-]. split; assumption.
Qed.

(** Past the range, on such a source, nothing is delivered. *)
Lemma call_past_range (s : DatumProducer P) r s' :
  release_closes ->
  mNumberFramesToProcess s <> ULLONG_MAX ->
  mNumberFramesToProcess s < mGlobalCounter s ->
  checkIfRunningAndGetDatum s = (r, s') ->
  delivered r = false.
Proof.
  intros RC Bounded Past E.
  assert (C : checkLastFrame s = invoke call_release release s).
  { unfold checkLastFrame, bind, read.
    apply Z.eqb_neq in Bounded. apply Z.ltb_lt in Past.
    rewrite Bounded, Past. reflexivity. }
  destruct (release (spProducer s)) as [r1 p1] eqn:R.
  rewrite (invoke_eq _ _ _ _ _ R) in C.
  destruct r1 as [[] | e |].
  - destruct (RC _ _ R) as (p2 & O).
    rewrite (call_closed _ _ _ C O) in E. injection E as <- _. reflexivity.
  - rewrite (call_range_check_fails _ _ _ C ltac:(discriminate)) in E.
    injection E as <- _. reflexivity.
  - rewrite (call_range_check_fails _ _ _ C ltac:(discriminate)) in E.
    injection E as <- _. reflexivity.
Qed.

(** What the code guarantees for a bounded range, on a source that closes
    when released: over any run of calls the counter grows by the number of
    batches delivered and never passes the size of the range plus one. *)
Lemma range_bound_plus_one :
  release_closes ->
  forall ws (s : DatumProducer P),
    mNumberFramesToProcess s <> ULLONG_MAX ->
    0 <= mNumberFramesToProcess s <= ULLONG_MAX ->
    0 <= mGlobalCounter s <= mNumberFramesToProcess s + 1 ->
    mGlobalCounter (snd (run_calls ws s))
    = mGlobalCounter s + batches (fst (run_calls ws s)) /\
    mGlobalCounter (snd (run_calls ws s)) <= mNumberFramesToProcess s + 1.
Proof.
  intros RC ws. induction ws as [| w ws IH]; intros s Bounded Range Counter.
  - cbn. unfold batches. cbn. lia.
  - cbn [run_calls].
    set (s0 := controller_writes w s).
    assert (N0 : mNumberFramesToProcess s0 = mNumberFramesToProcess s)
      by (unfold s0, controller_writes; destruct (spVideoSeek s), w; reflexivity).
    assert (G0 : mGlobalCounter s0 = mGlobalCounter s)
      by (unfold s0, controller_writes; destruct (spVideoSeek s), w; reflexivity).
    destruct (checkIfRunningAndGetDatum s0) as [r s1] eqn:E.
    destruct (call_counter _ _ _ E) as (N1 & G1).
    assert (Bounded0 : mNumberFramesToProcess s0 <> ULLONG_MAX) by congruence.
    assert (Step : mGlobalCounter s1
                   = mGlobalCounter s + (if delivered r then 1 else 0) /\
                   mGlobalCounter s1 <= mNumberFramesToProcess s + 1).
    { destruct (delivered r) eqn:D.
      - destruct (decide (mNumberFramesToProcess s0 < mGlobalCounter s0))
          as [Past | Within].
        + rewrite (call_past_range _ _ _ RC Bounded0 Past E) in D.
          discriminate.
        + assert (U : ull (mGlobalCounter s0 + 1) = mGlobalCounter s0 + 1).
          { unfold ull. apply Z.mod_small. unfold ULLONG_MAX in *. lia. }
          lia.
      - lia. }
    assert (Bounded1 : mNumberFramesToProcess s1 <> ULLONG_MAX) by congruence.
    assert (Range1 : 0 <= mNumberFramesToProcess s1 <= ULLONG_MAX)
      by (rewrite N1, N0; exact Range).
    assert (Counter1 : 0 <= mGlobalCounter s1 <= mNumberFramesToProcess s1 + 1)
      by (rewrite N1, N0; destruct Step as (Inc & Le);
          destruct (delivered r); lia).
    specialize (IH s1 Bounded1 Range1 Counter1).
    destruct (run_calls ws s1) as [rs s2]. cbn [fst snd] in *.
    destruct IH as (IH1 & IH2). rewrite N1, N0 in IH2.
    split; [| exact IH2].
    rewrite IH1. destruct Step as (-> & _).
    unfold batches. rewrite filter_cons.
    destruct (delivered r); destruct (decide _); cbn [length]; try lia;
      congruence.
Qed.

End Range.

(** C1, as stated, fails.  With [frameFirst] 0 and [frameLast] 1, on a
    stream that has a frame for every read and closes when it is released:
    the constructor completes, [frameLast - frameFirst] is 1, and of three
    calls the first two deliver a batch each.  The check at line 79 lets a
    call go ahead while the counter is not greater than
    [frameLast - frameFirst]: frame [frameLast] is the last one delivered,
    not the first one left out. *)
Lemma C1_range_of_one_delivers_two :
  let made := DatumProducer_new (video [pixel [1; 2; 3]]) 0 1 None in
  let run := run_calls [None; None; None] (snd made) in
  fst made = Ok tt /\
  mNumberFramesToProcess (snd made) = 1 - 0 /\
  map delivered (fst run) = [true; true; false] /\
  batches (fst run) = 2 /\
  mGlobalCounter (snd run) = 2.
Proof. vm_compute. repeat split. Qed.

(** ** The theorems on concrete sources *)

Lemma C8_multi_view_identity_witness :
  let s := snd (DatumProducer_new stereo 0 10 None) in
  let ds :=
    batch_of "frame" 0 [pixel [1]; pixel [2]] [pixel [3]; pixel [4]]
      [pixel [5]; pixel [6]] (pixel [10; 20; 30]) [pixel [40; 50; 60]] in
  fst (checkIfRunningAndGetDatum s) = Ok (true, Some ds) /\
  forall i d, ds !! i = Some d ->
    forall d0, ds !! 0%nat = Some d0 ->
      name d = name d0 /\ frameNumber d = frameNumber d0.
Proof.
  intros s ds.
  assert (E : checkIfRunningAndGetDatum s
              = (Ok (true, Some ds), snd (checkIfRunningAndGetDatum s)))
    by (vm_compute; reflexivity).
  assert (L : (1 < length ds)%nat) by (vm_compute; lia).
  split; [rewrite E; reflexivity |].
  destruct (C8_multi_view_identity s true ds _ E L)
    as (nextFrameName & nextFrameNumber & cvMats & cM & cE & cI & s4 & _ & _ & Id).
  intros i d Ei. exact (proj1 (Id i d Ei)).
Defined.


Lemma C9_discard_on_empty_witness :
  let s := snd (DatumProducer_new (video [no_image 3]) 0 10 None) in
  fst (checkIfRunningAndGetDatum s) = Ok (true, None) /\
  mGlobalCounter (snd (checkIfRunningAndGetDatum s)) = mGlobalCounter s.
Proof.
  intros s.
  set (s4 := snd (readProducer (invoked call_isOpened (spProducer s) s))).
  assert (F : fetches s "frame" 0 [no_image 3] [] [] [] s4).
  { exists s, (spProducer s), (invoked call_isOpened (spProducer s) s).
    repeat split; vm_compute; reflexivity. }
  assert (St : stall_check (Mat_empty (no_image 3)) s4
               = (Ok tt, with_mNumberConsecutiveEmptyFrames 1 s4))
    by (vm_compute; reflexivity).
  assert (Fill : fillDatums "frame" 0 [no_image 3] [] [] [] []
                   (with_mNumberConsecutiveEmptyFrames 1 s4)
                 = (Ok [datum_of "frame" 0 [] [] [] 0 (no_image 3)],
                    with_mNumberConsecutiveEmptyFrames 1 s4))
    by (vm_compute; reflexivity).
  destruct (C9_discard_on_empty s _ _ _ _ _ _ _ _ _ _ _ _ F St Fill
              eq_refl eq_refl) as [R G].
  rewrite R. split; [reflexivity | exact G].
Defined.

Lemma C10_calibration_bounds_witness :
  fst (fillDatums "frame" 0 [pixel [10; 20; 30]; pixel [40; 50; 60]]
         [pixel [1]; pixel [2]] [pixel [3]; pixel [4]] [pixel [5]; pixel [6]] []
         (snd (DatumProducer_new stereo 0 10 None)))
  <> OutOfBounds <->
  (Nat.min 2 2 <= 2 /\ Nat.min 2 2 <= 2)%nat.
Proof.
  exact (proj1 (C10_calibration_bounds "frame" 0 (pixel [10; 20; 30])
                  [pixel [40; 50; 60]] [pixel [1]; pixel [2]]
                  [pixel [3]; pixel [4]] [pixel [5]; pixel [6]]
                  (snd (DatumProducer_new stereo 0 10 None))
                  (or_introl eq_refl))).
Defined.

(** A camera matrix for the second view without extrinsics for it: the
    loop subscripts the extrinsics outside their bounds. *)
Example calibration_out_of_bounds :
  fst (fillDatums "frame" 0 [pixel [10; 20; 30]; pixel [40; 50; 60]]
         [pixel [1]; pixel [2]] [pixel [3]] [pixel [5]; pixel [6]] []
         (snd (DatumProducer_new stereo 0 10 None)))
  = OutOfBounds.
Proof. vm_compute. reflexivity. Qed.

(** ** The two ways through a call that has fetched views *)

Section Outcome.

Context {P : Type} `{Producer P}.
Implicit Types s : DatumProducer P.

(** The first view has data, one or three channels, and the calibration
    vectors cover the views: the call hands out the batch made of the
    views, the first converted if it was grey, the counter goes up by one and
    the count of consecutive empty frames is back at 0. *)
Lemma delivers_batch (s : DatumProducer P)
  nextFrameName nextFrameNumber m0 rest cM cE cI s4 :
  fetches s nextFrameName nextFrameNumber (m0 :: rest) cM cE cI s4 ->
  Mat_empty m0 = false ->
  channels m0 = 3 \/ channels m0 = 1 ->
  in_bounds_from cM cE cI 0 (S (length rest)) ->
  exists s',
    checkIfRunningAndGetDatum s
    = (Ok (true,
           Some (batch_of nextFrameName nextFrameNumber cM cE cI
                   (if channels m0 =? 3 then m0 else gray2bgr m0) rest)), s') /\
    mGlobalCounter s' = ull (mGlobalCounter s + 1) /\
    mNumberConsecutiveEmptyFrames s' = 0.
Proof.
  intros F Data Ch B.
  destruct (fetches_members _ _ _ _ _ _ _ _ F) as (_ & G & _).
  rewrite (fetches_call _ _ _ _ _ _ _ _ F), processFrames_views, Data.
  rewrite stall_check_data, fillDatums_eq.
  destruct (decide (in_bounds_at cM cE cI 0)) as [_ | N];
    [| exfalso; apply N, B; lia].
  unfold finish_batch.
  destruct (decide (in_bounds_from cM cE cI 1 (S (length rest)))) as [_ | N];
    [| exfalso; apply N; intros i Hi; apply B; lia].
  destruct Ch as [C | C]; rewrite C; cbn [Z.eqb Pos.eqb];
    unfold deliver, batch_of; cbn [imap datum_of cvInputData negb orb];
    rewrite ?gray2bgr_empty, Data; eexists; (split; [reflexivity |]);
    cbn; rewrite G; split; reflexivity.
Qed.

(** The first view has no data: under the same conditions, and with the
    stall count not yet at its threshold, the call returns a null pointer
    and leaves the counter alone. *)
Lemma discards_empty (s : DatumProducer P)
  nextFrameName nextFrameNumber m0 rest cM cE cI s4 :
  fetches s nextFrameName nextFrameNumber (m0 :: rest) cM cE cI s4 ->
  Mat_empty m0 = true ->
  uint (mNumberConsecutiveEmptyFrames s + 1) < 500 ->
  channels m0 = 3 \/ channels m0 = 1 ->
  in_bounds_from cM cE cI 0 (S (length rest)) ->
  exists s',
    checkIfRunningAndGetDatum s = (Ok (true, None), s') /\
    mGlobalCounter s' = mGlobalCounter s.
Proof.
  intros F Data St Ch B.
  destruct (fetches_members _ _ _ _ _ _ _ _ F) as (_ & G & K & _).
  rewrite (fetches_call _ _ _ _ _ _ _ _ F), processFrames_views, Data.
  rewrite stall_check_empty_under by (rewrite K; exact St).
  rewrite fillDatums_eq.
  destruct (decide (in_bounds_at cM cE cI 0)) as [_ | N];
    [| exfalso; apply N, B; lia].
  unfold finish_batch.
  destruct (decide (in_bounds_from cM cE cI 1 (S (length rest)))) as [_ | N];
    [| exfalso; apply N; intros i Hi; apply B; lia].
  destruct Ch as [C | C]; rewrite C; cbn [Z.eqb Pos.eqb];
    unfold deliver, batch_of; cbn [imap datum_of cvInputData negb orb];
    rewrite ?gray2bgr_empty, Data; eexists; (split; [reflexivity |]);
    cbn; exact G.
Qed.

(** Whatever the channels of the first view, a camera matrix for it with
    no extrinsics or no intrinsics to go with it takes the subscript at 0
    out of bounds. *)
Lemma first_calibration_unguarded nextFrameName nextFrameNumber m0 rest
  cM cE cI (s : DatumProducer P) :
  cM <> [] -> cE = [] \/ cI = [] ->
  fillDatums nextFrameName nextFrameNumber (m0 :: rest) cM cE cI [] s
  = (OutOfBounds, s).
Proof.
  intros NM Short. rewrite fillDatums_eq.
  destruct (decide (in_bounds_at cM cE cI 0)) as [B |]; [| reflexivity].
  exfalso. unfold in_bounds_at in B.
  destruct cM as [| m cM']; [congruence |]. cbn [length] in B.
  destruct Short as [-> | ->]; cbn [length] in B; lia.
Qed.

End Outcome.

(** The sample stream closes when released. *)
Lemma Source_release_closes : @release_closes Source Source_Producer.
Proof.
  intros p p' R. cbn in R. injection R as <-.
  exists (src_with_opened false p). reflexivity.
Qed.

(** Three calls on a range of one frame: two batches, the size of the range
    plus one. *)
Lemma range_bound_plus_one_witness :
  let s := snd (DatumProducer_new (video [pixel [1; 2; 3]]) 0 1 None) in
  mGlobalCounter (snd (run_calls [None; None; None] s))
  = mGlobalCounter s + batches (fst (run_calls [None; None; None] s)) /\
  mGlobalCounter (snd (run_calls [None; None; None] s))
  <= mNumberFramesToProcess s + 1.
Proof.
  intros s.
  refine (range_bound_plus_one Source_release_closes [None; None; None] s _ _ _).
  - vm_compute. discriminate.
  - vm_compute. split; discriminate.
  - vm_compute. split; discriminate.
Defined.

(** A stream that has been closed stays closed, call after call. *)
Lemma closed_for_good_witness :
  let s := snd (DatumProducer_new closed_video 0 10 None) in
  Forall (fun r => r = Ok (false, Some []))
    (fst (run_calls [None; None; None] s)) /\
  mGlobalCounter (snd (run_calls [None; None; None] s)) = mGlobalCounter s /\
  src_opened (spProducer (snd (run_calls [None; None; None] s))) = false.
Proof.
  intros s.
  refine (closed_for_good (fun p : Source => src_opened p = false)
            _ _ [None; None; None] s _).
  - intros p C. exists p. cbn. rewrite C. split; reflexivity.
  - intros p C. exists (src_with_opened false p). split; reflexivity.
  - reflexivity.
Defined.

(** A call on the stereo rig delivers the batch of its two views. *)
Lemma delivers_batch_witness :
  let s := snd (DatumProducer_new stereo 0 10 None) in
  exists s',
    checkIfRunningAndGetDatum s
    = (Ok (true,
           Some (batch_of "frame" 0 [pixel [1]; pixel [2]] [pixel [3]; pixel [4]]
                   [pixel [5]; pixel [6]]
                   (if channels (pixel [10; 20; 30]) =? 3
                    then pixel [10; 20; 30] else gray2bgr (pixel [10; 20; 30]))
                   [pixel [40; 50; 60]])), s') /\
    mGlobalCounter s' = ull (mGlobalCounter s + 1) /\
    mNumberConsecutiveEmptyFrames s' = 0.
Proof.
  intros s.
  assert (F : fetches s "frame" 0 [pixel [10; 20; 30]; pixel [40; 50; 60]]
                [pixel [1]; pixel [2]] [pixel [3]; pixel [4]]
                [pixel [5]; pixel [6]]
                (snd (readProducer (invoked call_isOpened (spProducer s) s)))).
  { exists s, (spProducer s), (invoked call_isOpened (spProducer s) s).
    repeat split; vm_compute; reflexivity. }
  refine (delivers_batch s _ _ _ _ _ _ _ _ F _ _ _).
  - reflexivity.
  - left. reflexivity.
  - intros i Hi L. cbn in *. lia.
Defined.

(** * Further properties of the member functions *)

(** ** Every way through a call *)

Section Paths.

Context {P : Type} `{Producer P}.
Implicit Types s : DatumProducer P.

(** A call runs the blocks in order and ends at the first that does not
    return; where it ends decides what the caller gets. *)
Lemma call_paths s r s' :
  checkIfRunningAndGetDatum s = (r, s') ->
  exists r1 s1,
    checkLastFrame s = (r1, s1) /\
    match r1 with
    | Ok _ =>
        exists r2 p2,
          isOpened (spProducer s1) = (r2, p2) /\
          match r2 with
          | Ok false =>
              r = Ok (false, Some []) /\ s' = invoked call_isOpened p2 s1
          | Ok true =>
              exists r3 s3,
                seekVideo (invoked call_isOpened p2 s1) = (r3, s3) /\
                match r3 with
                | Ok _ =>
                    exists r4 s4,
                      readProducer s3 = (r4, s4) /\
                      match r4 with
                      | Ok (nextFrameName, nextFrameNumber, cvMats, cM, cE, cI) =>
                          exists r5,
                            processFrames true nextFrameName nextFrameNumber
                              cvMats cM cE cI [] s4 = (r5, s') /\
                            r = match r5 with
                                | Ok d => Ok (true, d)
                                | Throw e => Throw (reported e)
                                | OutOfBounds => OutOfBounds
                                end
                      | Throw e => r = Throw (reported e) /\ s' = s4
                      | OutOfBounds => r = OutOfBounds /\ s' = s4
                      end
                | Throw e => r = Throw (reported e) /\ s' = s3
                | OutOfBounds => r = OutOfBounds /\ s' = s3
                end
          | Throw e =>
              r = Throw (reported e) /\ s' = invoked call_isOpened p2 s1
          | OutOfBounds =>
              r = OutOfBounds /\ s' = invoked call_isOpened p2 s1
          end
    | Throw e => r = Throw (reported e) /\ s' = s1
    | OutOfBounds => r = OutOfBounds /\ s' = s1
    end.
Proof.
  intros E.
  destruct (checkLastFrame s) as [r1 s1] eqn:E1. exists r1, s1.
  split; [reflexivity |].
  destruct r1 as [[] | e |];
    [| rewrite (call_range_check_fails _ _ _ E1 ltac:(discriminate)) in E;
       injection E as <- <-; split; reflexivity ..].
  destruct (isOpened (spProducer s1)) as [r2 p2] eqn:E2. exists r2, p2.
  split; [reflexivity |].
  destruct r2 as [[] | e |].
  - destruct (seekVideo (invoked call_isOpened p2 s1)) as [r3 s3] eqn:E3.
    exists r3, s3. split; [reflexivity |].
    destruct r3 as [[] | e |];
      [| destruct (call_ends_in_seek _ _ _ _ _ _ _ E1 E2 E3
                     ltac:(discriminate) E) as (-> & ->);
         split; reflexivity ..].
    destruct (readProducer s3) as [r4 s4] eqn:E4. exists r4, s4.
    split; [reflexivity |].
    destruct r4
      as [[[[[[nextFrameName nextFrameNumber] cvMats] cM] cE] cI] | e |].
    + rewrite (call_open _ _ _ _ _ _ _ _ _ _ _ E1 E2 E3 E4) in E.
      destruct (processFrames _ _ _ _ _ _ _ _ _) as [r5 s5].
      exists r5. destruct r5 as [d | e |]; injection E as <- <-;
        split; reflexivity.
    + revert E. unfold checkIfRunningAndGetDatum. rewrite try_catch_reported.
      rewrite (bind_Ok _ _ _ _ _ E1).
      rewrite (bind_Ok _ _ _ _ _ (invoke_eq _ _ _ _ _ E2)).
      rewrite (bind_Ok _ _ _ _ _ E3).
      rewrite (bind_Throw _ _ _ _ _ E4). intros [= <- <-]. split; reflexivity.
    + revert E. unfold checkIfRunningAndGetDatum. rewrite try_catch_reported.
      rewrite (bind_Ok _ _ _ _ _ E1).
      rewrite (bind_Ok _ _ _ _ _ (invoke_eq _ _ _ _ _ E2)).
      rewrite (bind_Ok _ _ _ _ _ E3).
      rewrite (bind_OutOfBounds _ _ _ _ E4). intros [= <- <-].
      split; reflexivity.
  - rewrite (call_closed _ _ _ E1 E2) in E. injection E as <- <-.
    split; reflexivity.
  - revert E. unfold checkIfRunningAndGetDatum. rewrite try_catch_reported.
    rewrite (bind_Ok _ _ _ _ _ E1).
    rewrite (bind_Throw _ _ _ _ _ (invoke_eq _ _ _ _ _ E2)).
    intros [= <- <-]. split; reflexivity.
  - revert E. unfold checkIfRunningAndGetDatum. rewrite try_catch_reported.
    rewrite (bind_Ok _ _ _ _ _ E1).
    rewrite (bind_OutOfBounds _ _ _ _ (invoke_eq _ _ _ _ _ E2)).
    intros [= <- <-]. split; reflexivity.
Qed.

End Paths.

(** ** What a call applies to the source *)

Section Kept.

Context {P : Type} `{Producer P}.
Implicit Types s : DatumProducer P.

Lemma invoke_keeps {A} (Inv : P -> Prop) c (f : P -> Result A * P) s r s' :
  (forall p r p', f p = (r, p') -> Inv p -> Inv p') ->
  invoke c f s = (r, s') -> Inv (spProducer s) -> Inv (spProducer s').
Proof.
  unfold invoke. intros K.
  destruct (f (spProducer s)) as [r0 p0] eqn:E. intros [= _ <-] I.
  exact (K _ _ _ E I).
Qed.

(** The range check applies [release] to the source or nothing. *)
Lemma checkLastFrame_keeps (Inv : P -> Prop) s r s' :
  (past_range s = true -> kept_by_release Inv) ->
  checkLastFrame s = (r, s') -> Inv (spProducer s) -> Inv (spProducer s').
Proof.
  unfold checkLastFrame, past_range, bind, read.
  destruct (negb _ && _).
  - intros K. apply invoke_keeps. exact (K eq_refl).
  - intros _ [= _ <-] I. exact I.
Qed.

(** The seek block applies [get] and [set], and these only with a pair. *)
Lemma seekVideo_keeps (Inv : P -> Prop) s r s' :
  kept_by_queries Inv -> (spVideoSeek s <> None -> kept_by_set Inv) ->
  seekVideo s = (r, s') -> Inv (spProducer s) -> Inv (spProducer s').
Proof.
  intros (_ & Kget & _) Kset.
  unfold seekVideo, bind, read, write, ret, invoke.
  destruct (spVideoSeek s) as [[first second] |]; [| intros [= _ <-] I; exact I].
  specialize (Kset ltac:(discriminate)).
  destruct (negb _); [| intros [= _ <-] I; exact I].
  destruct (get _ _) as [[position | e |] p1] eqn:G; cbn;
    [| intros [= _ <-] I; exact (Kget _ _ _ _ G I) ..].
  destruct (set _ _ _) as [[[] | e |] p2] eqn:S; cbn;
    intros [= _ <-] I; exact (Kset _ _ _ _ _ S (Kget _ _ _ _ G I)).
Qed.

(** The fetch applies the member functions that read the source. *)
Lemma readProducer_keeps (Inv : P -> Prop) s r s' :
  kept_by_queries Inv ->
  readProducer s = (r, s') -> Inv (spProducer s) -> Inv (spProducer s').
Proof.
  intros (_ & Kget & Kname & Kframes & KcM & KcE & KcI) E I. revert E.
  unfold readProducer, bind, ret.
  destruct (invoke call_getNextFrameName _ s) as [r1 s1] eqn:E1.
  pose proof (invoke_keeps Inv _ _ _ _ _ Kname E1 I) as I1.
  destruct r1 as [nextFrameName | e |]; [| intros [= _ <-]; exact I1 ..].
  destruct (invoke (call_get _) _ s1) as [r2 s2] eqn:E2.
  pose proof (invoke_keeps Inv _ _ _ _ _ (Kget _) E2 I1) as I2.
  destruct r2 as [position | e |]; [| intros [= _ <-]; exact I2 ..].
  destruct (invoke call_getFrames _ s2) as [r3 s3] eqn:E3.
  pose proof (invoke_keeps Inv _ _ _ _ _ Kframes E3 I2) as I3.
  destruct r3 as [cvMats | e |]; [| intros [= _ <-]; exact I3 ..].
  destruct (invoke call_getCameraMatrices _ s3) as [r4 s4] eqn:E4.
  pose proof (invoke_keeps Inv _ _ _ _ _ KcM E4 I3) as I4.
  destruct r4 as [cM | e |]; [| intros [= _ <-]; exact I4 ..].
  destruct (invoke call_getCameraExtrinsics _ s4) as [r5 s5] eqn:E5.
  pose proof (invoke_keeps Inv _ _ _ _ _ KcE E5 I4) as I5.
  destruct r5 as [cE | e |]; [| intros [= _ <-]; exact I5 ..].
  destruct (invoke call_getCameraIntrinsics _ s5) as [r6 s6] eqn:E6.
  pose proof (invoke_keeps Inv _ _ _ _ _ KcI E6 I5) as I6.
  destruct r6 as [cI | e |]; intros [= _ <-]; exact I6.
Qed.

(** A call, from the range check on: what [isOpened], the seek block and
    the fetch keep is kept to the end of the call. *)
Lemma call_keeps_from (Inv : P -> Prop) s r1 s1 r s' :
  kept_by_queries Inv -> (spVideoSeek s <> None -> kept_by_set Inv) ->
  checkLastFrame s = (r1, s1) ->
  checkIfRunningAndGetDatum s = (r, s') ->
  Inv (spProducer s1) -> Inv (spProducer s').
Proof.
  intros Kq Kset E1 E I1.
  destruct (call_paths _ _ _ E) as (r1' & s1' & E1' & Path).
  rewrite E1 in E1'. injection E1' as <- <-.
  pose proof (checkLastFrame_source_only _ _ _ E1) as (_ & _ & _ & K1 & _).
  destruct r1 as [[] | e |]; [| destruct Path as (_ & ->); exact I1 ..].
  destruct Path as (r2 & p2 & E2 & Path).
  assert (I2 : Inv p2) by exact (proj1 Kq _ _ _ E2 I1).
  destruct r2 as [[] | e |]; [| destruct Path as (_ & ->); exact I2 ..].
  destruct Path as (r3 & s3 & E3 & Path).
  assert (I3 : Inv (spProducer s3)).
  { apply (seekVideo_keeps Inv _ _ _ Kq) in E3; [exact E3 | | exact I2].
    cbn. rewrite K1. exact Kset. }
  destruct r3 as [[] | e |]; [| destruct Path as (_ & ->); exact I3 ..].
  destruct Path as (r4 & s4 & E4 & Path).
  pose proof (readProducer_keeps Inv _ _ _ Kq E4 I3) as I4.
  destruct r4
    as [[[[[[nextFrameName nextFrameNumber] cvMats] cM] cE] cI] | e |];
    [| destruct Path as (_ & ->); exact I4 ..].
  destruct Path as (r5 & E5 & _).
  destruct (processFrames_members _ _ _ _ _ _ _ _ _ _ E5) as (-> & _).
  exact I4.
Qed.

(** A whole call. *)
Lemma call_keeps (Inv : P -> Prop) s r s' :
  kept_by_queries Inv ->
  (past_range s = true -> kept_by_release Inv) ->
  (spVideoSeek s <> None -> kept_by_set Inv) ->
  checkIfRunningAndGetDatum s = (r, s') ->
  Inv (spProducer s) -> Inv (spProducer s').
Proof.
  intros Kq Krelease Kset E I.
  destruct (checkLastFrame s) as [r1 s1] eqn:E1.
  apply (call_keeps_from Inv _ _ _ _ _ Kq Kset E1 E).
  exact (checkLastFrame_keeps Inv _ _ _ Krelease E1 I).
Qed.

(** The range check that returns, on the source. *)
Lemma checkLastFrame_released s s1 :
  checkLastFrame s = (Ok tt, s1) -> released s (spProducer s1).
Proof.
  unfold released, checkLastFrame, past_range, bind, read, invoke.
  destruct (negb _ && _).
  - destruct (release (spProducer s)) as [[[] | e |] p1]; intros [= <-];
      reflexivity.
  - intros [= <-]. reflexivity.
Qed.

(** The seek block that returns, on the source. *)
Lemma seekVideo_sought s s3 :
  seekVideo s = (Ok tt, s3) -> sought s (spProducer s) (spProducer s3).
Proof.
  unfold sought, seekVideo, bind, read, write, ret, invoke.
  destruct (spVideoSeek s) as [[first second] |]; cbn zeta;
    [| intros [= <-]; reflexivity].
  destruct (int (second - (if first then 1 else 0)) =? 0); cbn [negb];
    [intros [= <-]; reflexivity |].
  destruct (get CV_CAP_PROP_POS_FRAMES (spProducer s))
    as [[position | e |] p3] eqn:G; [| discriminate ..].
  cbn [spProducer invoked with_spProducer with_calls].
  match goal with
  | |- context [set ?propId ?value p3] =>
      destruct (set propId value p3) as [[[] | e |] p4] eqn:S
  end; [| discriminate ..].
  intros [= <-]. exists position, p3. split; [reflexivity | exact S].
Qed.

(** The fetch that returns, on the source. *)
Lemma readProducer_fetched s nextFrameName nextFrameNumber cvMats cM cE cI s4 :
  readProducer s = (Ok (nextFrameName, nextFrameNumber, cvMats, cM, cE, cI), s4) ->
  fetched (spProducer s) (spProducer s4) nextFrameName nextFrameNumber
    cvMats cM cE cI.
Proof.
  unfold fetched, readProducer, bind, ret, invoke.
  destruct (getNextFrameName (spProducer s)) as [[name | e |] p5] eqn:E1;
    [| discriminate ..].
  cbn [spProducer invoked with_spProducer with_calls].
  destruct (get CV_CAP_PROP_POS_FRAMES p5) as [[position | e |] p6] eqn:E2;
    [| discriminate ..].
  cbn [spProducer invoked with_spProducer with_calls].
  destruct (getFrames p6) as [[frames | e |] p7] eqn:E3; [| discriminate ..].
  cbn [spProducer invoked with_spProducer with_calls].
  destruct (getCameraMatrices p7) as [[m | e |] p8] eqn:E4; [| discriminate ..].
  cbn [spProducer invoked with_spProducer with_calls].
  destruct (getCameraExtrinsics p8) as [[x | e |] p9] eqn:E5;
    [| discriminate ..].
  cbn [spProducer invoked with_spProducer with_calls].
  destruct (getCameraIntrinsics p9) as [[k | e |] p10] eqn:E6;
    [| discriminate ..].
  intros [= <- <- <- <- <- <- <-].
  exists p5, position, p6, p7, p8, p9. repeat split; assumption.
Qed.

(** The member functions a fetching call applies to the source, and the
    order.  A call that returns [true] has applied to the source, each
    function to the source as the one before left it: [release], if and only
    if the range is bounded and the counter was greater than its size; then
    [isOpened]; then the seek, which is nothing without a shared pair or with
    a delta of zero, and otherwise [get] followed by [set] of the position
    that [get] gave plus the delta; then [getNextFrameName], [get],
    [getFrames], [getCameraMatrices], [getCameraExtrinsics] and
    [getCameraIntrinsics].  All of them returned, the source the producer
    holds after the call is the one the last of them left, and the vector
    returned is made of what they gave. *)
Theorem fetching_call_order s d s' :
  checkIfRunningAndGetDatum s = (Ok (true, d), s') ->
  exists p1 p2 p4 nextFrameName nextFrameNumber cvMats cM cE cI,
    released s p1 /\
    isOpened p1 = (Ok true, p2) /\
    sought s p2 p4 /\
    fetched p4 (spProducer s') nextFrameName nextFrameNumber cvMats cM cE cI /\
    exists s4,
      processFrames true nextFrameName nextFrameNumber cvMats cM cE cI [] s4
      = (Ok d, s').
Proof.
  intros E.
  destruct (call_returns_inv _ _ _ E) as (s1 & E1 & [Closed | Open]).
  { destruct Closed as (p2 & _ & [=] & _). }
  destruct Open as (p2 & s3 & s4 & nextFrameName & nextFrameNumber & cvMats
                    & cM & cE & cI & d' & E2 & E3 & E4 & E5 & [= <-]).
  pose proof (checkLastFrame_source_only _ _ _ E1) as (_ & _ & _ & K1 & _).
  exists (spProducer s1), p2, (spProducer s3),
    nextFrameName, nextFrameNumber, cvMats, cM, cE, cI.
  split; [exact (checkLastFrame_released _ _ E1) |].
  split; [exact E2 |]. split; [| split; [| exists s4; exact E5]].
  - pose proof (seekVideo_sought _ _ E3) as Seek.
    unfold sought in *.
    change (spVideoSeek (invoked call_isOpened p2 s1)) with (spVideoSeek s1)
      in Seek.
    rewrite K1 in Seek. exact Seek.
  - destruct (processFrames_members _ _ _ _ _ _ _ _ _ _ E5) as (-> & _).
    exact (readProducer_fetched _ _ _ _ _ _ _ _ E4).
Qed.

(** The release, and when.  Take any call, whatever becomes of it.  When the
    range is unbounded or the counter is not greater than its size, the call
    does not apply [release]: a property of the source that the other member
    functions keep holds after the call if it held before.  When the range
    is bounded and the counter is greater than its size, [release] is applied
    to the source as the call found it, and nothing is applied before it or
    a second time: what the other member functions keep holds after the call
    if it holds of the source [release] gave back; and when [release] does
    not return, the call ends there, with that source and without a
    result. *)
Theorem release_iff_past_range s r s' :
  checkIfRunningAndGetDatum s = (r, s') ->
  forall Inv : P -> Prop,
    kept_by_queries Inv -> kept_by_set Inv ->
    (past_range s = false -> Inv (spProducer s) -> Inv (spProducer s')) /\
    (past_range s = true ->
     forall r1 p1,
       release (spProducer s) = (r1, p1) ->
       (Inv p1 -> Inv (spProducer s')) /\
       (r1 <> Ok tt -> spProducer s' = p1 /\ forall v, r <> Ok v)).
Proof.
  intros E Inv Kq Kset. split.
  - intros Within I.
    apply (call_keeps Inv s r s' Kq);
      [rewrite Within; discriminate | intros _; exact Kset | exact E | exact I].
  - intros Past r1 p1 R.
    assert (E1 : checkLastFrame s = (r1, invoked call_release p1 s)).
    { unfold checkLastFrame, bind, read. unfold past_range in Past.
      rewrite Past. apply invoke_eq. exact R. }
    split.
    + exact (call_keeps_from Inv s r1 _ r s' Kq (fun _ => Kset) E1 E).
    + intros N.
      rewrite (call_range_check_fails _ _ _ E1 N) in E.
      destruct r1 as [[] | e |]; [congruence | |]; cbn in E;
        injection E as <- <-; (split; [reflexivity | discriminate]).
Qed.

End Kept.

(** ** The shared pair and the range over a run *)

Section Pair.

Context {P : Type} `{Producer P}.
Implicit Types s : DatumProducer P.

(** What the seek block leaves in the pair: the increment is put to 0 when
    the block returns, and nothing is written when it does not. *)
Lemma seekVideo_pair s r s' :
  seekVideo s = (r, s') ->
  spVideoSeek s' =
  match r with
  | Ok _ => option_map (fun v => (fst v, 0)) (spVideoSeek s)
  | _ => spVideoSeek s
  end.
Proof.
  intros E. destruct r as [[] | e |].
  - destruct (spVideoSeek s) as [[first second] |] eqn:K.
    + exact (seekVideo_Ok_resets _ _ _ _ K E).
    + rewrite (seekVideo_absent _ K) in E. injection E as <-. exact K.
  - apply (seekVideo_not_Ok_keeps _ _ _ E). discriminate.
  - apply (seekVideo_not_Ok_keeps _ _ _ E). discriminate.
Qed.

(** What a call leaves in the pair: either what it found, and then the call
    did not return [true]; or what it found with the increment at 0, and
    then the call did not return [false]. *)
Lemma call_seek_pair s r s' :
  checkIfRunningAndGetDatum s = (r, s') ->
  (spVideoSeek s' = spVideoSeek s /\ forall d, r <> Ok (true, d)) \/
  (spVideoSeek s' = option_map (fun v => (fst v, 0)) (spVideoSeek s) /\
   forall d, r <> Ok (false, d)).
Proof.
  intros E.
  destruct (call_paths _ _ _ E) as (r1 & s1 & E1 & Path).
  pose proof (checkLastFrame_source_only _ _ _ E1) as (_ & _ & _ & K1 & _).
  destruct r1 as [[] | e |];
    [| destruct Path as (-> & ->); left; (split; [exact K1 | discriminate]) ..].
  destruct Path as (r2 & p2 & E2 & Path).
  destruct r2 as [[] | e |];
    [| destruct Path as (-> & ->); left; (split; [exact K1 | discriminate]) ..].
  destruct Path as (r3 & s3 & E3 & Path).
  pose proof (seekVideo_pair _ _ _ E3) as K3. cbn [invoked] in K3.
  change (spVideoSeek (invoked call_isOpened p2 s1)) with (spVideoSeek s1) in K3.
  rewrite K1 in K3.
  destruct r3 as [[] | e |];
    [| destruct Path as (-> & ->); left; (split; [exact K3 | discriminate]) ..].
  destruct Path as (r4 & s4 & E4 & Path).
  pose proof (readProducer_source_only _ _ _ E4) as (_ & _ & _ & K4 & _).
  right.
  destruct r4
    as [[[[[[nextFrameName nextFrameNumber] cvMats] cM] cE] cI] | e |];
    [| destruct Path as (-> & ->);
       (split; [rewrite K4; exact K3 | discriminate]) ..].
  destruct Path as (r5 & E5 & ->).
  destruct (processFrames_members _ _ _ _ _ _ _ _ _ _ E5) as (_ & _ & K5 & _).
  split; [rewrite K5, K4; exact K3 |].
  destruct r5; discriminate.
Qed.

(** What the producer does to the shared pair.  It never writes the pause
    flag, and the increment after a call is the one before it or 0.  A call
    that returns [false] has consumed nothing: a request made while the
    source is closed stays in the pair.  A call that returns [true] has
    consumed the request: the increment is 0. *)
Theorem seek_pair_after_call s r s' first second :
  checkIfRunningAndGetDatum s = (r, s') ->
  spVideoSeek s = Some (first, second) ->
  (spVideoSeek s' = Some (first, second) \/ spVideoSeek s' = Some (first, 0)) /\
  (forall d, r = Ok (false, d) -> spVideoSeek s' = Some (first, second)) /\
  (forall d, r = Ok (true, d) -> spVideoSeek s' = Some (first, 0)).
Proof.
  intros E K.
  destruct (call_seek_pair _ _ _ E) as [(K' & N) | (K' & N)];
    rewrite K in K'; cbn in K'.
  - split; [left; exact K' |]. split.
    + intros _ _. exact K'.
    + intros d ->. exfalso. exact (N d eq_refl).
  - split; [right; exact K' |]. split.
    + intros d ->. exfalso. exact (N d eq_refl).
    + intros _ _. exact K'.
Qed.

(** A producer made without a seek channel never moves the cursor.  Over
    any run of calls, whatever they return, [set] is not applied to the
    source: a property of the source that the other member functions keep
    holds after the run if it held before.  There is still no channel after
    the run. *)
Theorem no_channel_never_moves_cursor s :
  spVideoSeek s = None ->
  forall Inv : P -> Prop,
    kept_by_queries Inv -> kept_by_release Inv ->
    Inv (spProducer s) ->
    forall ws,
      Inv (spProducer (snd (run_calls ws s))) /\
      spVideoSeek (snd (run_calls ws s)) = None.
Proof.
  intros K Inv Kq Krelease I ws. revert s K I.
  induction ws as [| w ws IH]; intros s K I.
  - split; [exact I | exact K].
  - cbn [run_calls].
    assert (W : controller_writes w s = s)
      by (unfold controller_writes; rewrite K; reflexivity).
    rewrite W.
    destruct (checkIfRunningAndGetDatum s) as [r s1] eqn:E.
    assert (K1 : spVideoSeek s1 = None).
    { destruct (call_seek_pair _ _ _ E) as [(K' & _) | (K' & _)];
        rewrite K in K'; exact K'. }
    assert (I1 : Inv (spProducer s1)).
    { apply (call_keeps Inv s r s1 Kq); [intros _; exact Krelease | | exact E | exact I].
      intros N. contradiction. }
    specialize (IH s1 K1 I1).
    destruct (run_calls ws s1) as [rs s2]. exact IH.
Qed.

(** An unbounded range is never closed by the producer.  When the size of
    the range is the largest [unsigned long long], no call of any run applies
    [release] to the source, whatever the counter, whatever is written to
    the shared pair between the calls and whatever the calls return: a
    property of the source that the other member functions keep holds after
    the run if it held before. *)
Theorem unbounded_never_releases s :
  mNumberFramesToProcess s = ULLONG_MAX ->
  forall Inv : P -> Prop,
    kept_by_queries Inv -> kept_by_set Inv ->
    Inv (spProducer s) ->
    forall ws, Inv (spProducer (snd (run_calls ws s))).
Proof.
  intros U Inv Kq Kset I ws. revert s U I.
  induction ws as [| w ws IH]; intros s U I.
  - exact I.
  - cbn [run_calls].
    set (s0 := controller_writes w s).
    assert (U0 : mNumberFramesToProcess s0 = ULLONG_MAX)
      by (unfold s0, controller_writes; destruct (spVideoSeek s), w; exact U).
    assert (I0 : Inv (spProducer s0))
      by (unfold s0, controller_writes; destruct (spVideoSeek s), w; exact I).
    destruct (checkIfRunningAndGetDatum s0) as [r s1] eqn:E.
    assert (Within : past_range s0 = false)
      by (unfold past_range; rewrite U0; reflexivity).
    assert (I1 : Inv (spProducer s1)).
    { apply (call_keeps Inv s0 r s1 Kq);
        [rewrite Within; discriminate | intros _; exact Kset | exact E
        | exact I0]. }
    destruct (call_counter _ _ _ E) as (U1 & _). rewrite U0 in U1.
    specialize (IH s1 U1 I1).
    destruct (run_calls ws s1) as [rs s2]. exact IH.
Qed.

(** The members the constructor leaves, whether its body returns or not. *)
Lemma DatumProducer_new_members (p : P) frameFirst frameLast videoSeek :
  let s := snd (DatumProducer_new p frameFirst frameLast videoSeek) in
  mNumberFramesToProcess s =
  (if negb (frameLast =? ULLONG_MAX) then ull (frameLast - frameFirst)
   else frameLast) /\
  mGlobalCounter s = 0 /\ mNumberConsecutiveEmptyFrames s = 0 /\
  spVideoSeek s = videoSeek.
Proof.
  unfold DatumProducer_new, DatumProducer_body, try_catch, bind, invoke, lift,
    ret, DatumProducer_members.
  cbn [spProducer].
  destruct (getType p) as [[type | e |] p1]; cbn; [| repeat split ..].
  destruct (bool_decide (type <> Webcam)); cbn; [| repeat split].
  destruct (set _ _ p1) as [[[] | e |] p2]; cbn; repeat split.
Qed.

(** The range the constructor computes, for [frameFirst] and [frameLast] of
    type [unsigned long long].  With [frameFirst] up to [frameLast] the size
    is their difference.  With [frameFirst] greater than [frameLast] the
    subtraction wraps around.  The size is the largest value, which the calls
    take for a range without end, exactly when [frameLast] is that value or
    [frameFirst] is [frameLast + 1]. *)
Theorem constructed_range (p : P) frameFirst frameLast videoSeek :
  0 <= frameFirst <= ULLONG_MAX ->
  0 <= frameLast <= ULLONG_MAX ->
  let s := snd (DatumProducer_new p frameFirst frameLast videoSeek) in
  (frameLast <> ULLONG_MAX -> frameFirst <= frameLast ->
   mNumberFramesToProcess s = frameLast - frameFirst) /\
  (frameLast <> ULLONG_MAX -> frameLast < frameFirst ->
   mNumberFramesToProcess s = ULLONG_MAX + 1 - (frameFirst - frameLast)) /\
  (mNumberFramesToProcess s = ULLONG_MAX <->
   frameLast = ULLONG_MAX \/ frameFirst = frameLast + 1) /\
  past_range s = false.
Proof.
  intros First Last s.
  destruct (DatumProducer_new_members p frameFirst frameLast videoSeek)
    as (N & G & _).
  fold s in N, G.
  assert (Small : frameFirst <= frameLast ->
                  ull (frameLast - frameFirst) = frameLast - frameFirst).
  { intros Le. unfold ull. apply Z.mod_small. unfold ULLONG_MAX in *. lia. }
  assert (Wrap : frameLast < frameFirst ->
                 ull (frameLast - frameFirst)
                 = ULLONG_MAX + 1 - (frameFirst - frameLast)).
  { intros Lt. unfold ull.
    replace (frameLast - frameFirst)
      with (ULLONG_MAX + 1 - (frameFirst - frameLast) + (-1) * 2 ^ 64)
      by (unfold ULLONG_MAX; lia).
    rewrite Z.mod_add by lia. apply Z.mod_small. unfold ULLONG_MAX in *. lia. }
  destruct (frameLast =? ULLONG_MAX) eqn:Sentinel; cbn [negb] in N.
  - apply Z.eqb_eq in Sentinel. repeat split; try (intros; congruence).
    + intros _. left. exact Sentinel.
    + unfold past_range. rewrite N, Sentinel. reflexivity.
  - apply Z.eqb_neq in Sentinel. repeat split.
    + intros _ Le. rewrite N. exact (Small Le).
    + intros _ Lt. rewrite N. exact (Wrap Lt).
    + intros U. right. rewrite N in U.
      destruct (Z_le_gt_dec frameFirst frameLast) as [Le | Gt].
      * rewrite (Small Le) in U. lia.
      * rewrite Wrap in U by lia. lia.
    + intros [L | F]; [contradiction |]. rewrite N, Wrap by lia. lia.
    + unfold past_range. rewrite G.
      assert (0 <= mNumberFramesToProcess s).
      { rewrite N. unfold ull. apply Z.mod_pos_bound. lia. }
      destruct (mNumberFramesToProcess s <? 0) eqn:L;
        [apply Z.ltb_lt in L; lia | apply andb_false_r].
Qed.

End Pair.

(** ** C1: the frames from the first to the last *)

Section Inclusive.

Context {P : Type} `{Producer P}.
Implicit Types s : DatumProducer P.

(** One call of a producer with a bounded range whose counter is at most
    one past it, on a source that closes when released: the counter goes up
    by one if a batch is delivered, and stays at most one past the range. *)
Lemma call_range_step s r s' :
  release_closes ->
  mNumberFramesToProcess s <> ULLONG_MAX ->
  0 <= mNumberFramesToProcess s <= ULLONG_MAX ->
  0 <= mGlobalCounter s <= mNumberFramesToProcess s + 1 ->
  checkIfRunningAndGetDatum s = (r, s') ->
  mNumberFramesToProcess s' = mNumberFramesToProcess s /\
  mGlobalCounter s' = mGlobalCounter s + (if delivered r then 1 else 0) /\
  mGlobalCounter s' <= mNumberFramesToProcess s + 1.
Proof.
  intros RC Bounded Range Counter E.
  destruct (call_counter _ _ _ E) as (N1 & G1).
  split; [exact N1 |].
  destruct (delivered r) eqn:D; [| lia].
  destruct (decide (mNumberFramesToProcess s < mGlobalCounter s))
    as [Past | Within].
  - rewrite (call_past_range _ _ _ RC Bounded Past E) in D. discriminate.
  - assert (U : ull (mGlobalCounter s + 1) = mGlobalCounter s + 1).
    { unfold ull. apply Z.mod_small. unfold ULLONG_MAX in *. lia. }
    lia.
Qed.

(** C1, amended.  A producer constructed for the frames from [frameFirst]
    to [frameLast], with [frameLast] below the largest [unsigned long long],
    on a source that reports closed once it has been released: over any run
    of calls, whatever is written to the shared pair between them, the
    number of batches delivered is at most [frameLast - frameFirst + 1], one
    for each frame from the first to the last, both included; and
    [mGlobalCounter] is the number of batches delivered. *)
Theorem C1_range_bound (p : P) (frameFirst frameLast : Z)
  (videoSeek : option (bool * Z)) s :
  release_closes ->
  0 <= frameFirst <= frameLast ->
  frameLast < ULLONG_MAX ->
  DatumProducer_new p frameFirst frameLast videoSeek = (Ok tt, s) ->
  forall ws,
    batches (fst (run_calls ws s)) <= frameLast - frameFirst + 1 /\
    mGlobalCounter (snd (run_calls ws s)) = batches (fst (run_calls ws s)).
Proof.
  intros RC Order Bounded New ws.
  destruct (DatumProducer_new_members p frameFirst frameLast videoSeek)
    as (N & G & _).
  rewrite New in N, G. cbn [snd] in N, G.
  assert (Size : mNumberFramesToProcess s = frameLast - frameFirst).
  { rewrite N.
    destruct (frameLast =? ULLONG_MAX) eqn:L; [apply Z.eqb_eq in L; lia |].
    cbn [negb]. unfold ull. apply Z.mod_small. unfold ULLONG_MAX in *. lia. }
  assert (Run : forall ws s0,
            mNumberFramesToProcess s0 = frameLast - frameFirst ->
            0 <= mGlobalCounter s0 <= frameLast - frameFirst + 1 ->
            mGlobalCounter (snd (run_calls ws s0))
            = mGlobalCounter s0 + batches (fst (run_calls ws s0)) /\
            mGlobalCounter (snd (run_calls ws s0))
            <= frameLast - frameFirst + 1).
  { clear ws. intros ws. induction ws as [| w ws IH]; intros s0 N0 C0.
    - cbn. unfold batches. cbn. lia.
    - cbn [run_calls].
      set (s1 := controller_writes w s0).
      assert (N1 : mNumberFramesToProcess s1 = frameLast - frameFirst)
        by (unfold s1, controller_writes; destruct (spVideoSeek s0), w;
            exact N0).
      assert (G1 : mGlobalCounter s1 = mGlobalCounter s0)
        by (unfold s1, controller_writes; destruct (spVideoSeek s0), w;
            reflexivity).
      destruct (checkIfRunningAndGetDatum s1) as [r s2] eqn:E.
      destruct (call_range_step s1 r s2 RC) as (N2 & G2 & Le);
        [unfold ULLONG_MAX in *; lia | unfold ULLONG_MAX in *; lia | lia
        | exact E |].
      destruct (IH s2) as (IH1 & IH2);
        [congruence | destruct (delivered r); lia |].
      destruct (run_calls ws s2) as [rs s3]. cbn [fst snd] in *.
      split; [| exact IH2].
      rewrite IH1, G2, G1. unfold batches. rewrite filter_cons.
      destruct (delivered r); destruct (decide _); cbn [length]; try lia;
        congruence. }
  destruct (Run ws s Size) as (Count & Le); [lia |].
  rewrite G in Count. split; lia.
Qed.

End Inclusive.

(** Three calls for the frames 0 to 1: at most two batches. *)
Lemma C1_range_bound_witness :
  let s := snd (DatumProducer_new (video [pixel [1; 2; 3]]) 0 1 None) in
  let ws := [None; None; None] in
  batches (fst (run_calls ws s)) <= 1 - 0 + 1 /\
  mGlobalCounter (snd (run_calls ws s)) = batches (fst (run_calls ws s)).
Proof.
  intros s ws.
  assert (Order : 0 <= 0 <= 1) by lia.
  assert (Bounded : 1 < ULLONG_MAX) by (unfold ULLONG_MAX; lia).
  assert (New : DatumProducer_new (video [pixel [1; 2; 3]]) 0 1 None
                = (Ok tt, s)) by (vm_compute; reflexivity).
  exact (C1_range_bound (video [pixel [1; 2; 3]]) 0 1 None s
           Source_release_closes Order Bounded New ws).
Defined.

(** ** What the caller can be handed *)

Section Outcomes.

Context {P : Type} `{Producer P}.
Implicit Types s : DatumProducer P.

(** A stall check that returns has left the counter below the threshold. *)
Lemma stall_check_Ok_inv emptyFrame s s1 :
  stall_check emptyFrame s = (Ok tt, s1) ->
  let n := if emptyFrame then uint (mNumberConsecutiveEmptyFrames s + 1) else 0 in
  s1 = with_mNumberConsecutiveEmptyFrames n s /\ n < 500.
Proof.
  unfold stall_check, checkIfTooManyConsecutiveEmptyFrames, error. cbn zeta.
  destruct (500 <=? _) eqn:T; [discriminate |].
  intros [= <-]. split; [reflexivity |]. apply Z.leb_gt in T. exact T.
Qed.

(** The three ways the part after the fetch can return. *)
Lemma processFrames_Ok_inv nextFrameName nextFrameNumber cvMats cM cE cI s d s' :
  processFrames true nextFrameName nextFrameNumber cvMats cM cE cI [] s
  = (Ok d, s') ->
  match d with
  | Some (d0 :: _) =>
      (exists m0 rest, cvMats = m0 :: rest /\ Mat_empty m0 = false) /\
      Mat_empty (cvInputData d0) = false /\
      mGlobalCounter s' = ull (mGlobalCounter s + 1) /\
      mNumberConsecutiveEmptyFrames s' = 0
  | Some [] =>
      cvMats = [] /\
      mGlobalCounter s' = mGlobalCounter s /\
      mNumberConsecutiveEmptyFrames s'
      = uint (mNumberConsecutiveEmptyFrames s + 1) /\
      mNumberConsecutiveEmptyFrames s' < 500
  | None =>
      (exists m0 rest, cvMats = m0 :: rest /\ Mat_empty m0 = true) /\
      mGlobalCounter s' = mGlobalCounter s /\
      mNumberConsecutiveEmptyFrames s'
      = uint (mNumberConsecutiveEmptyFrames s + 1) /\
      mNumberConsecutiveEmptyFrames s' < 500
  end.
Proof.
  intros E. destruct cvMats as [| m0 rest].
  - rewrite processFrames_no_view in E.
    destruct (stall_check true s) as [[[] | e |] s1] eqn:St; [| discriminate ..].
    injection E as <- <-.
    destruct (stall_check_Ok_inv _ _ _ St) as (-> & Under).
    repeat split. exact Under.
  - rewrite processFrames_views in E.
    destruct (stall_check (Mat_empty m0) s) as [[[] | e |] s1] eqn:St;
      [| discriminate ..].
    destruct (stall_check_Ok_inv _ _ _ St) as (-> & Under).
    destruct (fillDatums _ _ _ _ _ _ _ _) as [[ds | e |] s2] eqn:F;
      [| discriminate ..].
    pose proof (fillDatums_members _ _ _ _ _ _ _ _ _ _ F) as S2.
    rewrite fillDatums_eq in F.
    destruct (decide (in_bounds_at cM cE cI 0)); [| discriminate].
    assert (exists image0,
              Mat_empty image0 = Mat_empty m0 /\
              ds = batch_of nextFrameName nextFrameNumber cM cE cI image0 rest)
      as (image0 & Em & ->).
    { unfold finish_batch in F. destruct (channels m0 =? 3).
      - destruct (decide (in_bounds_from _ _ _ _ _)); [| discriminate].
        injection F as <- _. exists m0. split; reflexivity.
      - destruct (channels m0 =? 1); [| discriminate].
        destruct (decide (in_bounds_from _ _ _ _ _)); [| discriminate].
        injection F as <- _. exists (gray2bgr m0).
        split; [apply gray2bgr_empty | reflexivity]. }
    unfold deliver, batch_of in E. cbn [imap] in E.
    cbn [cvInputData datum_of negb orb] in E. rewrite Em in E.
    destruct (Mat_empty m0) eqn:Empty.
    + injection E as <- <-.
      split; [exists m0, rest; split; [reflexivity | exact Empty] |].
      cbn zeta in Under. destruct S2 as [-> | ->]; repeat split; exact Under.
    + injection E as <- <-.
      split; [exists m0, rest; split; [reflexivity | exact Empty] |].
      cbn [cvInputData datum_of]. split; [exact Em |].
      destruct S2 as [-> | ->]; repeat split.
Qed.

(** The pairs a call can return, and what each tells the caller.  A vector
    with a datum in it comes with [true]: its first image has data, the
    counter of batches went up by one and the count of empty reads is 0.
    An empty vector comes with [false] when the source reported closed, and
    nothing was counted; it comes with [true] when the source was read and
    gave no view.  A null pointer comes with [true] only: the source was
    read and its first view had no data.  A read without a view or without
    data has been counted as an empty read, the count staying under 500; the
    counter of batches is as it was. *)
Theorem returned_pair s b d s' :
  checkIfRunningAndGetDatum s = (Ok (b, d), s') ->
  match d with
  | Some (d0 :: _) =>
      b = true /\
      Mat_empty (cvInputData d0) = false /\
      mGlobalCounter s' = ull (mGlobalCounter s + 1) /\
      mNumberConsecutiveEmptyFrames s' = 0
  | Some [] =>
      mGlobalCounter s' = mGlobalCounter s /\
      if b then
        (exists nextFrameName nextFrameNumber cM cE cI s4,
           fetches s nextFrameName nextFrameNumber [] cM cE cI s4) /\
        mNumberConsecutiveEmptyFrames s'
        = uint (mNumberConsecutiveEmptyFrames s + 1) /\
        mNumberConsecutiveEmptyFrames s' < 500
      else
        mNumberConsecutiveEmptyFrames s' = mNumberConsecutiveEmptyFrames s
  | None =>
      b = true /\
      (exists nextFrameName nextFrameNumber m0 rest cM cE cI s4,
         fetches s nextFrameName nextFrameNumber (m0 :: rest) cM cE cI s4 /\
         Mat_empty m0 = true) /\
      mGlobalCounter s' = mGlobalCounter s /\
      mNumberConsecutiveEmptyFrames s'
      = uint (mNumberConsecutiveEmptyFrames s + 1) /\
      mNumberConsecutiveEmptyFrames s' < 500
  end.
Proof.
  intros E.
  destruct (call_returns_inv _ _ _ E) as (s1 & E1 & [Closed | Open]).
  - destruct Closed as (p2 & _ & [= -> ->] & ->).
    destruct (checkLastFrame_source_only _ _ _ E1) as (_ & G1 & C1 & _).
    split; [exact G1 | exact C1].
  - destruct Open as (p2 & s3 & s4 & nextFrameName & nextFrameNumber & cvMats
                      & cM & cE & cI & d' & E2 & E3 & E4 & E5 & [= -> ->]).
    assert (F : fetches s nextFrameName nextFrameNumber cvMats cM cE cI s4)
      by (exists s1, p2, s3; repeat split; assumption).
    destruct (fetches_members _ _ _ _ _ _ _ _ F) as (_ & G4 & C4 & _).
    pose proof (processFrames_Ok_inv _ _ _ _ _ _ _ _ _ E5) as Inv.
    rewrite G4, C4 in Inv.
    destruct d' as [[| d0 ds] |].
    + destruct Inv as (-> & G & C & Under).
      split; [exact G |]. split; [| split; assumption].
      exists nextFrameName, nextFrameNumber, cM, cE, cI, s4. exact F.
    + destruct Inv as (_ & Data & G & C). repeat split; assumption.
    + destruct Inv as ((m0 & rest & -> & Empty) & G & C & Under).
      split; [reflexivity |]. split; [| repeat split; assumption].
      exists nextFrameName, nextFrameNumber, m0, rest, cM, cE, cI, s4.
      split; assumption.
Qed.

(** A source that is open and has no view to give.  The call returns
    [true] with a pointer to an empty vector, not a null pointer; the read is
    counted as an empty one and the counter of batches stays.  This is the
    outcome while fewer than 499 empty reads precede it. *)
Theorem no_views_read s nextFrameName nextFrameNumber cM cE cI s4 :
  fetches s nextFrameName nextFrameNumber [] cM cE cI s4 ->
  uint (mNumberConsecutiveEmptyFrames s + 1) < 500 ->
  checkIfRunningAndGetDatum s
  = (Ok (true, Some []),
     with_mNumberConsecutiveEmptyFrames
       (uint (mNumberConsecutiveEmptyFrames s + 1)) s4) /\
  mGlobalCounter s4 = mGlobalCounter s.
Proof.
  intros F Under.
  destruct (fetches_members _ _ _ _ _ _ _ _ F) as (_ & G4 & C4 & _).
  rewrite (fetches_call _ _ _ _ _ _ _ _ F), processFrames_no_view.
  rewrite stall_check_empty_under by (rewrite C4; exact Under).
  rewrite C4. split; [reflexivity | exact G4].
Qed.

(** The counter of batches over a run of calls.  On any source, with or
    without an end to the range, and whatever the calls return, errors
    included, [mGlobalCounter] after the run is its value before plus the
    number of calls that handed out a vector with a datum in it, in the
    arithmetic of [unsigned long long]. *)
Theorem counter_counts_batches s :
  0 <= mGlobalCounter s <= ULLONG_MAX ->
  forall ws,
    mGlobalCounter (snd (run_calls ws s))
    = ull (mGlobalCounter s + batches (fst (run_calls ws s))) /\
    mNumberFramesToProcess (snd (run_calls ws s)) = mNumberFramesToProcess s.
Proof.
  intros Counter ws. revert s Counter.
  induction ws as [| w ws IH]; intros s Counter.
  - cbn. unfold batches. cbn. rewrite Z.add_0_r. split; [| reflexivity].
    unfold ull. symmetry. apply Z.mod_small. unfold ULLONG_MAX in *. lia.
  - cbn [run_calls].
    set (s0 := controller_writes w s).
    assert (N0 : mNumberFramesToProcess s0 = mNumberFramesToProcess s)
      by (unfold s0, controller_writes; destruct (spVideoSeek s), w; reflexivity).
    assert (G0 : mGlobalCounter s0 = mGlobalCounter s)
      by (unfold s0, controller_writes; destruct (spVideoSeek s), w; reflexivity).
    destruct (checkIfRunningAndGetDatum s0) as [r s1] eqn:E.
    destruct (call_counter _ _ _ E) as (N1 & G1). rewrite G0 in G1.
    assert (Counter1 : 0 <= mGlobalCounter s1 <= ULLONG_MAX).
    { rewrite G1. destruct (delivered r); [| exact Counter].
      unfold ull, ULLONG_MAX.
      pose proof (Z.mod_pos_bound (mGlobalCounter s + 1) (2 ^ 64)). lia. }
    destruct (IH s1 Counter1) as (IH1 & IH2).
    destruct (run_calls ws s1) as [rs s2]. cbn [fst snd] in *.
    split; [| congruence].
    rewrite IH1, G1. unfold batches. rewrite filter_cons.
    destruct (delivered r); destruct (decide _); cbn [length];
      try congruence.
    unfold ull. rewrite Z.add_mod_idemp_l by lia. f_equal. lia.
Qed.

End Outcomes.

(** ** When the stall check raises its error *)

Section Stall.

Lemma check_empty_under n :
  0 <= n < 499 -> checkIfTooManyConsecutiveEmptyFrames n true = (Ok tt, n + 1).
Proof.
  intros Hn. unfold checkIfTooManyConsecutiveEmptyFrames. cbn zeta.
  assert (U : uint (n + 1) = n + 1) by (unfold uint; apply Z.mod_small; lia).
  rewrite U. destruct (500 <=? n + 1) eqn:T; [apply Z.leb_le in T; lia |].
  reflexivity.
Qed.

Lemma check_empty_at :
  checkIfTooManyConsecutiveEmptyFrames 499 true = (Throw stall_error, 500).
Proof. vm_compute. reflexivity. Qed.

(** From a counter below the threshold the check gives, read after read, a
    counter below the threshold, or the error for a count of 500. *)
Lemma feed_outcomes reads :
  forall n, 0 <= n <= 499 ->
  (exists n', feed reads n = (Ok tt, n') /\ 0 <= n' <= 499) \/
  feed reads n = (Throw stall_error, 500).
Proof.
  induction reads as [| [|] reads IH]; intros n Hn.
  - left. exists n. split; [reflexivity | exact Hn].
  - cbn [feed]. destruct (decide (n = 499)) as [-> | Ne].
    + rewrite check_empty_at. right. reflexivity.
    + rewrite check_empty_under by lia. apply IH. lia.
  - cbn [feed]. change (checkIfTooManyConsecutiveEmptyFrames n false)
      with (Ok tt, 0). apply IH. lia.
Qed.

(** Enough empty reads in a row from the counter [n] raise the error,
    whatever is read after them. *)
Lemma feed_long_run (k : nat) after :
  forall n, 0 <= n <= 499 -> 500 <= n + Z.of_nat k ->
  feed (repeat true k ++ after) n = (Throw stall_error, 500).
Proof.
  induction k as [| k IH]; intros n Hn Hk; [lia |].
  cbn [repeat app feed]. destruct (decide (n = 499)) as [-> | Ne].
  - rewrite check_empty_at. reflexivity.
  - rewrite check_empty_under by lia. apply IH; lia.
Qed.

Lemma long_run_split (k : nat) :
  500 <= Z.of_nat k -> repeat true k = repeat true 500 ++ repeat true (k - 500).
Proof. intros Hk. rewrite <- repeat_app. f_equal. lia. Qed.

(** Reads that do not go through begin with enough empty ones to take the
    counter to 500, or have 500 empty ones in a row further on. *)
Lemma feed_stalls_inv reads :
  forall n, 0 <= n <= 499 -> fst (feed reads n) <> Ok tt ->
  (exists (k : nat) after,
     reads = repeat true k ++ after /\ 500 <= n + Z.of_nat k) \/
  has_empty_run 500 reads.
Proof.
  induction reads as [| [|] reads IH]; intros n Hn Stalls.
  - exfalso. apply Stalls. reflexivity.
  - cbn [feed] in Stalls. destruct (decide (n = 499)) as [-> | Ne].
    + left. exists 1%nat, reads. split; [reflexivity | lia].
    + rewrite check_empty_under in Stalls by lia.
      destruct (IH (n + 1) ltac:(lia) Stalls)
        as [(k & after & -> & Hk) | (before & after & ->)].
      * left. exists (S k), after. split; [reflexivity | lia].
      * right. exists (true :: before), after. reflexivity.
  - cbn [feed] in Stalls.
    change (checkIfTooManyConsecutiveEmptyFrames n false) with (Ok tt, 0)
      in Stalls.
    right.
    destruct (IH 0 ltac:(lia) Stalls)
      as [(k & after & -> & Hk) | (before & after & ->)].
    + exists [false], (repeat true (k - 500) ++ after).
      rewrite (long_run_split k) by lia. rewrite <- app_assoc. reflexivity.
    + exists (false :: before), after. reflexivity.
Qed.

(** The stall error, exactly.  Starting from a counter of 0, the check
    raises its error at some read exactly when the reads contain 500 empty
    ones in a row, and the error is then the one for a count of 500; without
    such a run every read goes through, however many empty reads there are
    in all. *)
Theorem stall_iff_empty_run (reads : list bool) :
  (fst (feed reads 0) = Throw stall_error <-> has_empty_run 500 reads) /\
  (fst (feed reads 0) = Ok tt <-> ~ has_empty_run 500 reads).
Proof.
  assert (Run : has_empty_run 500 reads ->
                fst (feed reads 0) = Throw stall_error).
  { intros (before & after & ->). rewrite feed_app.
    destruct (feed_outcomes before 0 ltac:(lia)) as [(n' & -> & Hn') | ->];
      [| reflexivity].
    rewrite (feed_long_run 500 after n' Hn') by lia. reflexivity. }
  assert (Inv : fst (feed reads 0) <> Ok tt -> has_empty_run 500 reads).
  { intros Stalls.
    destruct (feed_stalls_inv reads 0 ltac:(lia) Stalls)
      as [(k & after & -> & Hk) | Found]; [| exact Found].
    exists [], (repeat true (k - 500) ++ after).
    rewrite (long_run_split k) by lia. rewrite <- app_assoc. reflexivity. }
  split; split.
  - intros E. apply Inv. rewrite E. discriminate.
  - exact Run.
  - intros E Found. rewrite (Run Found) in E. discriminate.
  - intros None.
    destruct (feed_outcomes reads 0 ltac:(lia)) as [(n' & -> & _) | E];
      [reflexivity |].
    exfalso. apply None, Inv. rewrite E. discriminate.
Qed.

End Stall.

(** ** The properties above on sample sources *)

(** What the sample stream keeps: nothing but [release] closes it. *)
Lemma Source_queries_keep_opened (b : bool) :
  @kept_by_queries Source Source_Producer (fun p => src_opened p = b).
Proof.
  repeat split; intros; cbn in *;
    match goal with E : (_, _) = (_, _) |- _ => injection E as _ <- end;
    assumption.
Qed.

Lemma Source_set_keeps_opened (b : bool) :
  @kept_by_set Source Source_Producer (fun p => src_opened p = b).
Proof.
  intros propId value p r p' E I. cbn in E.
  destruct (src_seekable p); injection E as _ <-; exact I.
Qed.

(** What the recording source keeps: only [set] adds a [set] to the
    record. *)
Lemma Recorder_queries_keep_no_seek : @kept_by_queries (list Call) Recorder no_seek.
Proof.
  repeat split; intros; cbn in *;
    match goal with E : (_, _) = (_, _) |- _ => injection E as _ <- end;
    (apply no_seek_app;
     [assumption | apply no_seek_cons; [discriminate | apply no_seek_nil]]).
Qed.

Lemma Recorder_release_keeps_no_seek : @kept_by_release (list Call) Recorder no_seek.
Proof.
  intros p r p' E I. cbn in E. injection E as _ <-.
  apply no_seek_app;
    [assumption | apply no_seek_cons; [discriminate | apply no_seek_nil]].
Qed.

(** A stream with a request to go forward by three frames. *)
Lemma fetching_call_order_witness :
  let s := snd (DatumProducer_new (video [pixel [1; 2; 3]]) 4 10
                  (Some (false, 3))) in
  let d := match fst (checkIfRunningAndGetDatum s) with
           | Ok (_, d) => d
           | _ => None
           end in
  let s' := snd (checkIfRunningAndGetDatum s) in
  exists p1 p2 p4 nextFrameName nextFrameNumber cvMats cM cE cI,
    released s p1 /\
    isOpened p1 = (Ok true, p2) /\
    sought s p2 p4 /\
    fetched p4 (spProducer s') nextFrameName nextFrameNumber cvMats cM cE cI /\
    exists s4,
      processFrames true nextFrameName nextFrameNumber cvMats cM cE cI [] s4
      = (Ok d, s').
Proof.
  intros s d s'.
  assert (E : checkIfRunningAndGetDatum s = (Ok (true, d), s'))
    by (vm_compute; reflexivity).
  exact (fetching_call_order s d s' E).
Defined.

(** A range of one frame after two batches: the counter is past the range,
    the call releases the stream, and the stream is closed after it. *)
Lemma release_iff_past_range_witness :
  let s := snd (run_calls [None; None]
                  (snd (DatumProducer_new (video [pixel [1; 2; 3]]) 0 1 None))) in
  src_opened (spProducer (snd (checkIfRunningAndGetDatum s))) = false.
Proof.
  intros s.
  assert (E : checkIfRunningAndGetDatum s
              = (fst (checkIfRunningAndGetDatum s),
                 snd (checkIfRunningAndGetDatum s)))
    by (vm_compute; reflexivity).
  assert (Past : past_range s = true) by (vm_compute; reflexivity).
  assert (R : release (spProducer s)
              = (Ok tt, src_with_opened false (spProducer s)))
    by (vm_compute; reflexivity).
  exact (proj1 (proj2 (release_iff_past_range s _ _ E
                         (fun p => src_opened p = false)
                         (Source_queries_keep_opened false)
                         (Source_set_keeps_opened false))
                  Past _ _ R) eq_refl).
Defined.

(** Three calls on the recording source, made without a seek channel: its
    record holds no [set]. *)
Lemma no_channel_never_moves_cursor_witness :
  let s := snd (DatumProducer_new ([] : list Call) 0 10 None) in
  let ws := [None; Some (false, 5); None] in
  no_seek (spProducer (snd (run_calls ws s))) /\
  spVideoSeek (snd (run_calls ws s)) = None.
Proof.
  intros s ws.
  assert (K : spVideoSeek s = None) by (vm_compute; reflexivity).
  assert (I : no_seek (spProducer s)).
  { apply (no_seek_cons call_getType []); [discriminate | apply no_seek_nil]. }
  exact (no_channel_never_moves_cursor s K no_seek
           Recorder_queries_keep_no_seek Recorder_release_keeps_no_seek I ws).
Defined.

(** A range from frame 5 to frame 4 has the size of a range without end:
    after three calls the stream is still open. *)
Lemma unbounded_never_releases_witness :
  let s := snd (DatumProducer_new (video [pixel [1; 2; 3]]) 5 4 None) in
  src_opened (spProducer (snd (run_calls [None; None; None] s))) = true.
Proof.
  intros s.
  assert (U : mNumberFramesToProcess s = ULLONG_MAX)
    by (vm_compute; reflexivity).
  assert (I : src_opened (spProducer s) = true) by (vm_compute; reflexivity).
  exact (unbounded_never_releases s U (fun p => src_opened p = true)
           (Source_queries_keep_opened true) (Source_set_keeps_opened true)
           I [None; None; None]).
Defined.

(** A request made on a closed stream is still there after the call. *)
Lemma seek_pair_after_call_witness :
  let s := snd (DatumProducer_new closed_video 0 10 (Some (true, 7))) in
  spVideoSeek (snd (checkIfRunningAndGetDatum s)) = Some (true, 7).
Proof.
  intros s.
  assert (E : checkIfRunningAndGetDatum s
              = (Ok (false, Some []), snd (checkIfRunningAndGetDatum s)))
    by (vm_compute; reflexivity).
  assert (K : spVideoSeek s = Some (true, 7)) by (vm_compute; reflexivity).
  exact (proj1 (proj2 (seek_pair_after_call s _ _ true 7 E K)) (Some []) eq_refl).
Defined.

Lemma constructed_range_witness :
  mNumberFramesToProcess
    (snd (DatumProducer_new (video [pixel [1; 2; 3]]) 5 4 None))
  = ULLONG_MAX.
Proof.
  assert (First : 0 <= 5 <= ULLONG_MAX) by (unfold ULLONG_MAX; lia).
  assert (Last : 0 <= 4 <= ULLONG_MAX) by (unfold ULLONG_MAX; lia).
  exact (proj2 (proj1 (proj2 (proj2
           (constructed_range (video [pixel [1; 2; 3]]) 5 4 None First Last))))
           (or_intror eq_refl)).
Defined.

(** A stream whose first view has no data: [true] with a null pointer. *)
Lemma returned_pair_witness :
  let s := snd (DatumProducer_new (video [no_image 3]) 0 10 None) in
  let s' := snd (checkIfRunningAndGetDatum s) in
  true = true /\
  (exists nextFrameName nextFrameNumber m0 rest cM cE cI s4,
     fetches s nextFrameName nextFrameNumber (m0 :: rest) cM cE cI s4 /\
     Mat_empty m0 = true) /\
  mGlobalCounter s' = mGlobalCounter s /\
  mNumberConsecutiveEmptyFrames s'
  = uint (mNumberConsecutiveEmptyFrames s + 1) /\
  mNumberConsecutiveEmptyFrames s' < 500.
Proof.
  intros s s'.
  assert (E : checkIfRunningAndGetDatum s = (Ok (true, None), s'))
    by (vm_compute; reflexivity).
  exact (returned_pair s true None s' E).
Defined.

(** A stream that is open and gives no view. *)
Lemma no_views_read_witness :
  let s := snd (DatumProducer_new (video []) 0 10 None) in
  let s4 := snd (readProducer (invoked call_isOpened (spProducer s) s)) in
  checkIfRunningAndGetDatum s
  = (Ok (true, Some []),
     with_mNumberConsecutiveEmptyFrames
       (uint (mNumberConsecutiveEmptyFrames s + 1)) s4) /\
  mGlobalCounter s4 = mGlobalCounter s.
Proof.
  intros s s4.
  assert (F : fetches s "frame" 0 [] [] [] [] s4).
  { exists s, (spProducer s), (invoked call_isOpened (spProducer s) s).
    repeat split; vm_compute; reflexivity. }
  assert (Under : uint (mNumberConsecutiveEmptyFrames s + 1) < 500)
    by (vm_compute; reflexivity).
  exact (no_views_read s "frame" 0 [] [] [] s4 F Under).
Defined.

(** Four calls on a range of two frames: three batches, then the release. *)
Lemma counter_counts_batches_witness :
  let s := snd (DatumProducer_new (video [pixel [1; 2; 3]]) 0 2 None) in
  let ws := [None; None; None; None] in
  mGlobalCounter (snd (run_calls ws s))
  = ull (mGlobalCounter s + batches (fst (run_calls ws s))) /\
  mNumberFramesToProcess (snd (run_calls ws s)) = mNumberFramesToProcess s.
Proof.
  intros s ws.
  assert (Counter : 0 <= mGlobalCounter s <= ULLONG_MAX)
    by (vm_compute; split; discriminate).
  exact (counter_counts_batches s Counter ws).
Defined.

(** A stream that is open and never has a view: after 499 calls the count of
    empty reads is 499, and the call after them ends in the stall error. *)
Lemma stall_error_reaches_caller_witness :
  let s := snd (run_calls (repeat None 499)
                  (snd (DatumProducer_new (video []) 0 10 None))) in
  let s3 := invoked call_isOpened (spProducer s) s in
  checkIfRunningAndGetDatum s =
  (Throw (reported stall_error),
   with_mNumberConsecutiveEmptyFrames 500 (snd (readProducer s3))).
Proof.
  intros s s3.
  assert (E1 : checkLastFrame s = (Ok tt, s)) by (vm_compute; reflexivity).
  assert (E2 : isOpened (spProducer s) = (Ok true, spProducer s))
    by (vm_compute; reflexivity).
  assert (E3 : seekVideo (invoked call_isOpened (spProducer s) s) = (Ok tt, s3))
    by (vm_compute; reflexivity).
  assert (E4 : readProducer s3
               = (Ok ("frame", 499, [], [], [], []), snd (readProducer s3)))
    by (vm_compute; reflexivity).
  assert (N : mNumberConsecutiveEmptyFrames s = 499)
    by (vm_compute; reflexivity).
  exact (stall_error_reaches_caller s s (spProducer s) s3 (snd (readProducer s3))
           "frame" 499 [] [] [] [] E1 E2 E3 E4 eq_refl N).
Defined.

(** Two views, camera matrices for both and extrinsics for the first only:
    the call subscripts the extrinsics outside their bounds. *)
Lemma call_out_of_bounds_iff_witness :
  let rig :=
    mkSource Video true true 0%float "frame"
      [pixel [10; 20; 30]; pixel [40; 50; 60]]
      [pixel [1]; pixel [2]] [pixel [3]] [pixel [5]; pixel [6]] in
  let s := snd (DatumProducer_new rig 0 10 None) in
  fst (checkIfRunningAndGetDatum s) = OutOfBounds.
Proof.
  intros rig s.
  set (s4 := snd (readProducer (invoked call_isOpened (spProducer s) s))).
  assert (F : fetches s "frame" 0 [pixel [10; 20; 30]; pixel [40; 50; 60]]
                [pixel [1]; pixel [2]] [pixel [3]] [pixel [5]; pixel [6]] s4).
  { exists s, (spProducer s), (invoked call_isOpened (spProducer s) s).
    repeat split; vm_compute; reflexivity. }
  assert (St : fst (stall_check (Mat_empty (pixel [10; 20; 30])) s4) = Ok tt)
    by (vm_compute; reflexivity).
  assert (Ch : channels (pixel [10; 20; 30]) = 3 \/
               channels (pixel [10; 20; 30]) = 1)
    by (left; vm_compute; reflexivity).
  assert (B : ~ in_bounds_from [pixel [1]; pixel [2]] [pixel [3]]
                  [pixel [5]; pixel [6]] 0 (S (length [pixel [40; 50; 60]]))).
  { intros B. specialize (B 1%nat). unfold in_bounds_at in B. simpl in B. lia. }
  exact (proj2 (call_out_of_bounds_iff s "frame" 0 (pixel [10; 20; 30])
                  [pixel [40; 50; 60]] [pixel [1]; pixel [2]] [pixel [3]]
                  [pixel [5]; pixel [6]] s4 F St Ch) B).
Defined.
